(** * ECG classification pipelines: autoencoder + trees, and vanilla CNN

    A shallow embedding of [project1/code/models/autoencoder_tree.py] and
    [project1/code/models/vanilla_cnn.py].

    The two files are glue over numpy, torch, keras, scikit-learn and
    pytorch-lightning.  What the glue itself decides (dataset selection,
    padding, the layer stack, the binary special case, batching, in-place
    updates, which hyperparameters reach which call) is embedded as written.
    Array and tensor operations the glue calls are embedded by their
    documented shape and data behaviour over an abstract scalar type;
    numerical training steps are interface fields of [Externals]. *)

From Stdlib Require Import ZArith QArith Lia Permutation.
From stdpp Require Import gmap strings list pretty.

Open Scope string_scope.
Open Scope Z_scope.
Open Scope list_scope.
Open Scope nat_scope.

(** ** Exceptions and the error monads *)

Inductive exn : Type :=
| ValueError (args : list string)
| IndexError (msg : string)
| RuntimeError (msg : string)
| AttributeError (attr : string)
| MisconfigurationException (msg : string)
(** Not a Python exception: the step budget of the model of a loop that need
    not end ran out. *)
| OutOfFuel.

Definition result (A : Type) : Type := (exn + A)%type.

Definition ret {A} (a : A) : result A := inr a.
Definition raise {A} (e : exn) : result A := inl e.
Definition bind {A B} (m : result A) (k : A -> result B) : result B :=
  match m with
  | inl e => inl e
  | inr a => k a
  end.

Notation "'let!' x ':=' m 'in' k" := (bind m (fun x => k))
  (at level 10, x pattern, m at level 100, k at level 200,
   format "'[v' 'let!'  x  ':='  m  'in' '/' k ']'").

(** [map_result f l] runs [f] on the elements of [l] from left to right and
    stops at the first exception. *)
Fixpoint map_result {A B} (f : A -> result B) (l : list A) : result (list B) :=
  match l with
  | [] => ret []
  | a :: l' =>
      let! b := f a in
      let! bs := map_result f l' in
      ret (b :: bs)
  end.

(** State and exceptions: the state survives an exception, as the effects
    of a Python statement survive an exception raised by a later one. *)
Definition M (S A : Type) : Type := S -> result A * S.

Definition mret {S A} (a : A) : M S A := fun s => (inr a, s).
Definition mraise {S A} (e : exn) : M S A := fun s => (inl e, s).
Definition mbind {S A B} (m : M S A) (k : A -> M S B) : M S B :=
  fun s =>
    match m s with
    | (inl e, s') => (inl e, s')
    | (inr a, s') => k a s'
    end.
Definition lift {S A} (r : result A) : M S A := fun s => (r, s).
Definition get {S} : M S S := fun s => (inr s, s).
Definition modify {S} (f : S -> S) : M S unit := fun s => (inr tt, f s).

Notation "'do!' x ':=' m 'in' k" := (mbind m (fun x => k))
  (at level 10, x pattern, m at level 100, k at level 200,
   format "'[v' 'do!'  x  ':='  m  'in' '/' k ']'").

(** [wp m s Q]: run from [s], [m] returns a value and a state that satisfy
    [Q]. *)
Definition wp {S A} (m : M S A) (s : S) (Q : A -> S -> Prop) : Prop :=
  match m s with
  | (inr a, s') => Q a s'
  | (inl _, _) => False
  end.

(** [raises_only P m]: every exception [m] can raise satisfies [P]. *)
Definition raises_only {S A} (P : exn -> Prop) (m : M S A) : Prop :=
  forall s e s', m s = (inl e, s') -> P e.

(** ** Scalars

    Array entries are floating-point numbers in the program.  Nothing below
    depends on their arithmetic, so they are an interface. *)

Class Scalar (R : Type) := {
  rzero : R;
  rone : R;
  radd : R -> R -> R;
  rmul : R -> R -> R;
  relu : R -> R;
  sigmoid : R -> R;
  rle : R -> R -> Prop;
  (** [rlt a b] is the comparison [a < b]; it is [false] when an operand is
      not a number. *)
  rlt : R -> R -> bool;
  is_finite : R -> bool
}.

(** ** Arrays and tensors: a shape and row-major data *)

Record tensor (R : Type) : Type := Tensor { shape : list nat; data : list R }.
Arguments Tensor {R} shape data.
Arguments shape {R} _.
Arguments data {R} _.

Definition numel (s : list nat) : nat := foldr Nat.mul 1 s.

Definition wf {R} (t : tensor R) : Prop := length (data t) = numel (shape t).

Definition dim {R} (t : tensor R) : nat := length (shape t).

(** [chunks m cnt l]: the first [cnt] consecutive blocks of [m] entries. *)
Fixpoint chunks {A} (m cnt : nat) (l : list A) : list (list A) :=
  match cnt with
  | 0 => []
  | S c => take m l :: chunks m c (drop m l)
  end.

(** [batched fuel bs l]: consecutive groups of [bs] elements, the last one
    possibly shorter. *)
Fixpoint batched {A} (fuel bs : nat) (l : list A) : list (list A) :=
  match fuel with
  | 0 => []
  | S f =>
      match l with
      | [] => []
      | _ :: _ => take bs l :: batched f bs (drop bs l)
      end
  end.

(** Rows along axis 0: [t[0], t[1], ...]. *)
Definition rows {R} (t : tensor R) : list (tensor R) :=
  match shape t with
  | [] => []
  | n :: s => (fun d => Tensor s d) <$> chunks (numel s) n (data t)
  end.

Module torch.
Section ops.
Context {R : Type} `{Scalar R}.

(** [t.unsqueeze(1)]: a new axis of size 1 at position 1. *)
Definition unsqueeze1 (t : tensor R) : result (tensor R) :=
  match shape t with
  | [] => raise (IndexError "Dimension out of range (expected to be in range of [-1, 0], but got 1)")
  | d :: s => ret (Tensor (d :: 1 :: s) (data t))
  end.

(** [t.squeeze()]: every axis of size 1 is removed. *)
Definition squeeze (t : tensor R) : tensor R :=
  Tensor (filter (fun d => d ≠ 1) (shape t)) (data t).

(** [torch.flatten(t, start_dim=1)]. *)
Definition flatten_from1 (t : tensor R) : result (tensor R) :=
  match shape t with
  | d :: ((_ :: _) as s) => ret (Tensor [d; numel s] (data t))
  | _ => raise (IndexError "Dimension out of range")
  end.

(** [torch.stack(ts)] of tensors of one shape [s]. *)
Definition stack (s : list nat) (ts : list (tensor R)) : tensor R :=
  Tensor (length ts :: s) (concat (data <$> ts)).

(** [torch.cat(ts, 0)]. *)
Definition cat0 (ts : list (tensor R)) : result (tensor R) :=
  match ts with
  | [] => raise (RuntimeError "torch.cat(): expected a non-empty list of Tensors")
  | t0 :: _ =>
      match shape t0 with
      | [] => raise (RuntimeError "zero-dimensional tensor cannot be concatenated")
      | _ :: s =>
          if forallb (fun t => bool_decide (tail (shape t) = s ∧ shape t ≠ [])) ts
          then ret (Tensor (sum_list ((fun t => hd 0 (shape t)) <$> ts) :: s)
                           (concat (data <$> ts)))
          else raise (RuntimeError "Sizes of tensors must match except in dimension 0")
      end
  end.

(** [t.view(-1, k)]. *)
Definition view_rows (k : nat) (t : tensor R) : result (tensor R) :=
  let n := numel (shape t) in
  if bool_decide (k ≠ 0 ∧ n `mod` k = 0)
  then ret (Tensor [n `div` k; k] (data t))
  else raise (RuntimeError "shape is invalid for input size").

(** Elementwise application, as [torch.sigmoid] and [nn.ReLU] do. *)
Definition pointwise (f : R -> R) (t : tensor R) : tensor R :=
  Tensor (shape t) (f <$> data t).

(** *** Layers *)

Record params : Type := Params { weight : list R; bias : list R }.

Inductive nn_Module : Type :=
| Conv1d (in_channels out_channels kernel_size : Z) (p : params)
| ReLU
| Linear (in_features out_features : Z) (p : params).

Definition rsum (init : R) (terms : list R) : R := foldr radd init terms.

(** One output entry of a cross-correlation: output channel [co],
    position [l], over an input of [cin] channels of length [L]. *)
Definition conv1d_entry (p : params) (cin k L co l : nat) (x : list R) : R :=
  rsum (nth co (bias p) rzero)
    ((fun '(ci, j) =>
        rmul (nth ((co * cin + ci) * k + j) (weight p) rzero)
             (nth (ci * L + l + j) x rzero))
       <$> list_prod (seq 0 cin) (seq 0 k)).

(** [nn.Conv1d] on one sample (stride 1, no padding): [cin] channels of
    length [L] in, [cout] channels of length [L - k + 1] out. *)
Definition conv1d_sample (p : params) (cin cout k L : nat) (x : list R)
  : list R :=
  concat ((fun co => (fun l => conv1d_entry p cin k L co l x)
                       <$> seq 0 (L - k + 1)) <$> seq 0 cout).

Definition conv1d_ok (cin cout k : Z) (C L : nat) : bool :=
  (Z.of_nat C =? cin)%Z && (1 <=? k)%Z && (k <=? Z.of_nat L)%Z
  && (0 <=? cout)%Z.

Definition conv1d_forward (cin cout k : Z) (p : params) (t : tensor R)
  : result (tensor R) :=
  match shape t with
  | [C; L] =>
      if conv1d_ok cin cout k C L
      then ret (Tensor [Z.to_nat cout; L - Z.to_nat k + 1]
                  (conv1d_sample p C (Z.to_nat cout) (Z.to_nat k) L (data t)))
      else raise (RuntimeError "conv1d: input does not fit the layer")
  | [N; C; L] =>
      if conv1d_ok cin cout k C L
      then ret (Tensor [N; Z.to_nat cout; L - Z.to_nat k + 1]
                  (concat (conv1d_sample p C (Z.to_nat cout) (Z.to_nat k) L
                             <$> chunks (C * L) N (data t))))
      else raise (RuntimeError "conv1d: input does not fit the layer")
  | _ => raise (RuntimeError "Expected 2D (unbatched) or 3D (batched) input to conv1d")
  end.

(** [nn.Linear] on one row of [fin] features. *)
Definition linear_row (p : params) (fin fout : nat) (x : list R) : list R :=
  (fun o => rsum (nth o (bias p) rzero)
              ((fun i => rmul (nth (o * fin + i) (weight p) rzero)
                              (nth i x rzero)) <$> seq 0 fin))
    <$> seq 0 fout.

Definition linear_forward (fin fout : Z) (p : params) (t : tensor R)
  : result (tensor R) :=
  match last (shape t) with
  | None => raise (RuntimeError "linear: input has no feature axis")
  | Some f =>
      if (Z.of_nat f =? fin)%Z && (0 <=? fout)%Z
      then
        let lead := removelast (shape t) in
        ret (Tensor (lead ++ [Z.to_nat fout])
               (concat (linear_row p f (Z.to_nat fout)
                          <$> chunks f (numel lead) (data t))))
      else raise (RuntimeError "mat1 and mat2 shapes cannot be multiplied")
  end.

Definition module_forward (m : nn_Module) (t : tensor R) : result (tensor R) :=
  match m with
  | Conv1d cin cout k p => conv1d_forward cin cout k p t
  | ReLU => ret (pointwise relu t)
  | Linear fin fout p => linear_forward fin fout p t
  end.

(** [nn.Sequential]: an ordered dictionary of named modules. *)
#[local] Abbreviation Sequential := (list (string * nn_Module)).

(** [net.add_module(name, m)]: a new name is appended; a name already
    present keeps its position and gets the new module. *)
Definition add_module (name : string) (m : nn_Module) (net : Sequential)
  : Sequential :=
  if bool_decide (name ∈ net.*1)
  then (fun kv => if bool_decide (kv.1 = name) then (name, m) else kv) <$> net
  else net ++ [(name, m)].

Fixpoint sequential_forward (net : Sequential) (t : tensor R)
  : result (tensor R) :=
  match net with
  | [] => ret t
  | (_, m) :: net' =>
      let! t' := module_forward m t in
      sequential_forward net' t'
  end.

(** *** Datasets and loaders *)

(** [TensorDataset(t)]: item [i] is [(t[i],)]. *)
Record TensorDataset : Type := { tensors : tensor R }.

Definition mkTensorDataset (t : tensor R) : result TensorDataset :=
  match shape t with
  | [] => raise (IndexError "Dimension specified as 0 but tensor has no dimensions")
  | _ :: _ => ret {| tensors := t |}
  end.

Record DataLoader : Type :=
  { dataset : TensorDataset; batch_size : nat; shuffle : bool }.

(** Iterating a loader that does not shuffle: consecutive groups of
    [batch_size] items, each collated by [torch.stack]; every element
    yielded is the one-element list [[batch]]. *)
Definition iterate (l : DataLoader) : list (list (tensor R)) :=
  let t := tensors (dataset l) in
  let items := rows t in
  (fun b => [stack (tail (shape t)) b])
    <$> batched (length items) (batch_size l) items.
End ops.
Arguments params : clear implicits.
Arguments nn_Module : clear implicits.
Arguments TensorDataset : clear implicits.
Arguments DataLoader : clear implicits.
Abbreviation Sequential R := (list (string * nn_Module R)).
End torch.

(** ** numpy *)

Module np.
Section ops.
Context {R : Type} `{Scalar R}.

(** [np.zeros(s)]. *)
Definition zeros (s : list nat) : tensor R := Tensor s (replicate (numel s) rzero).

(** [np.concatenate((a, b), axis=0)]. *)
Definition concatenate0 (a b : tensor R) : result (tensor R) :=
  match shape a, shape b with
  | [], _ | _, [] =>
      raise (ValueError ["zero-dimensional arrays cannot be concatenated"])
  | n :: s, n' :: s' =>
      if bool_decide (length s = length s')
      then if bool_decide (s = s')
           then ret (Tensor ((n + n') :: s) (data a ++ data b))
           else raise (ValueError ["all the input array dimensions except for the concatenation axis must match exactly"])
      else raise (ValueError ["all the input arrays must have same number of dimensions"])
  end.

(** [np.concatenate((a, b), axis=1)]: block [i] of the result is block [i] of
    [a] followed by block [i] of [b]. *)
Definition concatenate1 (a b : tensor R) : result (tensor R) :=
  match shape a, shape b with
  | [], _ | _, [] =>
      raise (ValueError ["zero-dimensional arrays cannot be concatenated"])
  | n :: sa, n' :: sb =>
      if bool_decide (length sa = length sb)
      then match sa, sb with
           | m :: s, m' :: s' =>
               if bool_decide (n = n' ∧ s = s')
               then ret (Tensor (n :: (m + m') :: s)
                           (concat (zip_with app
                                      (chunks (m * numel s) n (data a))
                                      (chunks (m' * numel s) n (data b)))))
               else raise (ValueError ["all the input array dimensions except for the concatenation axis must match exactly"])
           | _, _ => raise (ValueError ["axis 1 is out of bounds for array of dimension 1"])
           end
      else raise (ValueError ["all the input arrays must have same number of dimensions"])
  end.

(** [np.append(arr, values, axis=1)] is [concatenate((arr, values), axis=1)]. *)
Definition append1 (arr values : tensor R) : result (tensor R) :=
  concatenate1 arr values.
End ops.
End np.

(** ** Python lists and tuples *)

Definition len {A} (l : list A) : Z := Z.of_nat (length l).

(** [l[i]], with Python's negative indices. *)
Definition getitem {A} (l : list A) (i : Z) : result A :=
  let j := if (i <? 0)%Z then (i + len l)%Z else i in
  if (j <? 0)%Z then raise (IndexError "index out of range")
  else match l !! Z.to_nat j with
       | Some a => ret a
       | None => raise (IndexError "index out of range")
       end.

(** [range(n)]. *)
Definition range (n : Z) : list Z := Z.of_nat <$> seq 0 (Z.to_nat n).

(** [a, b = l]. *)
Definition unpack2 {A} (l : list A) : result (A * A) :=
  match l with
  | [a; b] => ret (a, b)
  | [] | [_] => raise (ValueError ["not enough values to unpack (expected 2)"])
  | _ => raise (ValueError ["too many values to unpack (expected 2)"])
  end.

(** ** Objects of the other frameworks, as far as the program configures them *)

Module keras.
Inductive Layer : Type :=
| Conv1D (filters kernel_size strides : Z) (activation : option string)
         (padding : string) (input_shape : option (list Z))
| Conv1DTranspose (filters kernel_size strides : Z) (padding : string)
| Flatten.

Record compile_args : Type :=
  { loss : string; optimizer : string * Q; metrics : list string }.

Inductive Callback : Type :=
| EarlyStopping (monitor : string) (patience : Z).

(** The keyword arguments of [Model.fit] the program could set. *)
Record fit_args : Type :=
  { batch_size : option Z; epochs : Z; shuffle : bool;
    callbacks : list Callback }.

(** [fit] called with no keyword arguments. *)
Definition fit_defaults : fit_args :=
  {| batch_size := None; epochs := 1; shuffle := true; callbacks := [] |}.

Record Model (W : Type) : Type :=
  { layers : list Layer; compiled : option compile_args; weights : W }.
Arguments layers {W} _.
Arguments compiled {W} _.
Arguments weights {W} _.
End keras.

Module sklearn.
Record ExtraTreesClassifier (F : Type) : Type :=
  { n_estimators : Z; fitted : option F }.
Arguments n_estimators {F} _.
Arguments fitted {F} _.
End sklearn.

Module torchmetrics.
(** State of [torchmetrics.Accuracy()]. *)
Record Accuracy : Type := { correct : nat; total : nat }.
End torchmetrics.

Module pl.
(** [EarlyStopping(monitor=..., mode=...)]; [patience] is the number of
    validation checks without improvement after which training stops,
    [wait_count] and [best_score] are the callback's running state
    ([None]: no score seen yet). *)
Record EarlyStopping (R : Type) : Type :=
  { monitor : string; mode : string; patience : nat;
    wait_count : nat; best_score : option R }.
Arguments monitor {R} _.
Arguments mode {R} _.
Arguments patience {R} _.
Arguments wait_count {R} _.
Arguments best_score {R} _.

(** The framework's default when [patience] is not passed. *)
Definition default_patience : nat := 3.

Definition mkEarlyStopping {R} (monitor mode : string) : EarlyStopping R :=
  {| monitor := monitor; mode := mode; patience := default_patience;
     wait_count := 0; best_score := None |}.

Record Trainer (R : Type) : Type :=
  { gpus : Z; max_epochs : Z; callbacks : list (EarlyStopping R);
    default_root_dir : string;
    current_epoch : nat; should_stop : bool }.
Arguments gpus {R} _.
Arguments max_epochs {R} _.
Arguments callbacks {R} _.
Arguments default_root_dir {R} _.
Arguments current_epoch {R} _.
Arguments should_stop {R} _.
End pl.

(** ** What the program imports but this repository part does not define

    [datasets], [utils] and [config] are modules of the repository outside
    the two files; the rest are the numerical parts of the frameworks.
    Random choices read and advance an explicit generator state. *)

Class Externals (R : Type) : Type := {
  RNG : Type;
  KerasWeights : Type;
  Forest : Type;
  (* datasets.py: X, y, X_test, y_test *)
  load_arrhythmia_dataset : tensor R * tensor R * tensor R * tensor R;
  load_PTB_dataset : tensor R * tensor R * tensor R * tensor R;
  (* utils.py *)
  set_seeds : Z -> RNG;
  upsample : tensor R -> tensor R -> tensor R * tensor R;
  get_debug_data :
    tensor R -> tensor R -> tensor R -> tensor R -> tensor R -> tensor R ->
    tensor R * tensor R * tensor R * tensor R * tensor R * tensor R;
  prepare_datasets :
    tensor R -> tensor R -> tensor R -> tensor R -> bool -> option string ->
    RNG ->
    (torch.TensorDataset R * torch.TensorDataset R * torch.TensorDataset R)
    * RNG;
  (* config.py *)
  USE_GPU : Z;
  (* sklearn *)
  train_test_split :
    tensor R -> tensor R -> Q -> RNG ->
    (tensor R * tensor R * tensor R * tensor R) * RNG;
  forest_fit : Z -> tensor R -> tensor R -> RNG -> Forest * RNG;
  forest_predict : Forest -> tensor R -> tensor R;
  forest_predict_proba : Forest -> tensor R -> tensor R;
  (* keras *)
  keras_init : list keras.Layer -> RNG -> KerasWeights * RNG;
  keras_fit :
    keras.Model KerasWeights -> tensor R -> tensor R -> keras.fit_args ->
    RNG -> KerasWeights * RNG;
  keras_predict : keras.Model KerasWeights -> tensor R -> tensor R;
  (* torch *)
  init_conv1d : Z -> Z -> Z -> RNG -> torch.params R * RNG;
  init_linear : Z -> Z -> RNG -> torch.params R * RNG;
  binary_cross_entropy : tensor R -> tensor R -> result (tensor R);
  cross_entropy : tensor R -> tensor R -> result (tensor R);
  long : tensor R -> tensor R;
  (* torchmetrics: [metric(preds, target)] *)
  accuracy_update :
    torchmetrics.Accuracy -> tensor R -> tensor R -> result torchmetrics.Accuracy
}.

(** ** The world: object store, generator state, and what was handed to
    the frameworks *)

Definition loc : Type := nat.

Inductive event (R : Type) : Type :=
| KerasFit (x y : tensor R) (args : keras.fit_args)
| KerasPredict (x : tensor R)
| ForestFit (x y : tensor R)
| ForestPredict (x : tensor R)
| ForestPredictProba (x : tensor R)
| LightningFit (max_epochs : Z) (callbacks : list (pl.EarlyStopping R))
               (train_batch_size : nat) (train_shuffle : bool)
               (val_batch_size : nat) (val_shuffle : bool)
| Validated (epoch : nat) (val_loss : R)
| Logged (name : string) (value : tensor R)
| LoggedMetric (name : string) (value : torchmetrics.Accuracy).
Arguments KerasFit {R} x y args.
Arguments KerasPredict {R} _.
Arguments ForestFit {R} x y.
Arguments ForestPredict {R} _.
Arguments ForestPredictProba {R} _.
Arguments LightningFit {R} max_epochs callbacks train_batch_size train_shuffle
  val_batch_size val_shuffle.
Arguments Validated {R} epoch val_loss.
Arguments Logged {R} name value.
Arguments LoggedMetric {R} name value.

Record world (R : Type) `{Externals R} : Type := World
  { heap : gmap loc (tensor R); rng : RNG; events : list (event R) }.
Arguments World {R _} heap rng events.
Arguments heap {R _} _.
Arguments rng {R _} _.
Arguments events {R _} _.

Section world_ops.
Context {R : Type} `{Scalar R} `{Externals R}.

Definition alloc (t : tensor R) : M (world R) loc :=
  fun w =>
    let l := fresh (dom (heap w)) in
    (inr l, World (<[l := t]> (heap w)) (rng w) (events w)).

Definition read (l : loc) : M (world R) (tensor R) :=
  fun w =>
    match heap w !! l with
    | Some t => (inr t, w)
    | None => (inl (RuntimeError "no such object"), w)
    end.

Definition write (l : loc) (t : tensor R) : M (world R) unit :=
  modify (fun w => World (<[l := t]> (heap w)) (rng w) (events w)).

Definition emit (e : event R) : M (world R) unit :=
  modify (fun w => World (heap w) (rng w) (events w ++ [e])).

(** A framework call that draws from the generator. *)
Definition random {A} (f : RNG -> A * RNG) : M (world R) A :=
  fun w => let '(a, g) := f (rng w) in (inr a, World (heap w) g (events w)).

Definition seed (g : RNG) : M (world R) unit :=
  modify (fun w => World (heap w) g (events w)).

(** [for x in l: acc = body(x, acc)]. *)
Fixpoint for_each {S A B} (l : list A) (body : A -> B -> M S B) (acc : B)
  : M S B :=
  match l with
  | [] => mret acc
  | a :: l' => do! acc' := body a acc in for_each l' body acc'
  end.
End world_ops.

(** ** vanilla_cnn.py *)

Module vanilla_cnn.

(** The attributes of a [vanillaCNN] object. *)
Record vanillaCNN (R : Type) : Type :=
  { net : torch.Sequential R; fc : torch.nn_Module R; no_classes : Z;
    accuracy : torchmetrics.Accuracy }.
Arguments net {R} _.
Arguments fc {R} _.
Arguments no_classes {R} _.
Arguments accuracy {R} _.

(** What the trainer does with the model inside one epoch: the optimisation
    over the training loader, and the metrics the validation steps log
    ([val_loss], [val_acc]). *)
Class Lightning (R : Type) `{Externals R} : Type := {
  train_epoch : vanillaCNN R -> torch.DataLoader R -> RNG -> vanillaCNN R * RNG;
  validate : vanillaCNN R -> torch.DataLoader R -> R * R
}.

(** Python values a function of this file returns. *)
#[warnings="-register-all"]
Inductive value (R : Type) : Type :=
| VModel (m : vanillaCNN R)
| VTrainer (t : pl.Trainer R)
| VTensor (t : tensor R)
| VTuple (vs : list (value R)).
Arguments VModel {R} m.
Arguments VTrainer {R} t.
Arguments VTensor {R} t.
Arguments VTuple {R} vs.

Section code.
Context {R : Type} `{Scalar R} `{Externals R} `{!Lightning R}.

Definition new_Conv1d (in_channels out_channels kernel_size : Z)
  : M (world R) (torch.nn_Module R) :=
  do! p := random (init_conv1d in_channels out_channels kernel_size) in
  mret (torch.Conv1d in_channels out_channels kernel_size p).

Definition new_Linear (in_features out_features : Z)
  : M (world R) (torch.nn_Module R) :=
  do! p := random (init_linear in_features out_features) in
  mret (torch.Linear in_features out_features p).

Definition __init__ (channels : list Z) (kernel_size output_size no_classes : Z)
  : M (world R) (vanillaCNN R) :=
  do! net :=
    for_each (range (len channels - 1))
      (fun i net =>
         do! c_in := lift (getitem channels i) in
         do! c_out := lift (getitem channels (i + 1)) in
         do! conv := new_Conv1d c_in c_out kernel_size in
         let net := torch.add_module ("cnn" +:+ pretty i) conv net in
         mret (torch.add_module ("act" +:+ pretty i) torch.ReLU net))
      [] in
  do! fc :=
    (if (no_classes =? 2)%Z
     then new_Linear output_size 1
     else new_Linear output_size no_classes) in
  mret {| net := net; fc := fc; no_classes := no_classes;
          accuracy := {| torchmetrics.correct := 0; torchmetrics.total := 0 |} |}.

(** [x.unsqueeze_(1)]: the tensor object [x] itself changes. *)
Definition unsqueeze_ (x : loc) : M (world R) unit :=
  do! t := read x in
  do! t' := lift (torch.unsqueeze1 t) in
  write x t'.

(** [self.net(x)], [x.view(-1, dims[1] * dims[2])], [self.fc(x)]. *)
Definition head (self : vanillaCNN R) (t : tensor R) : result (tensor R) :=
  let! x := torch.sequential_forward (net self) t in
  let dims := shape x in
  let! d1 := getitem dims 1 in
  let! d2 := getitem dims 2 in
  let! x := torch.view_rows (d1 * d2) x in
  torch.module_forward (fc self) x.

Definition forward (self : vanillaCNN R) (x : loc) : M (world R) (tensor R) :=
  do! _ := unsqueeze_ x in
  do! t := read x in
  lift (head self t).

Definition training_step (self : vanillaCNN R) (batch : list loc) (batch_idx : Z)
  : M (world R) (tensor R) :=
  do! (x, y) := lift (unpack2 batch) in
  do! _ := unsqueeze_ x in
  do! t := read x in
  do! output := lift (head self t) in
  do! target := read y in
  do! loss :=
    (if (no_classes self =? 2)%Z
     then
       let output := torch.squeeze output in
       lift (binary_cross_entropy (torch.pointwise sigmoid output) target)
     else lift (cross_entropy output target)) in
  do! _ := emit (Logged "train_loss" loss) in
  mret loss.

(** The method returns [None]; the metric object of [self] is updated. *)
Definition validation_step (self : vanillaCNN R) (batch : list loc) (batch_idx : Z)
  : M (world R) (vanillaCNN R) :=
  do! (x, y) := lift (unpack2 batch) in
  do! y_hat := forward self x in
  do! target := read y in
  do! (y_hat, val_loss) :=
    (if (no_classes self =? 2)%Z
     then
       let y_hat := torch.squeeze y_hat in
       let y_hat := torch.pointwise sigmoid y_hat in
       do! val_loss := lift (binary_cross_entropy y_hat target) in
       mret (y_hat, val_loss)
     else
       do! val_loss := lift (cross_entropy y_hat target) in
       mret (y_hat, val_loss)) in
  do! _ := emit (Logged "val_loss" val_loss) in
  do! acc := lift (accuracy_update (accuracy self) y_hat (long target)) in
  do! _ := emit (LoggedMetric "val_acc" acc) in
  mret {| net := net self; fc := fc self; no_classes := no_classes self;
          accuracy := acc |}.

Definition predict_step (self : vanillaCNN R) (batch : list loc) (batch_idx : Z)
  : M (world R) (tensor R) :=
  do! x :=
    (if (len batch =? 1)%Z
     then lift (getitem batch 0)
     else do! (x, y) := lift (unpack2 batch) in mret x) in
  do! pred := forward self x in
  if (no_classes self =? 2)%Z
  then mret (torch.pointwise sigmoid pred)
  else mret pred.

(** [torch.optim.Adam(self.parameters(), lr=1e-3)]. *)
Definition configure_optimizers (self : vanillaCNN R) : string * Q :=
  ("Adam", 1 # 1000).

(** *** The trainer *)

(** [EarlyStopping(monitor=..., mode=...)]. *)
Definition new_EarlyStopping (monitor mode : string)
  : result (pl.EarlyStopping R) :=
  if bool_decide (mode = "min" ∨ mode = "max")
  then ret (pl.mkEarlyStopping monitor mode)
  else raise (MisconfigurationException "`mode` can be min or max").

(** [pl.Trainer(gpus=..., max_epochs=..., callbacks=..., default_root_dir=...)];
    [max_epochs = -1] asks for training without an epoch limit. *)
Definition new_Trainer (gpus max_epochs : Z)
  (callbacks : list (pl.EarlyStopping R)) (default_root_dir : string)
  : result (pl.Trainer R) :=
  if (max_epochs <? -1)%Z
  then raise (MisconfigurationException "`max_epochs` must be a non-negative integer or -1")
  else ret {| pl.gpus := gpus; pl.max_epochs := max_epochs;
              pl.callbacks := callbacks;
              pl.default_root_dir := default_root_dir;
              pl.current_epoch := 0; pl.should_stop := false |}.

(** Whether [current] improves on the best score so far. *)
Definition improves (mode : string) (current : R) (best : option R) : bool :=
  match best with
  | None => true
  | Some b => if bool_decide (mode = "min") then rlt current b else rlt b current
  end.

(** The callback after a validation run: its new state and whether it asks
    the trainer to stop. *)
Definition early_stopping_check (metrics : list (string * R))
  (cb : pl.EarlyStopping R) : result (pl.EarlyStopping R * bool) :=
  match (list_to_map metrics : gmap string R) !! pl.monitor cb with
  | None => raise (RuntimeError "Early stopping conditioned on metric which is not available")
  | Some current =>
      if negb (is_finite current) then ret (cb, true)
      else if improves (pl.mode cb) current (pl.best_score cb)
      then ret ({| pl.monitor := pl.monitor cb; pl.mode := pl.mode cb;
                   pl.patience := pl.patience cb;
                   pl.wait_count := 0; pl.best_score := Some current |}, false)
      else
        let w := S (pl.wait_count cb) in
        ret ({| pl.monitor := pl.monitor cb; pl.mode := pl.mode cb;
                pl.patience := pl.patience cb;
                pl.wait_count := w; pl.best_score := pl.best_score cb |},
             bool_decide (pl.patience cb ≤ w)%nat)
  end.

(** The fit loop is over when the epoch limit is reached or a callback has
    asked to stop. *)
Definition done (t : pl.Trainer R) : bool :=
  (negb (pl.max_epochs t =? -1)%Z
   && (pl.max_epochs t <=? Z.of_nat (pl.current_epoch t))%Z)
  || pl.should_stop t.

(** One epoch: training, validation, callbacks. *)
Definition run_epoch (t : pl.Trainer R) (model : vanillaCNN R)
  (train_loader val_loader : torch.DataLoader R)
  : M (world R) (pl.Trainer R * vanillaCNN R) :=
  do! model := random (train_epoch model train_loader) in
  let '(val_loss, val_acc) := validate model val_loader in
  do! _ := emit (Validated (pl.current_epoch t) val_loss) in
  do! checks :=
    lift (map_result
            (early_stopping_check [("val_loss", val_loss); ("val_acc", val_acc)])
            (pl.callbacks t)) in
  mret ({| pl.gpus := pl.gpus t; pl.max_epochs := pl.max_epochs t;
           pl.callbacks := checks.*1;
           pl.default_root_dir := pl.default_root_dir t;
           pl.current_epoch := S (pl.current_epoch t);
           pl.should_stop := pl.should_stop t || existsb snd checks |},
        model).

(** The loop itself.  With [max_epochs = -1] it need not end, so it runs on
    a step budget. *)
Fixpoint fit_loop (fuel : nat) (t : pl.Trainer R) (model : vanillaCNN R)
  (train_loader val_loader : torch.DataLoader R)
  : M (world R) (pl.Trainer R * vanillaCNN R) :=
  if done t then mret (t, model)
  else match fuel with
       | 0 => mraise OutOfFuel
       | S fuel' =>
           do! (t', model') := run_epoch t model train_loader val_loader in
           fit_loop fuel' t' model' train_loader val_loader
       end.

(** [trainer.fit(model=..., train_dataloaders=..., val_dataloaders=...)]. *)
Definition fit (fuel : nat) (t : pl.Trainer R) (model : vanillaCNN R)
  (train_loader val_loader : torch.DataLoader R)
  : M (world R) (pl.Trainer R * vanillaCNN R) :=
  do! _ := emit (LightningFit (pl.max_epochs t) (pl.callbacks t)
                   (torch.batch_size train_loader) (torch.shuffle train_loader)
                   (torch.batch_size val_loader) (torch.shuffle val_loader)) in
  fit_loop fuel t model train_loader val_loader.

Definition default_max_epochs : Z := 15.

Definition train_vanilla_cnn (fuel : nat) (channels : list Z)
  (kernel_size cnn_output_size : Z) (dataset : string) (max_epochs : Z)
  : M (world R) (value R) :=
  do! (train_dataset, val_dataset, test_dataset, model) :=
    (if bool_decide (dataset = "mithb") then
       let '(x, y, x_test, y_test) := load_arrhythmia_dataset in
       do! (train_dataset, val_dataset, test_dataset) :=
         random (prepare_datasets x y x_test y_test true None) in
       do! c_last := lift (getitem channels (-1)) in
       do! model := __init__ channels kernel_size (c_last * cnn_output_size) 5 in
       mret (train_dataset, val_dataset, test_dataset, model)
     else if bool_decide (dataset = "ptbdb") then
       let '(x, y, x_test, y_test) := load_PTB_dataset in
       do! (train_dataset, val_dataset, test_dataset) :=
         random (prepare_datasets x y x_test y_test true (Some "torch.float")) in
       do! c_last := lift (getitem channels (-1)) in
       do! model := __init__ channels kernel_size (c_last * cnn_output_size) 2 in
       mret (train_dataset, val_dataset, test_dataset, model)
     else mraise (ValueError ["Incorrect dataset!"])) in
  let train_loader :=
    {| torch.dataset := train_dataset; torch.batch_size := 32;
       torch.shuffle := true |} in
  let val_loader :=
    {| torch.dataset := val_dataset; torch.batch_size := 64;
       torch.shuffle := false |} in
  do! es := lift (new_EarlyStopping "val_loss" "min") in
  do! trainer := lift (new_Trainer USE_GPU max_epochs [es] "saved_models") in
  do! (trainer, model) := fit fuel trainer model train_loader val_loader in
  mret (VTuple [VModel model; VTrainer trainer]).

Definition get_cnn_outputs (model : vanillaCNN R) (X : tensor R)
  : result (tensor R) :=
  let! datset := torch.mkTensorDataset (torch.squeeze X) in
  let loader :=
    {| torch.dataset := datset; torch.batch_size := 64;
       torch.shuffle := false |} in
  let! outputs :=
    map_result
      (fun x =>
         let! x0 := getitem x 0 in
         let! u := torch.unsqueeze1 x0 in
         let! o := torch.sequential_forward (net model) u in
         torch.flatten_from1 o)
      (torch.iterate loader) in
  let! cnn_output := torch.cat0 outputs in
  ret cnn_output.
End code.
End vanilla_cnn.

(** ** autoencoder_tree.py *)

Module autoencoder_tree.

Definition DEBUG : bool := false.
Definition UPSAMPLE : bool := false.
Definition VALIDATION_SPLIT : Q := 1 # 10.
Definition BATCH_SIZE : Z := 128.
Definition EPOCHS : Z := 3.
Definition EARLY_STOPPING_PATIENCE : Z := 2.
Definition FILTER_SIZE : Z := 3.
Definition SEED : Z := 1337.

(** An attribute of an [AutoencoderTree] object: a string, an array object,
    a keras model or the classifier. *)
Inductive attr (R : Type) `{Externals R} : Type :=
| AStr (s : string)
| AArray (l : loc)
| AModel (m : keras.Model KerasWeights)
| AClassifier (c : sklearn.ExtraTreesClassifier Forest).
Arguments AStr {R _} s.
Arguments AArray {R _} l.
Arguments AModel {R _} m.
Arguments AClassifier {R _} c.

(** The object is its attribute dictionary. *)
Abbreviation AutoencoderTree R := (gmap string (attr R)).

Section code.
Context {R : Type} `{Scalar R} `{Externals R}.

Definition getattr_str (self : AutoencoderTree R) (name : string) : result string :=
  match self !! name with
  | Some (AStr s) => ret s
  | _ => raise (AttributeError name)
  end.

Definition getattr_array (self : AutoencoderTree R) (name : string) : result loc :=
  match self !! name with
  | Some (AArray l) => ret l
  | _ => raise (AttributeError name)
  end.

Definition getattr_model (self : AutoencoderTree R) (name : string)
  : result (keras.Model KerasWeights) :=
  match self !! name with
  | Some (AModel m) => ret m
  | _ => raise (AttributeError name)
  end.

Definition getattr_classifier (self : AutoencoderTree R) (name : string)
  : result (sklearn.ExtraTreesClassifier Forest) :=
  match self !! name with
  | Some (AClassifier c) => ret c
  | _ => raise (AttributeError name)
  end.

Definition init_autoencoder (self : AutoencoderTree R)
  : M (world R) (AutoencoderTree R) :=
  let input_shape := [188; 1]%Z in
  let layers :=
    [ keras.Conv1D 8 FILTER_SIZE 2 (Some "relu") "same" (Some input_shape);
      keras.Conv1D 2 FILTER_SIZE 2 (Some "relu") "same" None;
      keras.Conv1DTranspose 2 FILTER_SIZE 2 "same";
      keras.Conv1DTranspose 8 FILTER_SIZE 2 "same";
      keras.Conv1DTranspose 1 1 1 "same" ] in
  do! w := random (keras_init layers) in
  let compile :=
    {| keras.loss := "mse"; keras.optimizer := ("Adam", 1 # 1000);
       keras.metrics := ["mse"] |} in
  mret (<["autoencoder" :=
            AModel {| keras.layers := layers; keras.compiled := Some compile;
                      keras.weights := w |}]> self).

Definition _pad (self : AutoencoderTree R) (X : loc) : M (world R) loc :=
  do! x := read X in
  do! n := lift (getitem (shape x) 0) in
  do! padded := lift (np.append1 x (np.zeros [n; 1; 1])) in
  alloc padded.

Definition load_data (self : AutoencoderTree R) (dataset : string)
  : M (world R) (AutoencoderTree R) :=
  let '(X_mit, y_mit, X_test_mit, y_test_mit) := load_arrhythmia_dataset in
  do! X_mit := alloc X_mit in
  do! y_mit := alloc y_mit in
  do! X_test_mit := alloc X_test_mit in
  do! y_test_mit := alloc y_test_mit in
  let '(X_ptb, y_ptb, X_test_ptb, y_test_ptb) := load_PTB_dataset in
  do! X_ptb := alloc X_ptb in
  do! y_ptb := alloc y_ptb in
  do! X_test_ptb := alloc X_test_ptb in
  do! y_test_ptb := alloc y_test_ptb in
  do! (X, y, X_test, y_test) :=
    (if bool_decide (dataset = "mithb") then
       mret (X_mit, y_mit, X_test_mit, y_test_mit)
     else if bool_decide (dataset = "ptbdb") then
       mret (X_ptb, y_ptb, X_test_ptb, y_test_ptb)
     else mraise (ValueError [dataset; "is not a valid dataset"])) in
  do! X := _pad self X in
  do! X_test := _pad self X_test in
  do! X_mit := _pad self X_mit in
  do! X_ptb := _pad self X_ptb in
  do! Xv := read X in
  do! yv := read y in
  do! (X_train, X_valid, y_train, y_valid) :=
    random (train_test_split Xv yv VALIDATION_SPLIT) in
  do! X_train := alloc X_train in
  do! X_valid := alloc X_valid in
  do! y_train := alloc y_train in
  do! y_valid := alloc y_valid in
  do! (X_train, y_train, X_valid, y_valid, X_test, y_test) :=
    (if DEBUG then
       do! a := read X_train in
       do! b := read y_train in
       do! c := read X_valid in
       do! d := read y_valid in
       do! e := read X_test in
       do! f := read y_test in
       let '(a, b, c, d, e, f) := get_debug_data a b c d e f in
       do! a := alloc a in
       do! b := alloc b in
       do! c := alloc c in
       do! d := alloc d in
       do! e := alloc e in
       do! f := alloc f in
       mret (a, b, c, d, e, f)
     else mret (X_train, y_train, X_valid, y_valid, X_test, y_test)) in
  do! (X_train, y_train) :=
    (if UPSAMPLE then
       do! a := read X_train in
       do! b := read y_train in
       let '(a, b) := upsample a b in
       do! a := alloc a in
       do! b := alloc b in
       mret (a, b)
     else mret (X_train, y_train)) in
  let self := <["X_train" := AArray X_train]> self in
  let self := <["y_train" := AArray y_train]> self in
  let self := <["X_valid" := AArray X_valid]> self in
  let self := <["y_valid" := AArray y_valid]> self in
  let self := <["X_test" := AArray X_test]> self in
  let self := <["y_test" := AArray y_test]> self in
  do! a := read X_mit in
  do! b := read X_ptb in
  do! X_train_full := lift (np.concatenate0 a b) in
  do! X_train_full := alloc X_train_full in
  let self := <["X_train_full" := AArray X_train_full]> self in
  do! a := read y_mit in
  do! b := read y_ptb in
  do! y_train_full := lift (np.concatenate0 a b) in
  do! y_train_full := alloc y_train_full in
  mret (<["y_train_full" := AArray y_train_full]> self).

Definition __init__ (dataset train_ae_on : string)
  : M (world R) (AutoencoderTree R) :=
  do! _ := seed (set_seeds SEED) in
  let self : AutoencoderTree R := {["train_ae_on" := AStr train_ae_on]} in
  do! self := init_autoencoder self in
  do! self := load_data self dataset in
  mret (<["clf" := AClassifier {| sklearn.n_estimators := 100;
                                  sklearn.fitted := None |}]> self).

Definition train (self : AutoencoderTree R) : M (world R) (AutoencoderTree R) :=
  do! train_ae_on := lift (getattr_str self "train_ae_on") in
  do! X_train_ae :=
    (if bool_decide (train_ae_on = "full")
     then lift (getattr_array self "X_train_full")
     else lift (getattr_array self "X_train")) in
  do! autoencoder := lift (getattr_model self "autoencoder") in
  do! x := read X_train_ae in
  let args :=
    {| keras.batch_size := Some BATCH_SIZE; keras.shuffle := true;
       keras.epochs := EPOCHS;
       keras.callbacks := keras.callbacks keras.fit_defaults |} in
  do! _ := emit (KerasFit x x args) in
  do! w := random (keras_fit autoencoder x x args) in
  let autoencoder :=
    {| keras.layers := keras.layers autoencoder;
       keras.compiled := keras.compiled autoencoder; keras.weights := w |} in
  let self := <["autoencoder" := AModel autoencoder]> self in
  do! _ := lift (getitem (keras.layers autoencoder) 1) in
  let featurizer :=
    {| keras.layers := take 2 (keras.layers autoencoder) ++ [keras.Flatten];
       keras.compiled := None; keras.weights := w |} in
  let self := <["featurizer" := AModel featurizer]> self in
  do! X_train := lift (getattr_array self "X_train") in
  do! x := read X_train in
  do! _ := emit (KerasPredict x) in
  let X_train := keras_predict featurizer x in
  do! clf := lift (getattr_classifier self "clf") in
  do! y_train := lift (getattr_array self "y_train") in
  do! y := read y_train in
  do! _ := emit (ForestFit X_train y) in
  do! forest := random (forest_fit (sklearn.n_estimators clf) X_train y) in
  mret (<["clf" := AClassifier {| sklearn.n_estimators := sklearn.n_estimators clf;
                                  sklearn.fitted := Some forest |}]> self).

(** The method returns [None]; the object carries the predictions. *)
Definition predict (self : AutoencoderTree R) : M (world R) (AutoencoderTree R) :=
  do! featurizer := lift (getattr_model self "featurizer") in
  do! X_test := lift (getattr_array self "X_test") in
  do! x := read X_test in
  do! _ := emit (KerasPredict x) in
  let X_test := keras_predict featurizer x in
  do! clf := lift (getattr_classifier self "clf") in
  do! forest :=
    (match sklearn.fitted clf with
     | Some f => mret f
     | None => mraise (RuntimeError "This ExtraTreesClassifier instance is not fitted yet")
     end) in
  do! _ := emit (ForestPredict X_test) in
  do! y_pred := alloc (forest_predict forest X_test) in
  let self := <["y_pred" := AArray y_pred]> self in
  do! _ := emit (ForestPredictProba X_test) in
  do! y_pred_proba := alloc (forest_predict_proba forest X_test) in
  mret (<["y_pred_proba" := AArray y_pred_proba]> self).
End code.
End autoencoder_tree.

(** ** A small concrete instance, to run the definitions

    Integer scalars, a counter as generator state, tiny datasets, a split
    that takes the first sample for validation, and training steps that
    leave the model as it is. *)

Module toy.

#[export] Instance Z_scalar : Scalar Z :=
  {| rzero := 0%Z; rone := 1%Z; radd := Z.add; rmul := Z.mul;
     relu := Z.max 0; sigmoid := fun x => if (0 <? x)%Z then 1%Z else 0%Z;
     rle := Z.le; rlt := Z.ltb; is_finite := fun _ => true |}.

Definition split_first (X y : tensor Z)
  : tensor Z * tensor Z * tensor Z * tensor Z :=
  match shape X, shape y with
  | S n :: s, S n' :: s' =>
      (Tensor (n :: s) (drop (numel s) (data X)),
       Tensor (1 :: s) (take (numel s) (data X)),
       Tensor (n' :: s') (drop (numel s') (data y)),
       Tensor (1 :: s') (take (numel s') (data y)))
  | _, _ => (X, Tensor (0 :: tail (shape X)) [], y, Tensor (0 :: tail (shape y)) [])
  end.

Definition dataset_of (t : tensor Z) : torch.TensorDataset Z :=
  {| torch.tensors := Tensor (length (data t) :: []) (data t) |}.

#[export] Instance externals : Externals Z :=
  {| RNG := nat;
     KerasWeights := nat;
     Forest := nat;
     load_arrhythmia_dataset :=
       (Tensor [3; 2; 1] [1; 2; 3; 4; 5; 6]%Z, Tensor [3] [0; 1; 0]%Z,
        Tensor [1; 2; 1] [7; 8]%Z, Tensor [1] [1]%Z);
     load_PTB_dataset :=
       (Tensor [2; 2; 1] [11; 12; 13; 14]%Z, Tensor [2] [1; 0]%Z,
        Tensor [2; 2; 1] [15; 16; 17; 18]%Z, Tensor [2] [0; 1]%Z);
     set_seeds := fun s => Z.to_nat s;
     upsample := fun X y => (X, y);
     get_debug_data := fun a b c d e f => (a, b, c, d, e, f);
     prepare_datasets := fun x y x_test y_test _ _ g =>
       ((dataset_of x, dataset_of x_test, dataset_of x_test), g);
     USE_GPU := 0%Z;
     train_test_split := fun X y _ g => (split_first X y, S g);
     forest_fit := fun n _ _ g => (g, S g);
     forest_predict := fun _ x => Tensor (take 1 (shape x)) (replicate (hd 0 (shape x)) 0%Z);
     forest_predict_proba := fun _ x => Tensor (take 1 (shape x)) (replicate (hd 0 (shape x)) 1%Z);
     keras_init := fun _ g => (g, S g);
     keras_fit := fun m _ _ _ g => (S (keras.weights m), S g);
     keras_predict := fun _ x => x;
     init_conv1d := fun cin cout k g =>
       (torch.Params (replicate (Z.to_nat (cout * cin * k)) 1%Z)
                     (replicate (Z.to_nat cout) 0%Z), S g);
     init_linear := fun fin fout g =>
       (torch.Params (replicate (Z.to_nat (fout * fin)) 1%Z)
                     (replicate (Z.to_nat fout) 0%Z), S g);
     binary_cross_entropy := fun a b => ret (Tensor [] [0%Z]);
     cross_entropy := fun a b => ret (Tensor [] [1%Z]);
     long := fun y => y;
     accuracy_update := fun acc preds target =>
       ret {| torchmetrics.correct := torchmetrics.correct acc;
              torchmetrics.total :=
                torchmetrics.total acc + hd 0 (shape target) |} |}.

(** The validation loss is 9 after every epoch: the first check sets the
    best score, the later ones do not improve on it. *)
#[export] Instance lightning : vanilla_cnn.Lightning Z :=
  {| vanilla_cnn.train_epoch := fun m _ g => (m, S g);
     vanilla_cnn.validate := fun _ _ => (9%Z, 0%Z) |}.

Definition w0 : world Z := World ∅ 0 [].

(** A binary classifier with one convolution, and a batch for it. *)
Definition model2 : vanilla_cnn.vanillaCNN Z :=
  {| vanilla_cnn.net :=
       [("cnn0", torch.Conv1d 1 2 2 (torch.Params [1; 1; 1; 1] [0; 0])%Z);
        ("act0", torch.ReLU)];
     vanilla_cnn.fc := torch.Linear 4 1 (torch.Params [1; 1; 1; 1] [0])%Z;
     vanilla_cnn.no_classes := 2;
     vanilla_cnn.accuracy := {| torchmetrics.correct := 0; torchmetrics.total := 0 |} |}.

Definition batch_x : tensor Z := Tensor [2; 3] [1; 2; 3; 4; 5; 6]%Z.
Definition batch_y : tensor Z := Tensor [2] [0; 1]%Z.
Definition w_batch : world Z := World (<[1 := batch_y]> {[0 := batch_x]}) 0 [].

Definition output2 : tensor Z :=
  Eval vm_compute in
    match vanilla_cnn.head model2 (Tensor [2; 1; 3] (data batch_x)) with
    | inr o => o
    | inl _ => Tensor [] []
    end.

(** A model without layers ([channels = [1]]) and one with two
    convolutions. *)
Definition model0 : vanilla_cnn.vanillaCNN Z :=
  {| vanilla_cnn.net := [];
     vanilla_cnn.fc := torch.Linear 4 5 (torch.Params (replicate 20 1) (replicate 5 0))%Z;
     vanilla_cnn.no_classes := 5;
     vanilla_cnn.accuracy := {| torchmetrics.correct := 0; torchmetrics.total := 0 |} |}.

Definition model3 : vanilla_cnn.vanillaCNN Z :=
  {| vanilla_cnn.net :=
       [("cnn0", torch.Conv1d 1 2 2 (torch.Params (replicate 4 1) [0; 0])%Z);
        ("act0", torch.ReLU);
        ("cnn1", torch.Conv1d 2 3 2 (torch.Params (replicate 12 1) [0; 0; 0])%Z);
        ("act1", torch.ReLU)];
     vanilla_cnn.fc := torch.Linear 6 5 (torch.Params (replicate 30 1) (replicate 5 0))%Z;
     vanilla_cnn.no_classes := 5;
     vanilla_cnn.accuracy := {| torchmetrics.correct := 0; torchmetrics.total := 0 |} |}.

Definition one_sample : tensor Z := Tensor [1; 4; 1] [1; 2; 3; 4]%Z.
Definition no_sample : tensor Z := Tensor [0; 4; 1] [].
Definition three_samples : tensor Z :=
  Tensor [3; 4; 1] [1; 2; 3; 4; 5; 6; 7; 8; 9; 10; 11; 12]%Z.

(** An [AutoencoderTree] built on ['mithb'], then trained. *)
Definition built : result (autoencoder_tree.AutoencoderTree Z) * world Z :=
  autoencoder_tree.__init__ "mithb" "full" w0.
Definition built_self : autoencoder_tree.AutoencoderTree Z :=
  match built.1 with inr s => s | inl _ => ∅ end.
Definition trained : result (autoencoder_tree.AutoencoderTree Z) * world Z :=
  autoencoder_tree.train built_self built.2.
Definition trained_self : autoencoder_tree.AutoencoderTree Z :=
  match trained.1 with inr s => s | inl _ => ∅ end.

Definition attr_array (self : autoencoder_tree.AutoencoderTree Z)
  (name : string) : loc :=
  match autoencoder_tree.getattr_array self name with inr l => l | inl _ => 0 end.
Definition attr_model (self : autoencoder_tree.AutoencoderTree Z)
  (name : string) : keras.Model nat :=
  match autoencoder_tree.getattr_model self name with
  | inr m => m
  | inl _ => {| keras.layers := []; keras.compiled := None; keras.weights := 0 |}
  end.
Definition attr_classifier (self : autoencoder_tree.AutoencoderTree Z)
  (name : string) : sklearn.ExtraTreesClassifier nat :=
  match autoencoder_tree.getattr_classifier self name with
  | inr c => c
  | inl _ => {| sklearn.n_estimators := 0; sklearn.fitted := None |}
  end.
Definition object_at (w : world Z) (l : loc) : tensor Z :=
  default (Tensor [] []) (heap w !! l).

End toy.

(** ** Notions the statements below use *)

Section notions.
Context {R : Type} `{Scalar R} `{Externals R}.

(** An array of shape [(n, m, 1)] with a zero appended to each of its [n]
    samples. *)
Definition padded (X : tensor R) : tensor R :=
  match shape X with
  | [n; m; 1] =>
      Tensor [n; m + 1; 1]
        (concat ((fun sample => sample ++ [rzero]) <$> chunks m n (data X)))
  | _ => X
  end.

(** What a layer does to one sample of [C] channels of length [L]: the
    sample's new shape, and its new data. *)
Definition module_sample_shape (m : torch.nn_Module R) (C L : nat)
  : result (nat * nat) :=
  match m with
  | torch.Conv1d cin cout k _ =>
      if torch.conv1d_ok cin cout k C L
      then ret (Z.to_nat cout, L - Z.to_nat k + 1)
      else raise (RuntimeError "conv1d: input does not fit the layer")
  | torch.ReLU => ret (C, L)
  | torch.Linear fin fout _ =>
      if (Z.of_nat L =? fin)%Z && (0 <=? fout)%Z
      then ret (C, Z.to_nat fout)
      else raise (RuntimeError "mat1 and mat2 shapes cannot be multiplied")
  end.

Definition module_sample (m : torch.nn_Module R) (C L : nat) (d : list R)
  : list R :=
  match m with
  | torch.Conv1d cin cout k p =>
      torch.conv1d_sample p C (Z.to_nat cout) (Z.to_nat k) L d
  | torch.ReLU => relu <$> d
  | torch.Linear fin fout p =>
      concat (torch.linear_row p L (Z.to_nat fout) <$> chunks L C d)
  end.

Fixpoint net_sample_shape (net : torch.Sequential R) (C L : nat)
  : result (nat * nat) :=
  match net with
  | [] => ret (C, L)
  | (_, m) :: net' =>
      let! (C', L') := module_sample_shape m C L in
      net_sample_shape net' C' L'
  end.

Fixpoint net_sample (net : torch.Sequential R) (C L : nat) (d : list R)
  : list R :=
  match net with
  | [] => d
  | (_, m) :: net' =>
      match module_sample_shape m C L with
      | inr (C', L') => net_sample net' C' L' (module_sample m C L d)
      | inl _ => d
      end
  end.

(** The first [j] convolution blocks of the stack built from [channels]:
    entry [2 i] is the convolution from [channels[i]] to [channels[i + 1]],
    entry [2 i + 1] a ReLU. *)
Definition conv_stack (channels : list Z) (k : Z) (j : nat)
  (net : torch.Sequential R) : Prop :=
  length net = 2 * j /\
  forall i, i < j ->
    exists ci co p,
      channels !! i = Some ci /\ channels !! (S i) = Some co /\
      net !! (2 * i) =
        Some ("cnn" +:+ pretty (Z.of_nat i), torch.Conv1d ci co k p) /\
      net !! (2 * i + 1) = Some ("act" +:+ pretty (Z.of_nat i), torch.ReLU).

(** The validation losses the trainer saw, in order. *)
Definition val_history (evs : list (event R)) : list R :=
  omap (fun e => match e with Validated _ l => Some l | _ => None end) evs.

(** The number of most recent validation checks that did not improve on
    the best loss before them (mode [min]); a loss that is not finite never
    counts as an improvement. *)
Fixpoint stalled_from (best : option R) (count : nat) (h : list R) : nat :=
  match h with
  | [] => count
  | l :: h' =>
      if is_finite l && vanilla_cnn.improves "min" l best
      then stalled_from (Some l) 0 h'
      else stalled_from best (S count) h'
  end.

Definition stalled (h : list R) : nat := stalled_from None 0 h.

(** The callback's state sums up the history [h]: whatever comes next, the
    count over the whole history continues from the callback's count. *)
Definition tracks (cb : pl.EarlyStopping R) (h : list R) : Prop :=
  forall h', stalled (h ++ h') =
             stalled_from (pl.best_score cb) (pl.wait_count cb) h'.

(** No epoch ran after the loss had stalled [p] times: every proper prefix
    of the history has stalled fewer than [p] times. *)
Definition never_past_patience (p : nat) (h : list R) : Prop :=
  forall h1 h2, h = h1 ++ h2 -> h2 ≠ [] -> stalled h1 < p.

(** What holds of the trainer of [train_vanilla_cnn] between epochs, [h]
    being the validation losses so far. *)
Definition fit_inv (E : Z) (t : pl.Trainer R) (h : list R) : Prop :=
  pl.max_epochs t = E /\
  pl.current_epoch t = length h /\
  (E ≠ (-1)%Z -> (Z.of_nat (length h) <= E)%Z) /\
  never_past_patience pl.default_patience h /\
  exists cb,
    pl.callbacks t = [cb] /\ pl.monitor cb = "val_loss" /\
    pl.mode cb = "min" /\ pl.patience cb = pl.default_patience /\
    (pl.should_stop t = false ->
     tracks cb h /\ pl.wait_count cb < pl.default_patience).

(** The events a computation added to the world. *)
Definition new_events (w w' : world R) : list (event R) :=
  drop (length (events w)) (events w').
End notions.

(** ** Further notions: partial correctness, failure, and the stack's output *)

(** [post m s Q]: if [m], run from [s], returns, then the value and the
    state satisfy [Q]. *)
Definition post {S A} (m : M S A) (s : S) (Q : A -> S -> Prop) : Prop :=
  forall a s', m s = (inr a, s') -> Q a s'.

(** [fails_with e m s Q]: run from [s], [m] raises [e], in a state that
    satisfies [Q]. *)
Definition fails_with {S A} (e : exn) (m : M S A) (s : S) (Q : S -> Prop)
  : Prop :=
  exists s', m s = (inl e, s') /\ Q s'.

(** The length of a signal of length [L] after [layers] convolutions of
    kernel size [k] (stride 1, no padding). *)
Definition conv_length (L layers k : nat) : nat := L - layers * (k - 1).

(** The number of epochs run when the validation loss never improves after
    the first epoch: one epoch sets the best score, [pl.default_patience]
    more exhaust the patience, unless the epoch limit [E] comes first
    ([E = -1]: no limit). *)
Definition epochs_on_plateau (E : Z) : nat :=
  if (E =? -1)%Z then S pl.default_patience
  else Nat.min (Z.to_nat E) (S pl.default_patience).

Section more_notions.
Context {R : Type} `{Scalar R} `{Externals R}.

(** The object after [load_data]: the eight data attributes are set to
    array objects. *)
Definition with_data (self : autoencoder_tree.AutoencoderTree R)
    (lXtr lytr lXva lyva lXt lyt lXf lyf : loc)
  : autoencoder_tree.AutoencoderTree R :=
  <["y_train_full" := autoencoder_tree.AArray lyf]>
    (<["X_train_full" := autoencoder_tree.AArray lXf]>
       (<["y_test" := autoencoder_tree.AArray lyt]>
          (<["X_test" := autoencoder_tree.AArray lXt]>
             (<["y_valid" := autoencoder_tree.AArray lyva]>
                (<["X_valid" := autoencoder_tree.AArray lXva]>
                   (<["y_train" := autoencoder_tree.AArray lytr]>
                      (<["X_train" := autoencoder_tree.AArray lXtr]> self))))))).

(** The layers [init_autoencoder] stacks. *)
Definition autoencoder_layers : list keras.Layer :=
  [ keras.Conv1D 8 3 2 (Some "relu") "same" (Some [188; 1]%Z);
    keras.Conv1D 2 3 2 (Some "relu") "same" None;
    keras.Conv1DTranspose 2 3 2 "same";
    keras.Conv1DTranspose 8 3 2 "same";
    keras.Conv1DTranspose 1 1 1 "same" ].

(** The model [train] builds from the autoencoder [ae] once fitted to the
    weights [kw]: its first two layers and a [Flatten], on the same weights. *)
Definition featurizer_of (ae : keras.Model KerasWeights) (kw : KerasWeights)
  : keras.Model KerasWeights :=
  {| keras.layers := take 2 (keras.layers ae) ++ [keras.Flatten];
     keras.compiled := None; keras.weights := kw |}.

(** The autoencoder [init_autoencoder] builds, on the weights [kw]. *)
Definition autoencoder_of (kw : KerasWeights) : keras.Model KerasWeights :=
  {| keras.layers := autoencoder_layers;
     keras.compiled :=
       Some {| keras.loss := "mse"; keras.optimizer := ("Adam", 1 # 1000);
               keras.metrics := ["mse"] |};
     keras.weights := kw |}.

(** The keyword arguments of the [fit] call in [train]. *)
Definition train_fit_args : keras.fit_args :=
  {| keras.batch_size := Some 128%Z; keras.epochs := 3%Z;
     keras.shuffle := true; keras.callbacks := [] |}.

(** The trainer of [train_vanilla_cnn] before the first epoch, and after
    [i >= 1] epochs that all gave the validation loss [c]. *)
Definition trainer_start (E : Z) : pl.Trainer R :=
  {| pl.gpus := USE_GPU; pl.max_epochs := E;
     pl.callbacks := [pl.mkEarlyStopping "val_loss" "min"];
     pl.default_root_dir := "saved_models";
     pl.current_epoch := 0; pl.should_stop := false |}.

Definition trainer_on_plateau (E : Z) (c : R) (i : nat) : pl.Trainer R :=
  {| pl.gpus := USE_GPU; pl.max_epochs := E;
     pl.callbacks :=
       [{| pl.monitor := "val_loss"; pl.mode := "min";
           pl.patience := pl.default_patience;
           pl.wait_count := i - 1; pl.best_score := Some c |}];
     pl.default_root_dir := "saved_models";
     pl.current_epoch := i;
     pl.should_stop := bool_decide (S pl.default_patience ≤ i) |}.
End more_notions.

(** ** More concrete inputs *)

Module toy_inputs.
Import toy.

(** Loaders as in [toy.externals], except that the signals of the second
    dataset have 3 entries where those of the first have 2. *)
Definition externals_uneven : Externals Z :=
  {| RNG := nat;
     KerasWeights := nat;
     Forest := nat;
     load_arrhythmia_dataset :=
       (Tensor [3; 2; 1] [1; 2; 3; 4; 5; 6]%Z, Tensor [3] [0; 1; 0]%Z,
        Tensor [1; 2; 1] [7; 8]%Z, Tensor [1] [1]%Z);
     load_PTB_dataset :=
       (Tensor [2; 3; 1] [11; 12; 13; 14; 15; 16]%Z, Tensor [2] [1; 0]%Z,
        Tensor [1; 3; 1] [17; 18; 19]%Z, Tensor [1] [0]%Z);
     set_seeds := fun s => Z.to_nat s;
     upsample := fun X y => (X, y);
     get_debug_data := fun a b c d e f => (a, b, c, d, e, f);
     prepare_datasets := fun x y x_test y_test _ _ g =>
       ((dataset_of x, dataset_of x_test, dataset_of x_test), g);
     USE_GPU := 0%Z;
     train_test_split := fun X y _ g => (split_first X y, S g);
     forest_fit := fun n _ _ g => (g, S g);
     forest_predict := fun _ x => x;
     forest_predict_proba := fun _ x => x;
     keras_init := fun _ g => (g, S g);
     keras_fit := fun m _ _ _ g => (S (keras.weights m), S g);
     keras_predict := fun _ x => x;
     init_conv1d := fun cin cout k g => (torch.Params [] [], S g);
     init_linear := fun fin fout g => (torch.Params [] [], S g);
     binary_cross_entropy := fun a b => ret (Tensor [] [0%Z]);
     cross_entropy := fun a b => ret (Tensor [] [1%Z]);
     long := fun y => y;
     accuracy_update := fun acc preds target => ret acc |}.

Definition w0_uneven : @world Z externals_uneven :=
  @World Z externals_uneven ∅ 0 [].

(** A store with one array that has no channel axis, and one with a tensor
    without axes. *)
Definition w_flat : world Z := World {[0 := batch_x]} 0 [].
Definition w_scalar : world Z := World {[0 := Tensor [] [5]%Z]} 0 [].

(** An [AutoencoderTree] whose [train_ae_on] is neither ['full'] nor
    ['same']. *)
Definition built_other : result (autoencoder_tree.AutoencoderTree Z) * world Z :=
  autoencoder_tree.__init__ "mithb" "other" w0.
Definition other_self : autoencoder_tree.AutoencoderTree Z :=
  match built_other.1 with inr s => s | inl _ => ∅ end.

(** A binary classifier as [__init__] builds it. *)
Definition made : result (vanilla_cnn.vanillaCNN Z) * world Z :=
  vanilla_cnn.__init__ [1; 2]%Z 2 4 2 w0.
Definition made_model : vanilla_cnn.vanillaCNN Z :=
  match made.1 with inr m => m | inl _ => model0 end.

(** The features of [three_samples] under [model3]. *)
Definition features3 : tensor Z :=
  Eval vm_compute in
    match vanilla_cnn.get_cnn_outputs model3 three_samples with
    | inr o => o
    | inl _ => Tensor [] []
    end.
End toy_inputs.

(** * Properties *)

(** ** Blocks of a list *)

Section chunk_facts.
Context {A : Type}.
Implicit Types (l : list A) (ls : list (list A)).

Lemma length_chunks m n l : length (chunks m n l) = n.
Proof. revert l. induction n as [|n IH]; intros l; simpl; [done|]. by rewrite IH. Qed.

Lemma chunks_lookup m n l i :
  i < n -> chunks m n l !! i = Some (take m (drop (i * m) l)).
Proof.
  revert l i. induction n as [|n IH]; intros l i Hi; [lia|].
  destruct i as [|i]; simpl; [done|].
  rewrite IH by lia. by rewrite drop_drop.
Qed.

Lemma chunks_Forall_length m n l :
  length l = n * m -> Forall (fun r => length r = m) (chunks m n l).
Proof.
  revert l. induction n as [|n IH]; intros l Hl; simpl; constructor.
  - rewrite length_take. lia.
  - apply IH. rewrite length_drop. lia.
Qed.

Lemma concat_chunks m n l : length l = n * m -> concat (chunks m n l) = l.
Proof.
  revert l. induction n as [|n IH]; intros l Hl; simpl.
  - by destruct l.
  - rewrite IH; [apply take_drop|]. rewrite length_drop. lia.
Qed.

Lemma chunks_concat m ls :
  Forall (fun r => length r = m) ls -> chunks m (length ls) (concat ls) = ls.
Proof.
  induction 1 as [|r ls Hr _ IH]; simpl; [done|].
  rewrite take_app_length', drop_app_length' by done. by rewrite IH.
Qed.

Lemma chunks_app m n n' l l' :
  length l = n * m -> chunks m (n + n') (l ++ l') = chunks m n l ++ chunks m n' l'.
Proof.
  revert l. induction n as [|n IH]; intros l Hl; simpl.
  - by destruct l.
  - assert (m ≤ length l) by lia.
    rewrite take_app_le, drop_app_le by done.
    rewrite IH; [done|]. rewrite length_drop. lia.
Qed.

Lemma chunks_concat_nested k c ls :
  Forall (fun r => length r = c * k) ls ->
  chunks k (length ls * c) (concat ls) = concat (chunks k c <$> ls).
Proof.
  induction 1 as [|r ls Hr _ IH]; simpl; [done|].
  rewrite chunks_app by done. by rewrite IH.
Qed.

Lemma lookup_concat_uniform k ls i j :
  Forall (fun r => length r = k) ls -> j < k ->
  concat ls !! (i * k + j) = ls !! i ≫= (fun r => r !! j).
Proof.
  intros Hls Hj. revert i. induction Hls as [|r ls Hr _ IH]; intros i; [done|].
  destruct i as [|i]; simpl.
  - rewrite lookup_app_l by lia. done.
  - rewrite lookup_app_r by lia.
    replace (k + i * k + j - length r) with (i * k + j) by lia. apply IH.
Qed.

Lemma length_concat_uniform k ls :
  Forall (fun r => length r = k) ls -> length (concat ls) = length ls * k.
Proof. induction 1 as [|r ls Hr _ IH]; simpl; [done|]. rewrite length_app. lia. Qed.

Lemma concat_batched fuel bs l :
  0 < bs -> length l ≤ fuel -> concat (batched fuel bs l) = l.
Proof.
  intros Hbs. revert l. induction fuel as [|fuel IH]; intros l Hl.
  - destruct l; simpl in *; [done|lia].
  - destruct l as [|a l]; [done|].
    cbn [batched concat]. rewrite IH; [apply take_drop|].
    rewrite length_drop. simpl in *. lia.
Qed.

Lemma batched_nonempty fuel bs l :
  0 < bs -> Forall (fun g => g ≠ []) (batched fuel bs l).
Proof.
  intros Hbs. revert l. induction fuel as [|fuel IH]; intros l; [constructor|].
  destruct l as [|a l]; [constructor|].
  cbn [batched]. constructor; [|apply IH].
  destruct bs; [lia|done].
Qed.

Lemma batched_cons fuel bs l :
  0 < bs -> l ≠ [] -> 0 < fuel -> batched fuel bs l ≠ [].
Proof. intros ? ? ?. destruct fuel; [lia|]. by destruct l. Qed.
End chunk_facts.

Lemma chunks_replicate {A} (x : A) m n :
  chunks m n (replicate (n * m) x) = replicate n (replicate m x).
Proof.
  induction n as [|n IH]; simpl; [done|].
  rewrite replicate_add, take_app_length', drop_app_length'
    by (by rewrite length_replicate).
  by rewrite IH.
Qed.

Lemma zip_with_app_replicate {A} (ls : list (list A)) (r : list A) :
  zip_with app ls (replicate (length ls) r) = (fun s => s ++ r) <$> ls.
Proof. induction ls as [|s ls IH]; simpl; [done|]. by rewrite IH. Qed.

(** ** Running binds *)

Lemma mbind_inr {S A B} (m : M S A) (k : A -> M S B) (s s' : S) (a : A) :
  m s = (inr a, s') -> mbind m k s = k a s'.
Proof. intros Hm. unfold mbind. by rewrite Hm. Qed.

Lemma mbind_inl {S A B} (m : M S A) (k : A -> M S B) (s s' : S) (e : exn) :
  m s = (inl e, s') -> mbind m k s = (inl e, s').
Proof. intros Hm. unfold mbind. by rewrite Hm. Qed.

(** ** Padding *)

Section pad_facts.
Context {R : Type} `{Scalar R} `{Externals R}.

Lemma numel_n11 n : numel [n; 1; 1] = n * 1.
Proof. unfold numel. simpl. lia. Qed.

Lemma numel_nm1 n m : numel [n; m; 1] = n * m.
Proof. unfold numel. simpl. rewrite !Nat.mul_1_r. done. Qed.

Lemma append1_zeros (x : tensor R) n m :
  shape x = [n; m; 1] ->
  np.append1 x (np.zeros [n; 1; 1]) = ret (padded x).
Proof.
  intros Hs. unfold np.append1, np.concatenate1, padded, np.zeros. rewrite Hs.
  cbn [shape data length].
  rewrite bool_decide_eq_true_2 by done.
  rewrite bool_decide_eq_true_2 by done.
  rewrite numel_n11. cbn [numel foldr].
  rewrite chunks_replicate.
  replace (m * (1 * 1)) with m by lia.
  by rewrite <- zip_with_app_replicate, length_chunks.
Qed.

Lemma padded_shape (x : tensor R) n m :
  shape x = [n; m; 1] -> shape (padded x) = [n; m + 1; 1].
Proof. intros Hs. unfold padded. by rewrite Hs. Qed.

Lemma padded_rows_length (x : tensor R) n m :
  wf x -> shape x = [n; m; 1] ->
  Forall (fun r => length r = m + 1)
    ((fun sample => sample ++ [rzero]) <$> chunks m n (data x)).
Proof.
  intros Hwf Hs.
  assert (length (data x) = n * m) as Hlen.
  { unfold wf in Hwf. by rewrite Hwf, Hs, numel_nm1. }
  pose proof (chunks_Forall_length m n (data x) Hlen) as HF.
  apply Forall_fmap. eapply Forall_impl; [exact HF|].
  intros r Hr. simpl in *. rewrite length_app. simpl. lia.
Qed.

Lemma padded_wf (x : tensor R) n m :
  wf x -> shape x = [n; m; 1] -> wf (padded x).
Proof.
  intros Hwf Hs. pose proof (padded_rows_length x n m Hwf Hs) as Hrows.
  unfold wf, padded. rewrite Hs. cbn [data shape].
  rewrite (length_concat_uniform _ _ Hrows), length_fmap, length_chunks.
  by rewrite numel_nm1.
Qed.

Lemma padded_keeps (x : tensor R) n m i j :
  wf x -> shape x = [n; m; 1] -> i < n -> j < m ->
  data (padded x) !! (i * (m + 1) + j) = data x !! (i * m + j).
Proof.
  intros Hwf Hs Hi Hj. pose proof (padded_rows_length x n m Hwf Hs) as Hrows.
  unfold padded. rewrite Hs. cbn [data].
  rewrite (lookup_concat_uniform _ _ _ _ Hrows) by lia.
  rewrite list_lookup_fmap, chunks_lookup by done. simpl.
  assert (length (data x) = n * m) as Hlen.
  { unfold wf in Hwf. by rewrite Hwf, Hs, numel_nm1. }
  rewrite lookup_app_l by (rewrite length_take, length_drop; nia).
  rewrite lookup_take_lt by done. by rewrite lookup_drop.
Qed.

Lemma padded_zero (x : tensor R) n m i :
  wf x -> shape x = [n; m; 1] -> i < n ->
  data (padded x) !! (i * (m + 1) + m) = Some rzero.
Proof.
  intros Hwf Hs Hi. pose proof (padded_rows_length x n m Hwf Hs) as Hrows.
  unfold padded. rewrite Hs. cbn [data].
  rewrite (lookup_concat_uniform _ _ _ _ Hrows) by lia.
  rewrite list_lookup_fmap, chunks_lookup by done. simpl.
  assert (length (data x) = n * m) as Hlen.
  { unfold wf in Hwf. by rewrite Hwf, Hs, numel_nm1. }
  assert (length (take m (drop (i * m) (data x))) = m) as Hm.
  { rewrite length_take, length_drop. nia. }
  rewrite lookup_app_r by lia. by rewrite Hm, Nat.sub_diag.
Qed.

Lemma _pad_run (self : autoencoder_tree.AutoencoderTree R) (X : loc) (x : tensor R) n m (w : world R) :
  heap w !! X = Some x -> shape x = [n; m; 1] ->
  autoencoder_tree._pad self X w =
    (inr (fresh (dom (heap w))),
     World (<[fresh (dom (heap w)) := padded x]> (heap w)) (rng w) (events w)).
Proof.
  intros Hx Hs. unfold autoencoder_tree._pad, mbind, read, lift.
  rewrite Hx, Hs. cbn [getitem]. simpl.
  by rewrite (append1_zeros x n m Hs).
Qed.

Lemma fresh_loc_None (h : gmap loc (tensor R)) : h !! fresh (dom h) = None.
Proof. apply not_elem_of_dom, is_fresh. Qed.

(** C8: on an array of shape [(n, m, 1)], [_pad] returns a new array of
    shape [(n, m + 1, 1)]; in every sample the first [m] entries are those of
    [X] and the appended last entry is zero; the object [X] is as it was,
    and so is every other object. *)
Theorem C8_pad_appends_zero (self : autoencoder_tree.AutoencoderTree R) (X : loc)
    (x : tensor R) (n m : nat) (w : world R) :
  heap w !! X = Some x -> shape x = [n; m; 1] -> wf x ->
  exists (l : loc) (P : tensor R) (w' : world R),
    autoencoder_tree._pad self X w = (inr l, w') /\
    heap w' !! l = Some P /\
    shape P = [n; m + 1; 1] /\ wf P /\
    (forall i j, i < n -> j < m ->
       data P !! (i * (m + 1) + j) = data x !! (i * m + j)) /\
    (forall i, i < n -> data P !! (i * (m + 1) + m) = Some rzero) /\
    l <> X /\ heap w' !! X = Some x /\
    (forall l', l' <> l -> heap w' !! l' = heap w !! l').
Proof.
  intros Hx Hs Hwf.
  pose proof (fresh_loc_None (heap w)) as Hfresh.
  assert (fresh (dom (heap w)) ≠ X) as Hne by congruence.
  eexists _, _, _. split; [by apply (_pad_run self X x n m)|].
  cbn [heap]. split; [by rewrite lookup_insert_eq|].
  split; [by apply padded_shape|].
  split; [by eapply padded_wf|].
  split; [intros; by apply (padded_keeps x n m)|].
  split; [intros; by apply (padded_zero x n m)|].
  split; [done|].
  split; [by rewrite lookup_insert_ne|].
  intros l' Hl'. by rewrite lookup_insert_ne.
Qed.
End pad_facts.

(** ** The layer stack of [vanillaCNN] *)

Section init_facts.
Context {R : Type} `{Scalar R} `{Externals R} `{!vanilla_cnn.Lightning R}.

Lemma getitem_nat {A} (l : list A) (i : nat) (a : A) :
  l !! i = Some a -> getitem l (Z.of_nat i) = ret a.
Proof.
  intros Hi. unfold getitem.
  rewrite !(proj2 (Z.ltb_ge (Z.of_nat i) 0)) by lia.
  by rewrite Nat2Z.id, Hi.
Qed.

Lemma getitem_last {A} (l : list A) :
  l ≠ [] -> exists a, getitem l (-1) = ret a.
Proof.
  intros Hl. unfold getitem, len.
  destruct l as [|a0 l]; [done|].
  replace (-1 <? 0)%Z with true by done.
  rewrite (proj2 (Z.ltb_ge (-1 + Z.of_nat (length (a0 :: l))) 0))
    by (simpl; lia).
  destruct ((a0 :: l) !! Z.to_nat (-1 + Z.of_nat (length (a0 :: l)))) eqn:E2;
    [by eexists|].
  apply lookup_ge_None in E2. simpl in *. lia.
Qed.

Lemma cnn_name_inj (i j : Z) : "cnn" +:+ pretty i = "cnn" +:+ pretty j -> i = j.
Proof. simpl. intros [= Hp]. by apply (inj pretty). Qed.

Lemma act_name_inj (i j : Z) : "act" +:+ pretty i = "act" +:+ pretty j -> i = j.
Proof. simpl. intros [= Hp]. by apply (inj pretty). Qed.

Lemma cnn_act_name (i j : Z) : "cnn" +:+ pretty i ≠ "act" +:+ pretty j.
Proof. simpl. discriminate. Qed.

Lemma conv_stack_names channels k j (net : torch.Sequential R) name :
  conv_stack channels k j net -> name ∈ net.*1 ->
  exists i, i < j /\
    (name = "cnn" +:+ pretty (Z.of_nat i) \/ name = "act" +:+ pretty (Z.of_nat i)).
Proof.
  intros [Hlen Hent] Hin.
  apply list_elem_of_lookup in Hin as [idx Hidx].
  apply list_lookup_fmap_Some in Hidx as ([nm md] & -> & E). simpl.
  apply lookup_lt_Some in E as Hlt.
  exists (idx `div` 2).
  assert (idx `div` 2 < j) as Hi by (apply Nat.Div0.div_lt_upper_bound; lia).
  split; [done|].
  destruct (Hent _ Hi) as (ci & co & p & _ & _ & Hc & Ha).
  pose proof (Nat.div_mod_eq idx 2) as Hdm.
  pose proof (Nat.mod_upper_bound idx 2 ltac:(lia)) as Hm.
  destruct (decide (idx `mod` 2 = 0)) as [E0|E1].
  - left. assert (2 * (idx `div` 2) = idx) as Heq by lia.
    rewrite Heq, E in Hc. by injection Hc.
  - right. assert (2 * (idx `div` 2) + 1 = idx) as Heq by lia.
    rewrite Heq, E in Ha. by injection Ha.
Qed.

Lemma conv_stack_fresh channels k j (net : torch.Sequential R) :
  conv_stack channels k j net ->
  ~ ("cnn" +:+ pretty (Z.of_nat j)) ∈ net.*1 /\
  ~ ("act" +:+ pretty (Z.of_nat j)) ∈ net.*1.
Proof.
  intros Hst. split; intros Hin;
    destruct (conv_stack_names _ _ _ _ _ Hst Hin) as (i & Hi & [Hn|Hn]).
  - apply cnn_name_inj in Hn. lia.
  - by apply cnn_act_name in Hn.
  - symmetry in Hn. by apply cnn_act_name in Hn.
  - apply act_name_inj in Hn. lia.
Qed.

Lemma conv_stack_step channels k j (net : torch.Sequential R) ci co p :
  conv_stack channels k j net ->
  channels !! j = Some ci -> channels !! (S j) = Some co ->
  conv_stack channels k (S j)
    (torch.add_module ("act" +:+ pretty (Z.of_nat j)) torch.ReLU
       (torch.add_module ("cnn" +:+ pretty (Z.of_nat j))
          (torch.Conv1d ci co k p) net)).
Proof.
  intros Hst Hci Hco.
  destruct (conv_stack_fresh _ _ _ _ Hst) as [Hc Ha].
  destruct Hst as [Hlen Hent].
  unfold torch.add_module at 2.
  rewrite bool_decide_eq_false_2 by done.
  unfold torch.add_module.
  rewrite bool_decide_eq_false_2.
  2:{ rewrite fmap_app, elem_of_app. intros [Hin|Hin]; [done|].
      simpl in Hin. apply list_elem_of_singleton in Hin.
      symmetry in Hin. by apply cnn_act_name in Hin. }
  split.
  - rewrite !length_app. simpl. lia.
  - intros i Hi. destruct (decide (i = j)) as [->|Hne].
    + exists ci, co, p. split; [done|]. split; [done|]. split.
      * rewrite <- app_assoc. simpl. apply list_lookup_middle. lia.
      * apply list_lookup_middle. rewrite length_app. simpl. lia.
    + destruct (Hent i ltac:(lia)) as (ci' & co' & p' & ? & ? & Hc' & Ha').
      exists ci', co', p'. split; [done|]. split; [done|].
      rewrite <- !app_assoc.
      rewrite !lookup_app_l by lia. done.
Qed.

(** The body of the loop in [__init__]. *)
Lemma init_loop channels k (b : nat) : forall (a : nat) net (w : world R),
  a + b + 1 ≤ length channels ->
  conv_stack channels k a net ->
  exists net' g,
    for_each (Z.of_nat <$> seq a b)
      (fun i net =>
         do! c_in := lift (getitem channels i) in
         do! c_out := lift (getitem channels (i + 1)) in
         do! conv := vanilla_cnn.new_Conv1d c_in c_out k in
         let net := torch.add_module ("cnn" +:+ pretty i) conv net in
         mret (torch.add_module ("act" +:+ pretty i) torch.ReLU net))
      net w = (inr net', World (heap w) g (events w)) /\
    conv_stack channels k (a + b) net'.
Proof.
  induction b as [|b IH]; intros a net w Hlen Hst.
  - exists net, (rng w). simpl. unfold mret. rewrite Nat.add_0_r.
    split; [by destruct w|done].
  - destruct (lookup_lt_is_Some_2 channels a ltac:(lia)) as [ci Hci].
    destruct (lookup_lt_is_Some_2 channels (S a) ltac:(lia)) as [co Hco].
    cbn [seq fmap list_fmap for_each].
    unfold mbind at 1. unfold mbind at 1. unfold lift at 1.
    rewrite (getitem_nat _ _ _ Hci).
    unfold mbind at 1. unfold lift at 1.
    replace (Z.of_nat a + 1)%Z with (Z.of_nat (S a)) by lia.
    rewrite (getitem_nat _ _ _ Hco).
    unfold ret. unfold mbind at 1. unfold vanilla_cnn.new_Conv1d at 1.
    unfold mbind at 1. unfold random at 1.
    destruct (init_conv1d ci co k (rng w)) as [p g] eqn:Ep.
    unfold mret at 1. unfold mret at 1.
    pose proof (conv_stack_step channels k a net ci co p Hst Hci Hco) as Hst'.
    destruct (IH (S a) _ (World (heap w) g (events w)) ltac:(lia) Hst')
      as (net' & g' & Hrun & Hfin).
    exists net', g'. split.
    + exact Hrun.
    + by replace (a + S b) with (S a + b) by lia.
Qed.

Lemma range_pred_len {A} (l : list A) :
  range (len l - 1) = Z.of_nat <$> seq 0 (length l - 1).
Proof. unfold range, len. f_equal. f_equal. lia. Qed.

Lemma init_run channels k out nc (w : world R) :
  exists model g,
    vanilla_cnn.__init__ channels k out nc w
      = (inr model, World (heap w) g (events w)) /\
    conv_stack channels k (length channels - 1) (vanilla_cnn.net model) /\
    vanilla_cnn.no_classes model = nc /\
    exists p, vanilla_cnn.fc model
              = torch.Linear out (if (nc =? 2)%Z then 1%Z else nc) p.
Proof.
  unfold vanilla_cnn.__init__. rewrite range_pred_len.
  assert (conv_stack channels k 0 ([] : torch.Sequential R)) as Hst0.
  { split; [done|]. intros i Hi. lia. }
  destruct channels as [|c0 channels].
  - simpl. unfold mbind, mret. simpl.
    destruct (nc =? 2)%Z; unfold vanilla_cnn.new_Linear, mbind, random, mret.
    + destruct (init_linear out 1 (rng w)) as [p g].
      eexists _, g. split; [done|]. simpl. eauto.
    + destruct (init_linear out nc (rng w)) as [p g].
      eexists _, g. split; [done|]. simpl. eauto.
  - destruct (init_loop (c0 :: channels) k (length (c0 :: channels) - 1) 0 [] w
                ltac:(simpl; lia) Hst0) as (net' & g & Hrun & Hfin).
    rewrite (mbind_inr _ _ _ _ _ Hrun).
    unfold mbind, mret.
    destruct (nc =? 2)%Z; unfold vanilla_cnn.new_Linear, mbind, random, mret;
      cbn [rng heap events].
    + destruct (init_linear out 1 g) as [p g'].
      eexists _, g'. split; [done|]. simpl. eauto.
    + destruct (init_linear out nc g) as [p g'].
      eexists _, g'. split; [done|]. simpl. eauto.
Qed.

End init_facts.

(** ** [forward], [training_step], [predict_step] *)

Section step_facts.
Context {R : Type} `{Scalar R} `{Externals R} `{!vanilla_cnn.Lightning R}.

Lemma unsqueeze__run (x : loc) (t : tensor R) d s (w : world R) :
  heap w !! x = Some t -> shape t = d :: s ->
  vanilla_cnn.unsqueeze_ x w =
    (inr tt, World (<[x := Tensor (d :: 1 :: s) (data t)]> (heap w))
               (rng w) (events w)).
Proof.
  intros Hx Hs. unfold vanilla_cnn.unsqueeze_, mbind, read, lift, write, modify.
  rewrite Hx. unfold torch.unsqueeze1. by rewrite Hs.
Qed.

Lemma forward_run (self : vanilla_cnn.vanillaCNN R) (x : loc) (t : tensor R)
    d s (w : world R) :
  heap w !! x = Some t -> shape t = d :: s ->
  vanilla_cnn.forward self x w =
    (vanilla_cnn.head self (Tensor (d :: 1 :: s) (data t)),
     World (<[x := Tensor (d :: 1 :: s) (data t)]> (heap w)) (rng w) (events w)).
Proof.
  intros Hx Hs. unfold vanilla_cnn.forward.
  rewrite (mbind_inr _ _ _ _ _ (unsqueeze__run x t d s w Hx Hs)).
  unfold mbind, read, lift. cbn [heap]. by rewrite lookup_insert_eq.
Qed.

Lemma training_step_heap (self : vanilla_cnn.vanillaCNN R) (x y : loc)
    (idx : Z) (t : tensor R) d s (w : world R) :
  heap w !! x = Some t -> shape t = d :: s ->
  heap (vanilla_cnn.training_step self [x; y] idx w).2
    = <[x := Tensor (d :: 1 :: s) (data t)]> (heap w).
Proof.
  intros Hx Hs. unfold vanilla_cnn.training_step.
  unfold mbind at 1. unfold lift at 1. cbn [unpack2 ret].
  rewrite (mbind_inr _ _ _ _ _ (unsqueeze__run x t d s w Hx Hs)).
  unfold mbind, read, lift, emit, modify, mret. cbn [heap].
  rewrite lookup_insert_eq.
  repeat (case_match; simplify_eq; try done).
Qed.

(** C10: [forward] and [training_step] change their input in place: after
    the call the object [x] the caller passed has a new axis of size 1 at
    position 1, whether or not the rest of the call succeeds; no other
    object changes. *)
Theorem C10_input_unsqueezed_in_place (self : vanilla_cnn.vanillaCNN R)
    (x y : loc) (idx : Z) (t : tensor R) (d : nat) (s : list nat) (w : world R) :
  heap w !! x = Some t -> shape t = d :: s ->
  let t' := Tensor (d :: 1 :: s) (data t) in
  heap (vanilla_cnn.forward self x w).2 = <[x := t']> (heap w) /\
  heap (vanilla_cnn.training_step self [x; y] idx w).2 = <[x := t']> (heap w) /\
  t' <> t.
Proof.
  intros Hx Hs t'. split; [|split].
  - by rewrite (forward_run self x t d s w Hx Hs).
  - by apply training_step_heap.
  - intros Heq. apply (f_equal shape) in Heq. subst t'. cbn [shape] in Heq.
    rewrite Hs in Heq. injection Heq as Heq.
    apply (f_equal length) in Heq. simpl in Heq. lia.
Qed.

Lemma predict_step_run (self : vanilla_cnn.vanillaCNN R) (batch : list loc)
    (x y : loc) (idx : Z) (w : world R) :
  batch = [x] \/ batch = [x; y] ->
  vanilla_cnn.predict_step self batch idx w =
    match vanilla_cnn.forward self x w with
    | (inr pred, w') =>
        (inr (if (vanilla_cnn.no_classes self =? 2)%Z
              then torch.pointwise sigmoid pred else pred), w')
    | (inl e, w') => (inl e, w')
    end.
Proof.
  intros [-> | ->]; unfold vanilla_cnn.predict_step;
    unfold mbind at 1; cbn [len length Z.of_nat Z.eqb Pos.eqb Pos.of_succ_nat
                            Pos.succ lift getitem unpack2 ret mbind mret];
    simpl; unfold mbind;
    destruct (vanilla_cnn.forward self x w) as [[e|pred] w'];
    try done; by destruct (vanilla_cnn.no_classes self =? 2)%Z.
Qed.

Lemma predict_step_sigmoid (self : vanilla_cnn.vanillaCNN R) (batch : list loc)
    (idx : Z) (w : world R) (out : tensor R) :
  vanilla_cnn.no_classes self = 2%Z ->
  (vanilla_cnn.predict_step self batch idx w).1 = inr out ->
  exists pred, out = torch.pointwise sigmoid pred.
Proof.
  intros Hnc. unfold vanilla_cnn.predict_step. rewrite Hnc. simpl.
  unfold mbind.
  repeat (case_match; simplify_eq; try done); unfold mret; simpl;
    intros [= <-]; by eexists.
Qed.

Lemma training_step_loss (self : vanilla_cnn.vanillaCNN R) (x y : loc)
    (idx : Z) (t output target : tensor R) d s (w : world R) :
  heap w !! x = Some t -> shape t = d :: s ->
  vanilla_cnn.head self (Tensor (d :: 1 :: s) (data t)) = ret output ->
  <[x := Tensor (d :: 1 :: s) (data t)]> (heap w) !! y = Some target ->
  (vanilla_cnn.training_step self [x; y] idx w).1 =
    if (vanilla_cnn.no_classes self =? 2)%Z
    then binary_cross_entropy
           (torch.pointwise sigmoid (torch.squeeze output)) target
    else cross_entropy output target.
Proof.
  intros Hx Hs Hhead Hy. unfold vanilla_cnn.training_step.
  unfold mbind at 1. unfold lift at 1. cbn [unpack2 ret].
  rewrite (mbind_inr _ _ _ _ _ (unsqueeze__run x t d s w Hx Hs)).
  unfold mbind, read, lift, emit, modify, mret. cbn [heap].
  rewrite lookup_insert_eq, Hhead. unfold ret. cbn [heap]. rewrite Hy.
  destruct (vanilla_cnn.no_classes self =? 2)%Z.
  - by destruct (binary_cross_entropy _ _).
  - by destruct (cross_entropy _ _).
Qed.

Lemma validation_step_loss (self : vanilla_cnn.vanillaCNN R) (x y : loc)
    (idx : Z) (t output target loss : tensor R) d s (w : world R) :
  heap w !! x = Some t -> shape t = d :: s ->
  vanilla_cnn.head self (Tensor (d :: 1 :: s) (data t)) = ret output ->
  <[x := Tensor (d :: 1 :: s) (data t)]> (heap w) !! y = Some target ->
  (if (vanilla_cnn.no_classes self =? 2)%Z
   then binary_cross_entropy
          (torch.pointwise sigmoid (torch.squeeze output)) target
   else cross_entropy output target) = ret loss ->
  exists rest,
    events (vanilla_cnn.validation_step self [x; y] idx w).2
      = events w ++ Logged "val_loss" loss :: rest.
Proof.
  intros Hx Hs Hhead Hy Hloss. unfold vanilla_cnn.validation_step.
  unfold mbind at 1. unfold lift at 1. cbn [unpack2 ret].
  unfold mbind at 1. rewrite (forward_run self x t d s w Hx Hs), Hhead.
  unfold ret at 1.
  unfold mbind at 1. unfold read at 1. cbn [heap]. rewrite Hy.
  unfold mbind at 1.
  destruct (vanilla_cnn.no_classes self =? 2)%Z;
    unfold mbind at 1; unfold lift at 1; rewrite Hloss; unfold ret at 1;
    unfold mret at 1;
    unfold mbind, emit, modify, lift, mret; cbn [heap rng events];
    destruct (accuracy_update _ _ _); cbn [events snd];
    rewrite <- ?app_assoc; by eexists.
Qed.

End step_facts.

(** ** Layers act sample by sample *)

Section batch_facts.
Context {R : Type} `{Scalar R} `{Externals R} `{!vanilla_cnn.Lightning R}.

Lemma fmap_concat' {A B} (f : A -> B) (ls : list (list A)) :
  f <$> concat ls = concat (fmap (M:=list) f <$> ls).
Proof. induction ls as [|l ls IH]; simpl; [done|]. by rewrite fmap_app, IH. Qed.

Lemma concat_concat' {A} (lss : list (list (list A))) :
  concat (concat lss) = concat (@concat A <$> lss).
Proof. induction lss as [|ls lss IH]; simpl; [done|]. by rewrite concat_app, IH. Qed.

Lemma map_result_ok {A B} (f : A -> result B) (g : A -> B) (l : list A) :
  Forall (fun a => f a = ret (g a)) l -> map_result f l = ret (g <$> l).
Proof.
  induction 1 as [|a l Ha _ IH]; simpl; [done|]. by rewrite Ha, IH.
Qed.

Lemma map_result_err {A B} (f : A -> result B) (e : exn) (a : A) (l : list A) :
  f a = raise e -> map_result f (a :: l) = raise e.
Proof. intros Ha. simpl. by rewrite Ha. Qed.

Lemma map_result_ok' {A A' B} (f : A' -> result B) (h : A -> A')
    (g : A -> B) (l : list A) :
  Forall (fun a => f (h a) = ret (g a)) l ->
  map_result f (h <$> l) = ret (g <$> l).
Proof.
  induction 1 as [|a l Ha _ IH]; [done|].
  cbn [fmap list_fmap map_result]. rewrite Ha.
  change (list_fmap A A' h l) with (h <$> l). by rewrite IH.
Qed.

Lemma numel_squeezed (s : list nat) :
  numel (filter (fun d => d ≠ 1) s) = numel s.
Proof.
  induction s as [|d s IH]; [done|].
  destruct (decide (d = 1)) as [->|Hd].
  - rewrite filter_cons_False by (intros ?; done). simpl. rewrite IH.
    unfold numel. lia.
  - rewrite filter_cons_True by done. simpl. by rewrite IH.
Qed.

Lemma length_conv1d_sample (p : torch.params R) cin cout k L (x : list R) :
  length (torch.conv1d_sample p cin cout k L x) = cout * (L - k + 1).
Proof.
  unfold torch.conv1d_sample.
  rewrite (length_concat_uniform (L - k + 1)).
  - by rewrite length_fmap, length_seq.
  - apply Forall_fmap, Forall_forall. intros co _. simpl.
    by rewrite length_fmap, length_seq.
Qed.

Lemma length_linear_rows (p : torch.params R) fin fout (rs : list (list R)) :
  length (concat (torch.linear_row p fin fout <$> rs)) = length rs * fout.
Proof.
  rewrite (length_concat_uniform fout).
  - by rewrite length_fmap.
  - apply Forall_fmap, Forall_forall. intros r _. simpl.
    unfold torch.linear_row. by rewrite length_fmap, length_seq.
Qed.

Lemma length_module_sample (m : torch.nn_Module R) C L C' L' (d : list R) :
  module_sample_shape m C L = ret (C', L') -> length d = C * L ->
  length (module_sample m C L d) = C' * L'.
Proof.
  intros Hs Hd. destruct m as [cin cout k p| |fin fout p]; simpl in *.
  - destruct (torch.conv1d_ok cin cout k C L); [|done].
    injection Hs as <- <-. apply length_conv1d_sample.
  - injection Hs as <- <-. by rewrite length_fmap.
  - destruct ((Z.of_nat L =? fin)%Z && (0 <=? fout)%Z); [|done].
    injection Hs as <- <-.
    by rewrite length_linear_rows, length_chunks.
Qed.

Lemma module_forward_batch (m : torch.nn_Module R) b C L (ds : list (list R)) :
  length ds = b -> Forall (fun d => length d = C * L) ds ->
  torch.module_forward m (Tensor [b; C; L] (concat ds)) =
    (let! (C', L') := module_sample_shape m C L in
     ret (Tensor [b; C'; L'] (concat (module_sample m C L <$> ds)))).
Proof.
  intros Hb Hds. destruct m as [cin cout k p| |fin fout p]; simpl.
  - unfold torch.conv1d_forward. cbn [shape data].
    destruct (torch.conv1d_ok cin cout k C L); [|done].
    simpl. rewrite <- Hb, chunks_concat by done. done.
  - unfold torch.pointwise. cbn [shape data]. by rewrite fmap_concat'.
  - unfold torch.linear_forward. cbn [shape data last removelast].
    destruct ((Z.of_nat L =? fin)%Z && (0 <=? fout)%Z); [|done].
    simpl. unfold ret. do 2 f_equal.
    replace (b * (C * 1)) with (length ds * C) by lia.
    rewrite chunks_concat_nested.
    + rewrite fmap_concat', concat_concat', <- !list_fmap_compose. done.
    + eapply Forall_impl; [exact Hds|]. intros d Hd. simpl in *. lia.
Qed.

Lemma sequential_forward_batch (net : torch.Sequential R) :
  forall b C L (ds : list (list R)),
  length ds = b -> Forall (fun d => length d = C * L) ds ->
  torch.sequential_forward net (Tensor [b; C; L] (concat ds)) =
    (let! (C', L') := net_sample_shape net C L in
     ret (Tensor [b; C'; L'] (concat (net_sample net C L <$> ds)))).
Proof.
  induction net as [|[name m] net IH]; intros b C L ds Hb Hds.
  - simpl. by rewrite list_fmap_id.
  - cbn [torch.sequential_forward net_sample_shape].
    rewrite (module_forward_batch m b C L ds Hb Hds).
    destruct (module_sample_shape m C L) as [e|[C' L']] eqn:Em; [done|].
    cbn [bind ret].
    rewrite IH.
    + destruct (net_sample_shape net C' L') as [e|[C'' L'']]; [done|].
      simpl. unfold ret. do 3 f_equal.
      rewrite <- list_fmap_compose. apply list_fmap_ext.
      intros i d _. simpl. by rewrite Em.
    + by rewrite length_fmap.
    + apply Forall_fmap. eapply Forall_impl; [exact Hds|].
      intros d Hd. simpl. by apply (length_module_sample m C L).
Qed.
End batch_facts.

(** ** [get_cnn_outputs] *)

Section outputs_facts.
Context {R : Type} `{Scalar R} `{Externals R} `{!vanilla_cnn.Lightning R}.

Lemma batched_Forall {A} (P : A -> Prop) fuel bs (l : list A) :
  Forall P l -> Forall (Forall P) (batched fuel bs l).
Proof.
  revert l. induction fuel as [|fuel IH]; intros l Hl; [constructor|].
  destruct l as [|a l]; [constructor|].
  cbn [batched]. constructor.
  - by apply Forall_take.
  - apply IH. by apply Forall_drop.
Qed.

Lemma sum_list_lengths {A} (ls : list (list A)) :
  sum_list (length <$> ls) = length (concat ls).
Proof.
  induction ls as [|l ls IH]; [done|].
  cbn [fmap list_fmap sum_list sum_list_with concat].
  rewrite length_app, <- IH. done.
Qed.

Lemma cat0_uniform (s : list nat) (ts : list (tensor R)) :
  ts ≠ [] -> Forall (fun t => exists d, shape t = d :: s) ts ->
  torch.cat0 ts =
    ret (Tensor (sum_list ((fun t => hd 0 (shape t)) <$> ts) :: s)
                (concat (data <$> ts))).
Proof.
  intros Hne Hts. unfold torch.cat0.
  destruct ts as [|t0 ts]; [done|].
  pose proof (Forall_inv Hts) as [d0 Hd0]. rewrite Hd0.
  replace (forallb _ (t0 :: ts)) with true; [done|].
  symmetry. apply forallb_forall. intros t Ht.
  apply list_elem_of_In in Ht.
  rewrite Forall_forall in Hts. destruct (Hts t Ht) as [d Hd].
  apply bool_decide_eq_true_2. by rewrite Hd.
Qed.

Lemma group_forward (net : torch.Sequential R) (L : nat) (g : list (tensor R)) :
  Forall (fun t => length (data t) = L) g ->
  (let! x0 := getitem [torch.stack [L] g] 0 in
   let! u := torch.unsqueeze1 x0 in
   let! o := torch.sequential_forward net u in
   torch.flatten_from1 o) =
  (let! (C', L') := net_sample_shape net 1 L in
   ret (Tensor [length g; numel [C'; L']]
          (concat (net_sample net 1 L <$> (data <$> g))))).
Proof.
  intros Hg. cbn [getitem]. simpl.
  unfold torch.unsqueeze1, torch.stack. cbn [shape data bind ret].
  rewrite (sequential_forward_batch net (length g) 1 L (data <$> g)).
  - by destruct (net_sample_shape net 1 L) as [e|[C' L']].
  - by rewrite length_fmap.
  - apply Forall_fmap. eapply Forall_impl; [exact Hg|].
    intros t Ht. simpl in *. lia.
Qed.

Lemma get_cnn_outputs_unfold (model : vanilla_cnn.vanillaCNN R) (X : tensor R)
    (n L : nat) (rest : list nat) :
  wf X -> shape X = n :: rest -> filter (fun d => d ≠ 1) rest = [L] ->
  n ≠ 0 -> n ≠ 1 ->
  vanilla_cnn.get_cnn_outputs model X =
    (let! (C', L') := net_sample_shape (vanilla_cnn.net model) 1 L in
     ret (Tensor [n; numel [C'; L']]
            (concat (net_sample (vanilla_cnn.net model) 1 L
                       <$> chunks L n (data X))))) /\
  (let! u := torch.unsqueeze1 (torch.squeeze X) in
   let! o := torch.sequential_forward (vanilla_cnn.net model) u in
   torch.flatten_from1 o) =
    (let! (C', L') := net_sample_shape (vanilla_cnn.net model) 1 L in
     ret (Tensor [n; numel [C'; L']]
            (concat (net_sample (vanilla_cnn.net model) 1 L
                       <$> chunks L n (data X))))).
Proof.
  intros Hwf Hs Hf Hn0 Hn1.
  assert (torch.squeeze X = Tensor [n; L] (data X)) as Hsq.
  { unfold torch.squeeze. rewrite Hs, filter_cons_True, Hf by done. done. }
  assert (length (data X) = n * L) as Hlen.
  { unfold wf in Hwf. rewrite Hwf, Hs. cbn [numel foldr].
    change (foldr Nat.mul 1 rest) with (numel rest).
    rewrite <- (numel_squeezed rest), Hf. unfold numel. simpl. lia. }
  pose proof (chunks_Forall_length L n (data X) Hlen) as Hsamples.
  set (samples := chunks L n (data X)) in *.
  split.
  - unfold vanilla_cnn.get_cnn_outputs. rewrite Hsq.
    unfold torch.mkTensorDataset. cbn [shape bind ret].
    unfold torch.iterate, rows.
    cbn [torch.dataset torch.tensors torch.batch_size shape data tail].
    replace (numel [L]) with L by (unfold numel; simpl; lia).
    fold samples.
    set (items := (fun d => Tensor [L] d) <$> samples).
    assert (Forall (fun t : tensor R => length (data t) = L) items) as Hitems.
    { subst items. apply Forall_fmap. eapply Forall_impl; [exact Hsamples|]. done. }
    assert (length items = n) as Hli.
    { subst items samples. by rewrite length_fmap, length_chunks. }
    set (groups := batched (length items) 64 items).
    assert (Forall (Forall (fun t : tensor R => length (data t) = L)) groups)
      as Hgroups by (by apply batched_Forall).
    assert (concat groups = items) as Hcg by (apply concat_batched; lia).
    assert (groups ≠ []) as Hgne.
    { apply batched_cons; [lia| |lia]. intros E. rewrite E in Hli. simpl in Hli. lia. }
    destruct (net_sample_shape (vanilla_cnn.net model) 1 L) as [e|[C' L']] eqn:Esh.
    + destruct groups as [|g0 groups']; [done|].
      cbn [fmap list_fmap]. erewrite map_result_err; [done|].
      rewrite group_forward by (by inversion Hgroups).
      by rewrite Esh.
    + rewrite (map_result_ok' _ _
        (fun g => Tensor [length g; numel [C'; L']]
                    (concat (net_sample (vanilla_cnn.net model) 1 L <$> (data <$> g))))).
      2:{ eapply Forall_impl; [exact Hgroups|].
          intros g Hg. cbn beta.
          rewrite group_forward by done. by rewrite Esh. }
      cbn [bind ret].
      rewrite (cat0_uniform [numel [C'; L']]).
      * cbn [bind ret]. unfold ret. f_equal. f_equal.
        -- f_equal. rewrite <- !list_fmap_compose.
           replace (sum_list _) with (sum_list (length <$> groups)).
           ++ by rewrite sum_list_lengths, Hcg.
           ++ f_equal.
        -- rewrite <- !list_fmap_compose.
           transitivity (concat (net_sample (vanilla_cnn.net model) 1 L <$> (data <$> concat groups))).
           ++ rewrite !fmap_concat', concat_concat', <- !list_fmap_compose. done.
           ++ rewrite Hcg. subst items. rewrite <- !list_fmap_compose.
              f_equal.
      * intros E. by apply fmap_nil_inv in E.
      * apply Forall_fmap, Forall_forall. intros g _. simpl. eauto.
  - rewrite Hsq. unfold torch.unsqueeze1. cbn [shape data bind ret].
    replace (Tensor [n; 1; L] (data X)) with (Tensor [n; 1; L] (concat samples))
      by (subst samples; by rewrite concat_chunks).
    rewrite (sequential_forward_batch (vanilla_cnn.net model) n 1 L samples).
    + by destruct (net_sample_shape (vanilla_cnn.net model) 1 L) as [e|[C' L']].
    + subst samples. by rewrite length_chunks.
    + eapply Forall_impl; [exact Hsamples|]. intros d Hd. simpl in *. lia.
Qed.
End outputs_facts.

(** ** The fit loop and early stopping *)

Section fit_facts.
Context {R : Type} `{Scalar R} `{Externals R} `{!vanilla_cnn.Lightning R}.

Lemma val_history_app (a b : list (event R)) :
  val_history (a ++ b) = val_history a ++ val_history b.
Proof. unfold val_history. apply omap_app. Qed.

Lemma early_stopping_check_run (l a : R) (cb : pl.EarlyStopping R) :
  pl.monitor cb = "val_loss" ->
  exists cb' stop,
    vanilla_cnn.early_stopping_check [("val_loss", l); ("val_acc", a)] cb
      = ret (cb', stop) /\
    pl.monitor cb' = pl.monitor cb /\ pl.mode cb' = pl.mode cb /\
    pl.patience cb' = pl.patience cb /\
    (if negb (is_finite l) then stop = true
     else if vanilla_cnn.improves (pl.mode cb) l (pl.best_score cb)
          then stop = false /\ pl.wait_count cb' = 0
               /\ pl.best_score cb' = Some l
          else stop = bool_decide (pl.patience cb ≤ S (pl.wait_count cb))
               /\ pl.wait_count cb' = S (pl.wait_count cb)
               /\ pl.best_score cb' = pl.best_score cb).
Proof.
  intros Hmon. unfold vanilla_cnn.early_stopping_check. rewrite Hmon.
  cbn [list_to_map foldr curry fst snd]. rewrite lookup_insert_eq.
  destruct (is_finite l); cbn [negb].
  - destruct (vanilla_cnn.improves (pl.mode cb) l (pl.best_score cb));
      eexists _, _; (split; [done|]); cbn; done.
  - eexists _, _. split; [done|]. done.
Qed.

Lemma never_past_patience_snoc (p : nat) (h : list R) (l : R) :
  never_past_patience p h -> stalled h < p -> never_past_patience p (h ++ [l]).
Proof.
  intros Hh Hst h1 h2 Heq Hne.
  destruct h2 as [|x h2 _] using rev_ind; [done|].
  rewrite app_assoc in Heq. apply app_inj_tail in Heq as [-> ->].
  destruct h2 as [|y h2].
  - by rewrite app_nil_r in Hst.
  - by apply (Hh h1 (y :: h2)).
Qed.

Lemma tracks_nil_count (cb : pl.EarlyStopping R) (h : list R) :
  tracks cb h -> stalled h = pl.wait_count cb.
Proof. intros Ht. specialize (Ht []). by rewrite app_nil_r in Ht. Qed.

Lemma tracks_step (cb cb' : pl.EarlyStopping R) (h : list R) (l : R) :
  tracks cb h -> pl.mode cb = "min" -> is_finite l = true ->
  (if vanilla_cnn.improves "min" l (pl.best_score cb)
   then pl.wait_count cb' = 0 /\ pl.best_score cb' = Some l
   else pl.wait_count cb' = S (pl.wait_count cb)
        /\ pl.best_score cb' = pl.best_score cb) ->
  tracks cb' (h ++ [l]).
Proof.
  intros Ht Hmode Hfin Hstep h'. rewrite <- app_assoc. rewrite Ht.
  cbn [app stalled_from]. rewrite Hfin. cbn [andb].
  destruct (vanilla_cnn.improves "min" l (pl.best_score cb));
    destruct Hstep as [-> ->]; done.
Qed.

Lemma run_epoch_spec (E : Z) (t : pl.Trainer R) (model : vanilla_cnn.vanillaCNN R)
    (tl vl : torch.DataLoader R) (w : world R) (h : list R) :
  fit_inv E t h -> vanilla_cnn.done t = false ->
  exists t' model' g l,
    vanilla_cnn.run_epoch t model tl vl w =
      (inr (t', model'),
       World (heap w) g (events w ++ [Validated (pl.current_epoch t) l])) /\
    fit_inv E t' (h ++ [l]).
Proof.
  intros (HE & Hcur & Hmax & Hnpp & cb & Hcbs & Hmon & Hmode & Hpat & Hrun) Hdone.
  unfold vanilla_cnn.done in Hdone.
  apply orb_false_iff in Hdone as [Hlim Hstop].
  destruct (Hrun Hstop) as [Htr Hwc].
  unfold vanilla_cnn.run_epoch, mbind at 1, random at 1.
  destruct (vanilla_cnn.train_epoch model tl (rng w)) as [model' g].
  destruct (vanilla_cnn.validate model' vl) as [l a].
  destruct (early_stopping_check_run l a cb Hmon)
    as (cb' & stop & Hck & Hmon' & Hmode' & Hpat' & Hcase).
  unfold mbind, emit, modify, lift. cbn [heap rng events].
  rewrite Hcbs. cbn [map_result]. rewrite Hck. cbn [bind ret mret].
  eexists _, model', g, l. split; [done|].
  assert (stalled h < pl.default_patience) as Hsth
    by (by rewrite (tracks_nil_count cb h Htr)).
  split; [done|]. cbn [pl.current_epoch pl.callbacks pl.should_stop pl.max_epochs].
  split; [rewrite length_app; simpl; lia|].
  split.
  { intros HE1. rewrite length_app. simpl.
    rewrite HE in Hlim. apply andb_false_iff in Hlim as [Hl|Hl].
    - apply negb_false_iff, Z.eqb_eq in Hl. done.
    - apply Z.leb_gt in Hl. lia. }
  split; [by apply never_past_patience_snoc|].
  exists cb'. cbn [fmap list_fmap fst existsb snd].
  split; [done|]. split; [congruence|]. split; [congruence|].
  split; [congruence|].
  rewrite Hstop, !orb_false_r. cbn [orb]. intros Hstop'. subst stop.
  destruct (is_finite l) eqn:Hfin; cbn [negb] in Hcase; [|done].
  rewrite Hmode in Hcase.
  destruct (vanilla_cnn.improves "min" l (pl.best_score cb)) eqn:Himp.
  - destruct Hcase as (_ & Hw0 & Hb0). split.
    + apply (tracks_step cb cb' h l Htr Hmode Hfin). by rewrite Himp.
    + rewrite Hw0. unfold pl.default_patience. lia.
  - destruct Hcase as (Hst & Hw1 & Hb1). split.
    + apply (tracks_step cb cb' h l Htr Hmode Hfin). by rewrite Himp.
    + symmetry in Hst. apply bool_decide_eq_false_1 in Hst.
      rewrite Hw1, <- Hpat. lia.
Qed.

Lemma fit_loop_spec (E : Z) (tl vl : torch.DataLoader R) (base : list R)
    (fuel : nat) :
  forall (t : pl.Trainer R) (model : vanilla_cnn.vanillaCNN R) (w : world R)
         (h : list R),
  fit_inv E t h -> val_history (events w) = base ++ h ->
  exists r w' h',
    vanilla_cnn.fit_loop fuel t model tl vl w = (r, w') /\
    val_history (events w') = base ++ h' /\
    (exists new, events w' = events w ++ new /\
                 Forall (fun e => exists i l, e = Validated i l) new) /\
    heap w' = heap w /\
    (E ≠ (-1)%Z -> (Z.of_nat (length h') <= E)%Z) /\
    never_past_patience pl.default_patience h' /\
    (forall t' m', r = inr (t', m') ->
       vanilla_cnn.done t' = true /\ pl.current_epoch t' = length h' /\
       pl.max_epochs t' = E) /\
    (forall e, r = inl e -> e = OutOfFuel) /\
    ((0 <= E)%Z -> Z.to_nat E - length h ≤ fuel -> exists tm, r = inr tm).
Proof.
  induction fuel as [|fuel IH]; intros t model w h Hinv Hev.
  - pose proof Hinv as (HE & Hcur & Hmax & Hnpp & _).
    destruct (vanilla_cnn.done t) eqn:Hdone.
    + exists (inr (t, model)), w, h. cbn [vanilla_cnn.fit_loop]. rewrite Hdone.
      split; [done|]. split; [done|]. split; [exists []; by rewrite app_nil_r|].
      split; [done|]. split; [done|]. split; [done|].
      split; [by intros ? ? [= <- <-]|]. split; [done|]. by eexists.
    + exists (inl OutOfFuel), w, h.
      cbn [vanilla_cnn.fit_loop]. rewrite Hdone.
      split; [done|]. split; [done|]. split; [exists []; by rewrite app_nil_r|].
      split; [done|]. split; [done|]. split; [done|].
      split; [done|]. split; [by intros ? [= <-]|].
      intros HE0 Hfuel. exfalso.
      unfold vanilla_cnn.done in Hdone.
      apply orb_false_iff in Hdone as [Hlim _]. rewrite HE, Hcur in Hlim.
      apply andb_false_iff in Hlim as [Hl|Hl].
      * apply negb_false_iff, Z.eqb_eq in Hl. lia.
      * apply Z.leb_gt in Hl. lia.
  - pose proof Hinv as (HE & Hcur & Hmax & Hnpp & _).
    destruct (vanilla_cnn.done t) eqn:Hdone.
    + exists (inr (t, model)), w, h. cbn [vanilla_cnn.fit_loop]. rewrite Hdone.
      split; [done|]. split; [done|]. split; [exists []; by rewrite app_nil_r|].
      split; [done|]. split; [done|]. split; [done|].
      split; [by intros ? ? [= <- <-]|]. split; [done|]. by eexists.
    + destruct (run_epoch_spec E t model tl vl w h Hinv Hdone)
        as (t' & model' & g & l & Hrun & Hinv').
      cbn [vanilla_cnn.fit_loop]. rewrite Hdone.
      rewrite (mbind_inr _ _ _ _ _ Hrun).
      destruct (IH t' model'
                  (World (heap w) g (events w ++ [Validated (pl.current_epoch t) l]))
                  (h ++ [l]) Hinv')
        as (r & w' & h' & Hloop & Hev' & (new & Hnew & Hval) & Hheap & Hmax'
            & Hnpp' & Hret & Herr & Hfuel).
      { cbn [events]. rewrite val_history_app, Hev, <- app_assoc. done. }
      exists r, w', h'. split; [done|]. split; [done|].
      split.
      { cbn [events] in Hnew. rewrite <- app_assoc in Hnew.
        eexists. split; [exact Hnew|]. constructor; [by eexists _, _|done]. }
      split; [done|]. split; [done|]. split; [done|]. split; [done|].
      split; [done|].
      intros HE0 Hf. apply Hfuel; [done|]. rewrite length_app. simpl. lia.
Qed.
End fit_facts.

(** ** [train_vanilla_cnn] *)

Section train_facts.
Context {R : Type} `{Scalar R} `{Externals R} `{!vanilla_cnn.Lightning R}.

Lemma train_vanilla_cnn_invalid fuel channels k out ds E (w : world R) :
  ds ≠ "mithb" -> ds ≠ "ptbdb" ->
  vanilla_cnn.train_vanilla_cnn fuel channels k out ds E w
    = (inl (ValueError ["Incorrect dataset!"]), w).
Proof.
  intros Hm Hp. unfold vanilla_cnn.train_vanilla_cnn.
  rewrite !bool_decide_eq_false_2 by done. done.
Qed.

Lemma fit_inv_start (E gpus : Z) (dir : string) :
  (-1 <= E)%Z ->
  fit_inv E
    {| pl.gpus := gpus; pl.max_epochs := E;
       pl.callbacks := [pl.mkEarlyStopping "val_loss" "min"];
       pl.default_root_dir := dir; pl.current_epoch := 0;
       pl.should_stop := false |} ([] : list R).
Proof.
  intros HE. split; [done|]. split; [done|]. split; [simpl; lia|].
  split; [by intros [|] [|]|].
  eexists. split; [done|]. split; [done|]. split; [done|]. split; [done|].
  intros _. split; [by intros h'|]. simpl. unfold pl.default_patience. lia.
Qed.

(** What the part of [train_vanilla_cnn] after the choice of dataset does. *)
Lemma train_tail_spec fuel E (train_dataset val_dataset : torch.TensorDataset R)
    (model : vanilla_cnn.vanillaCNN R) (w : world R) :
  (-1 <= E)%Z ->
  exists r w' h new,
    (do! es := lift (vanilla_cnn.new_EarlyStopping "val_loss" "min") in
     do! trainer := lift (vanilla_cnn.new_Trainer USE_GPU E [es] "saved_models") in
     do! (trainer, model) :=
       vanilla_cnn.fit fuel trainer model
         {| torch.dataset := train_dataset; torch.batch_size := 32;
            torch.shuffle := true |}
         {| torch.dataset := val_dataset; torch.batch_size := 64;
            torch.shuffle := false |} in
     mret (vanilla_cnn.VTuple [vanilla_cnn.VModel model;
                               vanilla_cnn.VTrainer trainer])) w = (r, w') /\
    heap w' = heap w /\
    events w' = events w ++
      LightningFit E [pl.mkEarlyStopping "val_loss" "min"] 32 true 64 false
      :: new /\
    Forall (fun e => exists i l, e = Validated i l) new /\
    val_history new = h /\
    (E ≠ (-1)%Z -> (Z.of_nat (length h) <= E)%Z) /\
    never_past_patience pl.default_patience h /\
    (forall e, r = inl e -> e = OutOfFuel) /\
    (forall v, r = inr v ->
       exists model' trainer,
         v = vanilla_cnn.VTuple [vanilla_cnn.VModel model';
                                 vanilla_cnn.VTrainer trainer] /\
         vanilla_cnn.done trainer = true /\
         pl.current_epoch trainer = length h /\ pl.max_epochs trainer = E) /\
    ((0 <= E)%Z -> Z.to_nat E ≤ fuel -> exists v, r = inr v).
Proof.
  intros HE.
  unfold vanilla_cnn.new_EarlyStopping.
  rewrite bool_decide_eq_true_2 by (by left).
  unfold vanilla_cnn.new_Trainer.
  rewrite (proj2 (Z.ltb_ge E (-1))) by lia.
  unfold mbind at 1. unfold lift at 1. unfold ret at 1.
  unfold mbind at 1. unfold lift at 1. unfold ret at 1.
  unfold mbind at 1. unfold vanilla_cnn.fit.
  unfold mbind at 1. unfold emit at 1. unfold modify at 1.
  cbn [pl.max_epochs pl.callbacks torch.batch_size torch.shuffle].
  set (t0 := {| pl.gpus := USE_GPU; pl.max_epochs := E;
                pl.callbacks := [pl.mkEarlyStopping "val_loss" "min"];
                pl.default_root_dir := "saved_models"; pl.current_epoch := 0;
                pl.should_stop := false |}).
  set (w1 := World (heap w) (rng w) (events w ++ _)).
  destruct (fit_loop_spec E
              {| torch.dataset := train_dataset; torch.batch_size := 32;
                 torch.shuffle := true |}
              {| torch.dataset := val_dataset; torch.batch_size := 64;
                 torch.shuffle := false |}
              (val_history (events w1)) fuel t0 model w1 []
              (fit_inv_start E USE_GPU "saved_models" HE)
              ltac:(by rewrite app_nil_r))
    as (r & w' & h' & Hloop & Hev' & (new & Hnew & Hval) & Hheap & Hmax'
        & Hnpp' & Hret & Herr & Hfuel).
  rewrite Hloop.
  assert (val_history new = h') as Hh.
  { rewrite Hnew, val_history_app in Hev'. by apply app_inv_head in Hev'. }
  destruct r as [e|[t' m']].
  - exists (inl e), w', h', new. split; [done|]. split; [done|].
    split; [by rewrite Hnew; subst w1; cbn [events]; rewrite <- app_assoc|].
    split; [done|]. split; [done|]. split; [done|]. split; [done|].
    split; [intros e' [= <-]; by apply Herr|]. split; [done|].
    intros HE0 Hf. destruct (Hfuel HE0) as [tm Htm]; [simpl; lia|done].
  - eexists (inr _), w', h', new. split; [done|]. split; [done|].
    split; [by rewrite Hnew; subst w1; cbn [events]; rewrite <- app_assoc|].
    split; [done|]. split; [done|]. split; [done|]. split; [done|].
    split; [done|]. split.
    + intros v [= <-]. destruct (Hret t' m' eq_refl) as (? & ? & ?).
      by eexists _, _.
    + intros _ _. by eexists.
Qed.

(** The branch of [train_vanilla_cnn] for one dataset. *)
Lemma branch_run (x y xt yt : tensor R) (dtype : option string) (nc : Z)
    (channels : list Z) (k out : Z) (w : world R) :
  (channels = [] /\
   exists g,
     (do! (train_dataset, val_dataset, test_dataset) :=
        random (prepare_datasets x y xt yt true dtype) in
      do! c_last := lift (getitem channels (-1)) in
      do! model := vanilla_cnn.__init__ channels k (c_last * out) nc in
      mret (train_dataset, val_dataset, test_dataset, model)) w
     = (inl (IndexError "index out of range"), World (heap w) g (events w))) \/
  (channels ≠ [] /\
   exists tr va te model g,
     (do! (train_dataset, val_dataset, test_dataset) :=
        random (prepare_datasets x y xt yt true dtype) in
      do! c_last := lift (getitem channels (-1)) in
      do! model := vanilla_cnn.__init__ channels k (c_last * out) nc in
      mret (train_dataset, val_dataset, test_dataset, model)) w
     = (inr (tr, va, te, model), World (heap w) g (events w))).
Proof.
  destruct (decide (channels = [])) as [->|Hch]; [left|right]; (split; [done|]).
  - unfold mbind, random, lift.
    destruct (prepare_datasets x y xt yt true dtype (rng w)) as [[[tr va] te] g1].
    by exists g1.
  - destruct (getitem_last channels Hch) as [c Hc].
    unfold mbind at 1. unfold random at 1.
    destruct (prepare_datasets x y xt yt true dtype (rng w)) as [[[tr va] te] g1].
    unfold mbind at 1. unfold lift at 1. rewrite Hc. unfold ret at 1.
    destruct (init_run channels k (c * out) nc (World (heap w) g1 (events w)))
      as (model & g2 & Hinit & _).
    rewrite (mbind_inr _ _ _ _ _ Hinit). unfold mret.
    by exists tr, va, te, model, g2.
Qed.

(** The run of [train_vanilla_cnn] on a valid dataset name. *)
Lemma train_vanilla_cnn_valid fuel channels k out ds E (w : world R) :
  ds = "mithb" \/ ds = "ptbdb" ->
  (channels = [] /\
   exists g, vanilla_cnn.train_vanilla_cnn fuel channels k out ds E w
             = (inl (IndexError "index out of range"),
                World (heap w) g (events w))) \/
  (channels ≠ [] /\ (E < -1)%Z /\
   exists g, vanilla_cnn.train_vanilla_cnn fuel channels k out ds E w
             = (inl (MisconfigurationException
                       "`max_epochs` must be a non-negative integer or -1"),
                World (heap w) g (events w))) \/
  (channels ≠ [] /\ (-1 <= E)%Z /\
   exists r w' h new,
     vanilla_cnn.train_vanilla_cnn fuel channels k out ds E w = (r, w') /\
     heap w' = heap w /\
     events w' = events w ++
       LightningFit E [pl.mkEarlyStopping "val_loss" "min"] 32 true 64 false
       :: new /\
     Forall (fun e => exists i l, e = Validated i l) new /\
     val_history new = h /\
     (E ≠ (-1)%Z -> (Z.of_nat (length h) <= E)%Z) /\
     never_past_patience pl.default_patience h /\
     (forall e, r = inl e -> e = OutOfFuel) /\
     (forall v, r = inr v ->
        exists model' trainer,
          v = vanilla_cnn.VTuple [vanilla_cnn.VModel model';
                                  vanilla_cnn.VTrainer trainer] /\
          vanilla_cnn.done trainer = true /\
          pl.current_epoch trainer = length h /\ pl.max_epochs trainer = E) /\
     ((0 <= E)%Z -> Z.to_nat E ≤ fuel -> exists v, r = inr v)).
Proof.
  intros Hds. unfold vanilla_cnn.train_vanilla_cnn.
  assert (exists (x y xt yt : tensor R) dtype nc,
    (if bool_decide (ds = "mithb")
     then
       let '(x, y, x_test, y_test) := load_arrhythmia_dataset in
       do! (train_dataset, val_dataset, test_dataset) :=
         random (prepare_datasets x y x_test y_test true None) in
       do! c_last := lift (getitem channels (-1)) in
       do! model := vanilla_cnn.__init__ channels k (c_last * out) 5 in
       mret (train_dataset, val_dataset, test_dataset, model)
     else if bool_decide (ds = "ptbdb")
     then
       let '(x, y, x_test, y_test) := load_PTB_dataset in
       do! (train_dataset, val_dataset, test_dataset) :=
         random (prepare_datasets x y x_test y_test true (Some "torch.float")) in
       do! c_last := lift (getitem channels (-1)) in
       do! model := vanilla_cnn.__init__ channels k (c_last * out) 2 in
       mret (train_dataset, val_dataset, test_dataset, model)
     else mraise (ValueError ["Incorrect dataset!"])) =
    (do! (train_dataset, val_dataset, test_dataset) :=
       random (prepare_datasets x y xt yt true dtype) in
     do! c_last := lift (getitem channels (-1)) in
     do! model := vanilla_cnn.__init__ channels k (c_last * out) nc in
     mret (train_dataset, val_dataset, test_dataset, model)))
    as (x & y & xt & yt & dtype & nc & ->).
  { destruct Hds as [-> | ->].
    - rewrite bool_decide_eq_true_2 by done.
      destruct load_arrhythmia_dataset as [[[x y] xt] yt]. by eexists _, _, _, _, _, _.
    - rewrite bool_decide_eq_false_2 by done.
      rewrite bool_decide_eq_true_2 by done.
      destruct load_PTB_dataset as [[[x y] xt] yt]. by eexists _, _, _, _, _, _. }
  destruct (branch_run x y xt yt dtype nc channels k out w)
    as [[Hch (g & Hb)] | [Hch (tr & va & te & model & g & Hb)]].
  - left. split; [done|]. exists g. by rewrite (mbind_inl _ _ _ _ _ Hb).
  - right. rewrite (mbind_inr _ _ _ _ _ Hb).
    destruct (Z.ltb_spec E (-1)) as [HE|HE].
    + left. split; [done|]. split; [done|]. exists g.
      unfold vanilla_cnn.new_EarlyStopping.
      rewrite bool_decide_eq_true_2 by (by left).
      unfold vanilla_cnn.new_Trainer.
      rewrite (proj2 (Z.ltb_lt E (-1))) by lia. done.
    + right. split; [done|]. split; [done|].
      destruct (train_tail_spec fuel E tr va model
                  (World (heap w) g (events w)) HE)
        as (r & w' & h & new & Hrun & Hrest).
      exists r, w', h, new. split; [exact Hrun|]. exact Hrest.
Qed.

End train_facts.

(** ** Rules for running the world monad *)

Section wp_facts.
Context {R : Type} `{Scalar R} `{Externals R}.

Lemma wp_elim {S A} (m : M S A) (s : S) (Q : A -> S -> Prop) :
  wp m s Q -> exists a s', m s = (inr a, s') /\ Q a s'.
Proof. unfold wp. destruct (m s) as [[e|a] s']; [done|]. by exists a, s'. Qed.

Lemma wp_bind {S A B} (m : M S A) (k : A -> M S B) (s : S) (Q : B -> S -> Prop) :
  wp m s (fun a s' => wp (k a) s' Q) -> wp (mbind m k) s Q.
Proof. unfold wp, mbind. by destruct (m s) as [[e|a] s']. Qed.

Lemma wp_mret {S A} (a : A) (s : S) (Q : A -> S -> Prop) :
  Q a s -> wp (mret a) s Q.
Proof. done. Qed.

Lemma wp_lift {S A} (r : result A) (a : A) (s : S) (Q : A -> S -> Prop) :
  r = ret a -> Q a s -> wp (lift r) s Q.
Proof. by intros ->. Qed.

(** After an allocation every object that was there is still there. *)
Lemma wp_alloc (t : tensor R) (w : world R) (Q : loc -> world R -> Prop) :
  (forall l h',
     h' !! l = Some t ->
     (forall li ti, heap w !! li = Some ti -> h' !! li = Some ti) ->
     Q l (World h' (rng w) (events w))) ->
  wp (alloc t) w Q.
Proof.
  intros HQ. unfold wp, alloc. apply HQ.
  - by rewrite lookup_insert_eq.
  - intros li ti Hli. rewrite lookup_insert_ne; [done|].
    intros <-. by rewrite fresh_loc_None in Hli.
Qed.

Lemma wp_read (l : loc) (t : tensor R) (w : world R)
    (Q : tensor R -> world R -> Prop) :
  heap w !! l = Some t -> Q t w -> wp (read l) w Q.
Proof. intros Hl HQ. unfold wp, read. by rewrite Hl. Qed.

Lemma wp_random {A} (f : RNG -> A * RNG) (w : world R) (Q : A -> world R -> Prop) :
  (forall a g, f (rng w) = (a, g) -> Q a (World (heap w) g (events w))) ->
  wp (random f) w Q.
Proof.
  intros HQ. unfold wp, random. destruct (f (rng w)) as [a g] eqn:E.
  by apply HQ.
Qed.

Lemma wp_emit (e : event R) (w : world R) (Q : unit -> world R -> Prop) :
  Q tt (World (heap w) (rng w) (events w ++ [e])) -> wp (emit e) w Q.
Proof. done. Qed.

Lemma wp_pad (self : autoencoder_tree.AutoencoderTree R) (X : loc)
    (x : tensor R) n m (w : world R) (Q : loc -> world R -> Prop) :
  heap w !! X = Some x -> shape x = [n; m; 1] ->
  (forall l h',
     h' !! l = Some (padded x) ->
     (forall li ti, heap w !! li = Some ti -> h' !! li = Some ti) ->
     Q l (World h' (rng w) (events w))) ->
  wp (autoencoder_tree._pad self X) w Q.
Proof.
  intros Hx Hs HQ. unfold wp. rewrite (_pad_run self X x n m w Hx Hs).
  apply HQ.
  - by rewrite lookup_insert_eq.
  - intros li ti Hli. rewrite lookup_insert_ne; [done|].
    intros <-. by rewrite fresh_loc_None in Hli.
Qed.

(** *** Which exceptions can come out *)

Lemma raises_only_bind {S A B} (P : exn -> Prop) (m : M S A) (k : A -> M S B) :
  raises_only P m -> (forall a, raises_only P (k a)) ->
  raises_only P (mbind m k).
Proof.
  intros Hm Hk s e s'. unfold mbind.
  destruct (m s) as [[e1|a] s1] eqn:E.
  - intros [= <- <-]. by eapply Hm.
  - apply Hk.
Qed.

Lemma raises_only_mret {S A} (P : exn -> Prop) (a : A) :
  raises_only P (mret (S:=S) a).
Proof. by intros s e s'. Qed.

Lemma raises_only_lift {S A} (P : exn -> Prop) (r : result A) :
  (forall e, r = inl e -> P e) -> raises_only P (lift (S:=S) r).
Proof. intros Hr s e s'. unfold lift. intros [= -> <-]. by apply Hr. Qed.

Lemma raises_only_alloc (P : exn -> Prop) (t : tensor R) :
  raises_only P (alloc t).
Proof. by intros s e s'. Qed.

Lemma raises_only_read (P : exn -> Prop) (l : loc) :
  P (RuntimeError "no such object") -> raises_only P (read (R:=R) l).
Proof.
  intros HP s e s'. unfold read. destruct (heap s !! l); [done|].
  by intros [= <- <-].
Qed.

Lemma raises_only_random {A} (P : exn -> Prop) (f : RNG -> A * RNG) :
  raises_only P (random (R:=R) f).
Proof. intros s e s'. unfold random. by destruct (f (rng s)). Qed.

Lemma raises_only_emit (P : exn -> Prop) (ev : event R) :
  raises_only P (emit ev).
Proof. by intros s e s'. Qed.
End wp_facts.

(** ** [load_data] *)

Section load_facts.
Context {R : Type} `{Scalar R} `{Externals R}.

Lemma mbind_alloc {B} (t : tensor R) (k : loc -> M (world R) B) (w : world R) :
  mbind (alloc t) k w =
    k (fresh (dom (heap w)))
      (World (<[fresh (dom (heap w)) := t]> (heap w)) (rng w) (events w)).
Proof. done. Qed.

Lemma load_data_invalid (self : autoencoder_tree.AutoencoderTree R)
    (ds : string) (w : world R) :
  ds ≠ "mithb" -> ds ≠ "ptbdb" ->
  exists w',
    autoencoder_tree.load_data self ds w
      = (inl (ValueError [ds; "is not a valid dataset"]), w').
Proof.
  intros Hm Hp. unfold autoencoder_tree.load_data.
  destruct load_arrhythmia_dataset as [[[X_mit y_mit] Xt_mit] yt_mit].
  destruct load_PTB_dataset as [[[X_ptb y_ptb] Xt_ptb] yt_ptb].
  rewrite !mbind_alloc.
  rewrite !bool_decide_eq_false_2 by done.
  by eexists.
Qed.

(** Exceptions other than a [ValueError] with two arguments. *)
Lemma getitem_raises {A} (l : list A) (i : Z) (e : exn) :
  getitem l i = inl e -> e = IndexError "index out of range".
Proof.
  unfold getitem. repeat case_match; by intros [= <-].
Qed.

Lemma concatenate1_raises (a b : tensor R) (e : exn) :
  np.concatenate1 a b = inl e -> exists msg, e = ValueError [msg].
Proof.
  unfold np.concatenate1. repeat case_match; intros [= <-]; by eexists.
Qed.

Lemma concatenate0_raises (a b : tensor R) (e : exn) :
  np.concatenate0 a b = inl e -> exists msg, e = ValueError [msg].
Proof.
  unfold np.concatenate0. repeat case_match; intros [= <-]; by eexists.
Qed.

Lemma raises_only_pad (self : autoencoder_tree.AutoencoderTree R) (X : loc) :
  raises_only (fun e => forall a b, e ≠ ValueError [a; b])
    (autoencoder_tree._pad self X).
Proof.
  unfold autoencoder_tree._pad.
  apply raises_only_bind; [by apply raises_only_read|intros x].
  apply raises_only_bind.
  { apply raises_only_lift. intros e He.
    by rewrite (getitem_raises _ _ _ He). }
  intros n. apply raises_only_bind; [|intros; apply raises_only_alloc].
  apply raises_only_lift. intros e He.
  by destruct (concatenate1_raises _ _ _ He) as [msg ->].
Qed.

Lemma load_data_valid_raises (self : autoencoder_tree.AutoencoderTree R)
    (ds : string) :
  ds = "mithb" \/ ds = "ptbdb" ->
  raises_only (fun e => forall a b, e ≠ ValueError [a; b])
    (autoencoder_tree.load_data self ds).
Proof.
  intros Hds. unfold autoencoder_tree.load_data.
  destruct load_arrhythmia_dataset as [[[X_mit y_mit] Xt_mit] yt_mit].
  destruct load_PTB_dataset as [[[X_ptb y_ptb] Xt_ptb] yt_ptb].
  unfold autoencoder_tree.DEBUG, autoencoder_tree.UPSAMPLE.
  do 8 (apply raises_only_bind; [apply raises_only_alloc|intros ?]).
  apply raises_only_bind.
  { destruct Hds as [-> | ->].
    - rewrite bool_decide_eq_true_2 by done. apply raises_only_mret.
    - rewrite bool_decide_eq_false_2 by done.
      rewrite bool_decide_eq_true_2 by done. apply raises_only_mret. }
  intros [[[X y] X_test] y_test].
  do 4 (apply raises_only_bind; [apply raises_only_pad|intros ?]).
  do 2 (apply raises_only_bind; [by apply raises_only_read|intros ?]).
  apply raises_only_bind; [apply raises_only_random|intros [[[? ?] ?] ?]].
  do 4 (apply raises_only_bind; [apply raises_only_alloc|intros ?]).
  apply raises_only_bind; [apply raises_only_mret|intros [[[[[? ?] ?] ?] ?] ?]].
  apply raises_only_bind; [apply raises_only_mret|intros [? ?]].
  do 2 (apply raises_only_bind; [by apply raises_only_read|intros ?]).
  apply raises_only_bind.
  { apply raises_only_lift. intros e He.
    by destruct (concatenate0_raises _ _ _ He) as [msg ->]. }
  intros ?. apply raises_only_bind; [apply raises_only_alloc|intros ?].
  do 2 (apply raises_only_bind; [by apply raises_only_read|intros ?]).
  apply raises_only_bind.
  { apply raises_only_lift. intros e He.
    by destruct (concatenate0_raises _ _ _ He) as [msg ->]. }
  intros ?. apply raises_only_bind; [apply raises_only_alloc|intros ?].
  apply raises_only_mret.
Qed.

Lemma concatenate0_padded (A B : tensor R) n1 n2 m :
  shape A = [n1; m; 1] -> shape B = [n2; m; 1] ->
  exists C, np.concatenate0 (padded A) (padded B) = ret C.
Proof.
  intros HA HB. unfold np.concatenate0.
  rewrite (padded_shape A n1 m HA), (padded_shape B n2 m HB).
  rewrite !bool_decide_eq_true_2 by done. by eexists.
Qed.

Lemma concatenate0_labels (A B : tensor R) a b sy :
  shape A = a :: sy -> shape B = b :: sy ->
  exists C, np.concatenate0 A B = ret C.
Proof.
  intros HA HB. unfold np.concatenate0. rewrite HA, HB.
  rewrite !bool_decide_eq_true_2 by done. by eexists.
Qed.

Ltac heap_lookup :=
  cbn [heap];
  repeat first
    [ eassumption
    | match goal with
      | Hm : (forall li ti, _ -> ?h !! li = Some ti) |- ?h !! _ = Some _ =>
          apply Hm; cbn [heap]
      end ].

Ltac wp_alloc_as l h Hl Hm :=
  apply wp_bind, wp_alloc; intros l h Hl Hm; cbn [heap rng events].

Ltac wp_pad_as l h Hl Hm :=
  apply wp_bind; eapply wp_pad; [heap_lookup|eassumption|];
  intros l h Hl Hm; cbn [heap rng events].

Ltac wp_read_step :=
  apply wp_bind; eapply wp_read; [heap_lookup|].

Lemma load_data_run (self : autoencoder_tree.AutoencoderTree R) (ds : string)
    (w : world R)
    (X_mit y_mit Xt_mit yt_mit X_ptb y_ptb Xt_ptb yt_ptb X y Xt yt : tensor R)
    (n1 n2 m k1 k2 m1 m2 a b : nat) (sy : list nat) :
  load_arrhythmia_dataset = (X_mit, y_mit, Xt_mit, yt_mit) ->
  load_PTB_dataset = (X_ptb, y_ptb, Xt_ptb, yt_ptb) ->
  shape X_mit = [n1; m; 1] -> shape X_ptb = [n2; m; 1] ->
  shape Xt_mit = [k1; m1; 1] -> shape Xt_ptb = [k2; m2; 1] ->
  shape y_mit = a :: sy -> shape y_ptb = b :: sy ->
  (ds = "mithb" /\ (X, y, Xt, yt) = (X_mit, y_mit, Xt_mit, yt_mit)) \/
  (ds = "ptbdb" /\ (X, y, Xt, yt) = (X_ptb, y_ptb, Xt_ptb, yt_ptb)) ->
  wp (autoencoder_tree.load_data self ds) w
    (fun self' w' =>
       exists (lXtr lXva lytr lyva lXt lyt : loc) (Xtr Xva ytr yva : tensor R)
              (g g' : RNG),
         train_test_split (padded X) y autoencoder_tree.VALIDATION_SPLIT g
           = ((Xtr, Xva, ytr, yva), g') /\
         self' !! "X_train" = Some (autoencoder_tree.AArray lXtr) /\ heap w' !! lXtr = Some Xtr /\
         self' !! "X_valid" = Some (autoencoder_tree.AArray lXva) /\ heap w' !! lXva = Some Xva /\
         self' !! "y_train" = Some (autoencoder_tree.AArray lytr) /\ heap w' !! lytr = Some ytr /\
         self' !! "y_valid" = Some (autoencoder_tree.AArray lyva) /\ heap w' !! lyva = Some yva /\
         self' !! "X_test" = Some (autoencoder_tree.AArray lXt) /\
         heap w' !! lXt = Some (padded Xt) /\
         self' !! "y_test" = Some (autoencoder_tree.AArray lyt) /\ heap w' !! lyt = Some yt /\
         events w' = events w).
Proof.
  intros Hmit Hptb HsXm HsXp HsTm HsTp Hsym Hsyp Hds.
  unfold autoencoder_tree.load_data. rewrite Hmit, Hptb.
  unfold autoencoder_tree.DEBUG, autoencoder_tree.UPSAMPLE.
  wp_alloc_as l1 h1 Hl1 Hm1. wp_alloc_as l2 h2 Hl2 Hm2.
  wp_alloc_as l3 h3 Hl3 Hm3. wp_alloc_as l4 h4 Hl4 Hm4.
  wp_alloc_as l5 h5 Hl5 Hm5. wp_alloc_as l6 h6 Hl6 Hm6.
  wp_alloc_as l7 h7 Hl7 Hm7. wp_alloc_as l8 h8 Hl8 Hm8.
  destruct (concatenate0_padded X_mit X_ptb n1 n2 m HsXm HsXp) as [Xfull HXfull].
  destruct (concatenate0_labels y_mit y_ptb a b sy Hsym Hsyp) as [yfull Hyfull].
  destruct Hds as [[-> [= -> -> -> ->]] | [-> [= -> -> -> ->]]].
  all: rewrite ?(bool_decide_eq_false_2 ("ptbdb" = "mithb")) by done.
  all: rewrite bool_decide_eq_true_2 by done.
  all: apply wp_bind, wp_mret.
  all: wp_pad_as p1 h9 Hp1 Hm9; wp_pad_as p2 h10 Hp2 Hm10.
  all: wp_pad_as p3 h11 Hp3 Hm11; wp_pad_as p4 h12 Hp4 Hm12.
  all: wp_read_step; wp_read_step.
  all: apply wp_bind, wp_random; intros [[[Xtr Xva] ytr] yva] g' Hsplit.
  all: cbn [heap rng events].
  all: wp_alloc_as q1 h13 Hq1 Hm13; wp_alloc_as q2 h14 Hq2 Hm14.
  all: wp_alloc_as q3 h15 Hq3 Hm15; wp_alloc_as q4 h16 Hq4 Hm16.
  all: apply wp_bind, wp_mret; apply wp_bind, wp_mret.
  all: wp_read_step; wp_read_step.
  all: apply wp_bind; eapply wp_lift; [exact HXfull|].
  all: wp_alloc_as f1 h17 Hf1 Hm17.
  all: wp_read_step; wp_read_step.
  all: apply wp_bind; eapply wp_lift; [exact Hyfull|].
  all: wp_alloc_as f2 h18 Hf2 Hm18.
  all: apply wp_mret.
  all: exists q1, q2, q3, q4, p2; eexists; exists Xtr, Xva, ytr, yva.
  all: eexists _, g'; split; [exact Hsplit|].
  all: repeat split; try (by simplify_map_eq); try heap_lookup.
Qed.

End load_facts.

(** ** Dataset names *)

Section dataset_facts.
Context {R : Type} `{Scalar R} `{Externals R} `{!vanilla_cnn.Lightning R}.

Lemma raises_only_seed (P : exn -> Prop) (g : RNG) :
  raises_only P (seed (R:=R) g).
Proof. by intros s e s'. Qed.

Lemma raises_only_init_autoencoder (P : exn -> Prop)
    (self : autoencoder_tree.AutoencoderTree R) :
  raises_only P (autoencoder_tree.init_autoencoder self).
Proof.
  unfold autoencoder_tree.init_autoencoder.
  apply raises_only_bind; [apply raises_only_random|intros ?].
  apply raises_only_mret.
Qed.

Lemma init_autoencoder_run (self : autoencoder_tree.AutoencoderTree R)
    (w : world R) :
  exists self' g,
    autoencoder_tree.init_autoencoder self w
      = (inr self', World (heap w) g (events w)).
Proof.
  unfold autoencoder_tree.init_autoencoder, mbind, random, mret.
  destruct (keras_init _ (rng w)) as [kw g]. by eexists _, _.
Qed.

Lemma autoencoder_init_invalid (ds mode : string) (w : world R) :
  ds ≠ "mithb" -> ds ≠ "ptbdb" ->
  exists w',
    autoencoder_tree.__init__ ds mode w
      = (inl (ValueError [ds; "is not a valid dataset"]), w').
Proof.
  intros Hm Hp. unfold autoencoder_tree.__init__.
  unfold mbind at 1. unfold seed at 1. unfold modify at 1.
  destruct (init_autoencoder_run {["train_ae_on" := autoencoder_tree.AStr mode]}
              (World (heap w) (set_seeds autoencoder_tree.SEED) (events w)))
    as (self1 & g & Hinit).
  rewrite (mbind_inr _ _ _ _ _ Hinit).
  destruct (load_data_invalid self1 ds (World (heap w) g (events w)) Hm Hp)
    as [w' Hload].
  rewrite (mbind_inl _ _ _ _ _ Hload). by exists w'.
Qed.

Lemma autoencoder_init_valid_raises (ds mode : string) :
  ds = "mithb" \/ ds = "ptbdb" ->
  raises_only (fun e => forall a b, e ≠ ValueError [a; b])
    (autoencoder_tree.__init__ (R:=R) ds mode).
Proof.
  intros Hds. unfold autoencoder_tree.__init__.
  apply raises_only_bind; [apply raises_only_seed|intros _].
  apply raises_only_bind; [apply raises_only_init_autoencoder|intros self1].
  apply raises_only_bind; [by apply load_data_valid_raises|intros self2].
  apply raises_only_mret.
Qed.

Lemma dataset_name_cases (ds : string) :
  (ds = "mithb" \/ ds = "ptbdb") \/ (ds ≠ "mithb" /\ ds ≠ "ptbdb").
Proof.
  destruct (decide (ds = "mithb")); [by left; left|].
  destruct (decide (ds = "ptbdb")); [by left; right|by right].
Qed.


End dataset_facts.

(** ** [AutoencoderTree.train] and [AutoencoderTree.predict] *)

Section autoencoder_facts.
Context {R : Type} `{Scalar R} `{Externals R} `{!vanilla_cnn.Lightning R}.

Lemma train_events (self : autoencoder_tree.AutoencoderTree R) (w : world R)
    (mode : string) (lx : loc) (x : tensor R)
    (ae : keras.Model KerasWeights) :
  autoencoder_tree.getattr_str self "train_ae_on" = ret mode ->
  (if bool_decide (mode = "full")
   then autoencoder_tree.getattr_array self "X_train_full"
   else autoencoder_tree.getattr_array self "X_train") = ret lx ->
  heap w !! lx = Some x ->
  autoencoder_tree.getattr_model self "autoencoder" = ret ae ->
  exists rest,
    events (autoencoder_tree.train self w).2 =
      events w ++
      KerasFit x x {| keras.batch_size := Some 128%Z; keras.epochs := 3%Z;
                      keras.shuffle := true; keras.callbacks := [] |} :: rest /\
    Forall (fun e => forall x' y' args, e ≠ KerasFit x' y' args) rest.
Proof.
  intros Hmode Hlx Hx Hae. unfold autoencoder_tree.train.
  unfold mbind at 1. unfold lift at 1. rewrite Hmode. unfold ret at 1.
  unfold mbind at 1.
  replace ((if bool_decide (mode = "full")
            then lift (autoencoder_tree.getattr_array self "X_train_full")
            else lift (autoencoder_tree.getattr_array self "X_train")) w)
    with (ret (A:=loc) lx, w)
    by (unfold lift; rewrite <- Hlx; by destruct (bool_decide (mode = "full"))).
  unfold ret at 1.
  unfold mbind at 1. unfold lift at 1. rewrite Hae. unfold ret at 1.
  unfold mbind at 1. unfold read at 1. rewrite Hx.
  unfold mbind at 1. unfold emit at 1. unfold modify at 1.
  unfold mbind, random, lift, read, emit, modify, mret.
  cbn [heap rng events].
  repeat (case_match; simplify_eq; cbn [heap rng events snd fst] in * );
    rewrite <- ?app_assoc; cbn [app];
    eexists; (split; [reflexivity|]); repeat constructor; done.
Qed.

Lemma predict_run (self : autoencoder_tree.AutoencoderTree R) (w : world R)
    (feat : keras.Model KerasWeights) (lx : loc) (x : tensor R)
    (clf : sklearn.ExtraTreesClassifier Forest) (forest : Forest) :
  autoencoder_tree.getattr_model self "featurizer" = ret feat ->
  autoencoder_tree.getattr_array self "X_test" = ret lx ->
  heap w !! lx = Some x ->
  autoencoder_tree.getattr_classifier self "clf" = ret clf ->
  sklearn.fitted clf = Some forest ->
  exists (self' : autoencoder_tree.AutoencoderTree R) (w' : world R)
         (lp lpp : loc),
    autoencoder_tree.predict self w = (inr self', w') /\
    self' !! "y_pred" = Some (autoencoder_tree.AArray lp) /\
    heap w' !! lp = Some (forest_predict forest (keras_predict feat x)) /\
    self' !! "y_pred_proba" = Some (autoencoder_tree.AArray lpp) /\
    heap w' !! lpp = Some (forest_predict_proba forest (keras_predict feat x)) /\
    (forall l t, heap w !! l = Some t -> heap w' !! l = Some t) /\
    (forall name, name ≠ "y_pred" -> name ≠ "y_pred_proba" ->
                  self' !! name = self !! name).
Proof.
  intros Hfeat Hlx Hx Hclf Hfit.
  cut (wp (autoencoder_tree.predict self) w
    (fun (self' : autoencoder_tree.AutoencoderTree R) (w' : world R) =>
            exists lp lpp : loc,
              self' !! "y_pred" = Some (autoencoder_tree.AArray lp) /\
              heap w' !! lp = Some (forest_predict forest (keras_predict feat x)) /\
              self' !! "y_pred_proba" = Some (autoencoder_tree.AArray lpp) /\
              heap w' !! lpp
                = Some (forest_predict_proba forest (keras_predict feat x)) /\
              (forall l t, heap w !! l = Some t -> heap w' !! l = Some t) /\
              (forall name, name ≠ "y_pred" -> name ≠ "y_pred_proba" ->
                            self' !! name = self !! name))).
  { intros Hwp. destruct (wp_elim _ _ _ Hwp)
      as (self' & w' & Hrun & lp & lpp & Hrest).
    by exists self', w', lp, lpp. }
  unfold autoencoder_tree.predict.
  apply wp_bind; eapply wp_lift; [exact Hfeat|].
  apply wp_bind; eapply wp_lift; [exact Hlx|].
  apply wp_bind; eapply wp_read; [exact Hx|].
  apply wp_bind, wp_emit.
  apply wp_bind; eapply wp_lift; [exact Hclf|].
  rewrite Hfit. apply wp_bind, wp_mret.
  apply wp_bind, wp_emit.
  apply wp_bind, wp_alloc. intros lp h1 Hlp Hm1. cbn [heap rng events].
  apply wp_bind, wp_emit.
  apply wp_bind, wp_alloc. intros lpp h2 Hlpp Hm2. cbn [heap rng events].
  apply wp_mret. exists lp, lpp.
  split; [by simplify_map_eq|]. split; [by apply Hm2|].
  split; [by simplify_map_eq|]. split; [done|].
  split; [intros l t Hl; by apply Hm2, Hm1|].
  intros name Hn1 Hn2. by simplify_map_eq.
Qed.
End autoencoder_facts.

(** ** The remaining claims *)

Section claims.
Context {R : Type} `{Scalar R} `{Externals R} `{!vanilla_cnn.Lightning R}.



(** C6, as amended: for an input with at least two samples whose shape
    keeps exactly one axis besides the sample axis once the axes of size 1
    are dropped (such as [(n, L, 1)] or [(n, L)] with [n >= 2], [L <> 1]),
    [get_cnn_outputs] gives what [model.net] gives on all of the input at
    once, flattened: the same array, or the same error when the layers do
    not accept the samples; the array has one row per sample. *)
Theorem C6_batching_invariant (model : vanilla_cnn.vanillaCNN R)
    (X : tensor R) (n L : nat) (rest : list nat) :
  wf X -> shape X = n :: rest -> filter (fun d => d ≠ 1) rest = [L] ->
  2 ≤ n ->
  vanilla_cnn.get_cnn_outputs model X =
    (let! u := torch.unsqueeze1 (torch.squeeze X) in
     let! o := torch.sequential_forward (vanilla_cnn.net model) u in
     torch.flatten_from1 o) /\
  (forall out, vanilla_cnn.get_cnn_outputs model X = ret out ->
     exists F, shape out = [n; F]) /\
  (forall C' L',
     net_sample_shape (vanilla_cnn.net model) 1 L = ret (C', L') ->
     exists out, vanilla_cnn.get_cnn_outputs model X = ret out /\
                 shape out = [n; C' * L']).
Proof.
  intros Hwf Hs Hf Hn.
  destruct (get_cnn_outputs_unfold model X n L rest Hwf Hs Hf ltac:(lia)
              ltac:(lia)) as [Hb Ha].
  split; [by rewrite Hb, Ha|]. split.
  - intros out. rewrite Hb.
    destruct (net_sample_shape (vanilla_cnn.net model) 1 L) as [e|[C' L']];
      [done|].
    intros [= <-]. by eexists.
  - intros C' L' Hsh. rewrite Hb, Hsh. eexists. split; [done|].
    cbn [shape numel foldr]. by rewrite Nat.mul_1_r.
Qed.

(** C7: in a run of [train_vanilla_cnn] with a non-negative epoch limit,
    the trainer never runs more than [max_epochs] epochs, and never runs
    an epoch after the validation loss has failed to improve [patience]
    times in a row (the patience being the callback's, 3); the trainer that
    is returned has run as many epochs as there are validation losses and
    has either been asked to stop or reached the limit. *)
Theorem C7_early_stopping (fuel : nat) (channels : list Z)
    (kernel_size cnn_output_size : Z) (ds : string) (max_epochs : Z)
    (w : world R) :
  (0 <= max_epochs)%Z ->
  let run := vanilla_cnn.train_vanilla_cnn fuel channels kernel_size
               cnn_output_size ds max_epochs w in
  let h := val_history (new_events w run.2) in
  (Z.of_nat (length h) <= max_epochs)%Z /\
  (forall h1 h2, h = h1 ++ h2 -> h2 ≠ [] -> stalled h1 < pl.default_patience) /\
  (forall model trainer,
     run.1 = inr (vanilla_cnn.VTuple [vanilla_cnn.VModel model;
                                      vanilla_cnn.VTrainer trainer]) ->
     pl.current_epoch trainer = length h /\
     (pl.should_stop trainer = true \/
      Z.of_nat (pl.current_epoch trainer) = max_epochs)).
Proof.
  intros HE run h.
  assert (new_events w w = []) as Hnone.
  { unfold new_events. by rewrite drop_all. }
  assert (forall g, new_events w (World (heap w) g (events w)) = []) as Hnone'.
  { intros g. unfold new_events. cbn [events]. by rewrite drop_all. }
  destruct (dataset_name_cases ds) as [Hds|[Hm Hp]].
  - destruct (train_vanilla_cnn_valid fuel channels kernel_size
                cnn_output_size ds max_epochs w Hds)
      as [(_ & g & Hr) | [(_ & _ & g & Hr)
          | (_ & _ & r & w' & h' & new & Hr & Hrest)]].
    + subst h run. rewrite Hr. cbn [fst snd]. rewrite Hnone'.
      split; [simpl; lia|]. split; [by intros [|] [|]|]. done.
    + subst h run. rewrite Hr. cbn [fst snd]. rewrite Hnone'.
      split; [simpl; lia|]. split; [by intros [|] [|]|]. done.
    + destruct Hrest as (_ & Hev & Hval & Hh & Hmax & Hnpp & _ & Hret & _).
      assert (h = h') as ->.
      { subst h run. rewrite Hr. cbn [snd]. unfold new_events.
        rewrite Hev, drop_app_length. by cbn. }
      split; [apply Hmax; lia|]. split; [exact Hnpp|].
      intros model trainer Hrun. subst run. rewrite Hr in Hrun. cbn [fst] in Hrun.
      destruct (Hret _ Hrun) as (model' & trainer' & [= <- <-] & Hdone & Hcur & HmaxE).
      split; [done|].
      unfold vanilla_cnn.done in Hdone. apply orb_true_iff in Hdone as [Hd|Hd].
      * right. apply andb_true_iff in Hd as [_ Hd]. apply Z.leb_le in Hd.
        rewrite HmaxE in Hd. rewrite Hcur in *.
        specialize (Hmax ltac:(lia)). lia.
      * by left.
  - subst h run.
    rewrite (train_vanilla_cnn_invalid fuel channels kernel_size
               cnn_output_size ds max_epochs w Hm Hp).
    cbn [fst snd]. rewrite Hnone.
    split; [simpl; lia|]. split; [by intros [|] [|]|]. done.
Qed.
End claims.

(** * Further properties *)

(** ** More rules for the world monad *)

Section post_facts.
Context {R : Type} `{Scalar R} `{Externals R}.

Lemma post_bind {S A B} (m : M S A) (k : A -> M S B) (s : S)
    (Q : B -> S -> Prop) :
  post m s (fun a s' => post (k a) s' Q) -> post (mbind m k) s Q.
Proof.
  unfold post, mbind. intros Hm b s2.
  destruct (m s) as [[e|a] s1] eqn:E; [done|]. intros Hk.
  by apply (Hm a s1 eq_refl b s2).
Qed.

Lemma post_any {S A} (m : M S A) (s : S) (Q : A -> S -> Prop) :
  (forall a s', Q a s') -> post m s Q.
Proof. intros HQ a s' _. apply HQ. Qed.

Lemma post_mret {S A} (a : A) (s : S) (Q : A -> S -> Prop) :
  Q a s -> post (mret a) s Q.
Proof. intros HQ a' s' [= <- <-]. done. Qed.

Lemma post_lift {S A} (r : result A) (s : S) (Q : A -> S -> Prop) :
  (forall a, r = ret a -> Q a s) -> post (lift r) s Q.
Proof. intros HQ a s'. unfold lift. intros [= -> <-]. by apply HQ. Qed.

Lemma wp_mono {S A} (m : M S A) (s : S) (Q Q' : A -> S -> Prop) :
  wp m s Q -> (forall a s', Q a s' -> Q' a s') -> wp m s Q'.
Proof. unfold wp. destruct (m s) as [[e|a] s']; [done|]. intros HQ HQ'. by apply HQ'. Qed.

Lemma fails_with_bind {S A B} (e : exn) (m : M S A) (k : A -> M S B) (s : S)
    (Q : S -> Prop) :
  wp m s (fun a s' => fails_with e (k a) s' Q) ->
  fails_with e (mbind m k) s Q.
Proof.
  unfold wp, fails_with, mbind. by destruct (m s) as [[e'|a] s1].
Qed.

Lemma fails_with_now {S A B} (e : exn) (m : M S A) (k : A -> M S B) (s : S)
    (Q : S -> Prop) :
  fails_with e m s Q -> fails_with e (mbind m k) s Q.
Proof.
  unfold fails_with, mbind. intros (s' & -> & HQ). by exists s'.
Qed.

Lemma fails_with_lift {S A} (e : exn) (r : result A) (s : S) (Q : S -> Prop) :
  r = raise e -> Q s -> fails_with e (lift r) s Q.
Proof. intros -> HQ. by exists s. Qed.
End post_facts.

(** ** More about [AutoencoderTree] *)

Ltac heap_find :=
  cbn [heap];
  repeat first
    [ eassumption
    | match goal with
      | Hm : (forall li ti, _ -> ?h !! li = Some ti) |- ?h !! _ = Some _ =>
          apply Hm; cbn [heap]
      end ].

Ltac run_alloc l h Hl Hm :=
  apply wp_bind, wp_alloc; intros l h Hl Hm; cbn [heap rng events].

Ltac run_pad l h Hl Hm :=
  apply wp_bind; eapply wp_pad; [heap_find|eassumption|];
  intros l h Hl Hm; cbn [heap rng events].

Ltac run_read := apply wp_bind; eapply wp_read; [heap_find|].

Ltac skip_step :=
  apply post_bind, post_any; intros ? ?;
  repeat match goal with x : (_ * _)%type |- _ => destruct x end;
  cbn beta iota.

Section more_autoencoder_facts.
Context {R : Type} `{Scalar R} `{Externals R}.

Lemma load_data_sets (self : autoencoder_tree.AutoencoderTree R) (ds : string)
    (w : world R) :
  post (autoencoder_tree.load_data self ds) w
    (fun self' _ =>
       exists lXtr lytr lXva lyva lXt lyt lXf lyf,
         self' = with_data self lXtr lytr lXva lyva lXt lyt lXf lyf).
Proof.
  unfold autoencoder_tree.load_data.
  destruct load_arrhythmia_dataset as [[[X_mit y_mit] Xt_mit] yt_mit].
  destruct load_PTB_dataset as [[[X_ptb y_ptb] Xt_ptb] yt_ptb].
  unfold autoencoder_tree.DEBUG, autoencoder_tree.UPSAMPLE.
  do 29 skip_step.
  apply post_mret. unfold with_data. by eexists _, _, _, _, _, _, _, _.
Qed.

Lemma load_data_full (self : autoencoder_tree.AutoencoderTree R) (ds : string)
    (w : world R)
    (X_mit y_mit Xt_mit yt_mit X_ptb y_ptb Xt_ptb yt_ptb X y Xt yt : tensor R)
    (n1 n2 m k1 k2 m1 m2 a b : nat) (sy : list nat) :
  load_arrhythmia_dataset = (X_mit, y_mit, Xt_mit, yt_mit) ->
  load_PTB_dataset = (X_ptb, y_ptb, Xt_ptb, yt_ptb) ->
  shape X_mit = [n1; m; 1] -> shape X_ptb = [n2; m; 1] ->
  shape Xt_mit = [k1; m1; 1] -> shape Xt_ptb = [k2; m2; 1] ->
  shape y_mit = a :: sy -> shape y_ptb = b :: sy ->
  (ds = "mithb" /\ (X, y, Xt, yt) = (X_mit, y_mit, Xt_mit, yt_mit)) \/
  (ds = "ptbdb" /\ (X, y, Xt, yt) = (X_ptb, y_ptb, Xt_ptb, yt_ptb)) ->
  wp (autoencoder_tree.load_data self ds) w
    (fun self' w' =>
       exists (lXtr lytr lXva lyva lXt lyt lXf lyf : loc)
              (Xtr Xva ytr yva : tensor R) (g' : RNG),
         train_test_split (padded X) y autoencoder_tree.VALIDATION_SPLIT (rng w)
           = ((Xtr, Xva, ytr, yva), g') /\
         self' = with_data self lXtr lytr lXva lyva lXt lyt lXf lyf /\
         heap w' !! lXtr = Some Xtr /\ heap w' !! lXva = Some Xva /\
         heap w' !! lytr = Some ytr /\ heap w' !! lyva = Some yva /\
         heap w' !! lXt = Some (padded Xt) /\ heap w' !! lyt = Some yt /\
         heap w' !! lXf
           = Some (Tensor [n1 + n2; m + 1; 1]
                     (data (padded X_mit) ++ data (padded X_ptb))) /\
         heap w' !! lyf = Some (Tensor ((a + b) :: sy) (data y_mit ++ data y_ptb)) /\
         rng w' = g' /\ events w' = events w /\
         (forall l t, heap w !! l = Some t -> heap w' !! l = Some t)).
Proof.
  intros Hmit Hptb HsXm HsXp HsTm HsTp Hsym Hsyp Hds.
  unfold autoencoder_tree.load_data. rewrite Hmit, Hptb.
  unfold autoencoder_tree.DEBUG, autoencoder_tree.UPSAMPLE.
  run_alloc l1 h1 Hl1 Hm1. run_alloc l2 h2 Hl2 Hm2.
  run_alloc l3 h3 Hl3 Hm3. run_alloc l4 h4 Hl4 Hm4.
  run_alloc l5 h5 Hl5 Hm5. run_alloc l6 h6 Hl6 Hm6.
  run_alloc l7 h7 Hl7 Hm7. run_alloc l8 h8 Hl8 Hm8.
  assert (np.concatenate0 (padded X_mit) (padded X_ptb)
          = ret (Tensor [n1 + n2; m + 1; 1]
                   (data (padded X_mit) ++ data (padded X_ptb)))) as HXfull.
  { unfold np.concatenate0.
    rewrite (padded_shape X_mit n1 m HsXm), (padded_shape X_ptb n2 m HsXp).
    by rewrite !bool_decide_eq_true_2 by done. }
  assert (np.concatenate0 y_mit y_ptb
          = ret (Tensor ((a + b) :: sy) (data y_mit ++ data y_ptb))) as Hyfull.
  { unfold np.concatenate0. rewrite Hsym, Hsyp.
    by rewrite !bool_decide_eq_true_2 by done. }
  destruct Hds as [[-> [= -> -> -> ->]] | [-> [= -> -> -> ->]]].
  all: rewrite ?(bool_decide_eq_false_2 ("ptbdb" = "mithb")) by done.
  all: rewrite bool_decide_eq_true_2 by done.
  all: apply wp_bind, wp_mret.
  all: run_pad p1 h9 Hp1 Hm9; run_pad p2 h10 Hp2 Hm10.
  all: run_pad p3 h11 Hp3 Hm11; run_pad p4 h12 Hp4 Hm12.
  all: run_read; run_read.
  all: apply wp_bind, wp_random; intros [[[Xtr Xva] ytr] yva] g' Hsplit.
  all: cbn [heap rng events] in *.
  all: run_alloc q1 h13 Hq1 Hm13; run_alloc q2 h14 Hq2 Hm14.
  all: run_alloc q3 h15 Hq3 Hm15; run_alloc q4 h16 Hq4 Hm16.
  all: apply wp_bind, wp_mret; apply wp_bind, wp_mret.
  all: run_read; run_read.
  all: apply wp_bind; eapply wp_lift; [exact HXfull|].
  all: run_alloc f1 h17 Hf1 Hm17.
  all: run_read; run_read.
  all: apply wp_bind; eapply wp_lift; [exact Hyfull|].
  all: run_alloc f2 h18 Hf2 Hm18.
  all: apply wp_mret.
  all: exists q1, q3, q2, q4, p2; eexists; exists f1, f2, Xtr, Xva, ytr, yva, g'.
  all: split; [exact Hsplit|].
  all: split; [reflexivity|].
  all: repeat split; try heap_find.
  all: intros l t Hl; by heap_find.
Qed.

End more_autoencoder_facts.

Section more_autoencoder_runs.
Context {R : Type} `{Scalar R} `{Externals R}.

Lemma train_full_run (self : autoencoder_tree.AutoencoderTree R) (w : world R)
    (mode : string) (lx lxt lyt : loc) (x xt yt : tensor R)
    (ae : keras.Model KerasWeights) (second : keras.Layer)
    (clf : sklearn.ExtraTreesClassifier Forest) :
  autoencoder_tree.getattr_str self "train_ae_on" = ret mode ->
  (if bool_decide (mode = "full")
   then autoencoder_tree.getattr_array self "X_train_full"
   else autoencoder_tree.getattr_array self "X_train") = ret lx ->
  heap w !! lx = Some x ->
  autoencoder_tree.getattr_model self "autoencoder" = ret ae ->
  keras.layers ae !! 1 = Some second ->
  autoencoder_tree.getattr_array self "X_train" = ret lxt ->
  heap w !! lxt = Some xt ->
  autoencoder_tree.getattr_classifier self "clf" = ret clf ->
  autoencoder_tree.getattr_array self "y_train" = ret lyt ->
  heap w !! lyt = Some yt ->
  wp (autoencoder_tree.train self) w
    (fun self' w' =>
       exists (kw : KerasWeights) (g1 : RNG) (forest : Forest) (g2 : RNG),
         keras_fit ae x x train_fit_args (rng w) = (kw, g1) /\
         forest_fit (sklearn.n_estimators clf)
           (keras_predict (featurizer_of ae kw) xt) yt g1 = (forest, g2) /\
         self' =
           <["clf" := autoencoder_tree.AClassifier
                        {| sklearn.n_estimators := sklearn.n_estimators clf;
                           sklearn.fitted := Some forest |}]>
             (<["featurizer" := autoencoder_tree.AModel (featurizer_of ae kw)]>
                (<["autoencoder" :=
                     autoencoder_tree.AModel
                       {| keras.layers := keras.layers ae;
                          keras.compiled := keras.compiled ae;
                          keras.weights := kw |}]> self)) /\
         w' = World (heap w) g2
                (events w ++
                 [KerasFit x x train_fit_args; KerasPredict xt;
                  ForestFit (keras_predict (featurizer_of ae kw) xt) yt])).
Proof.
  intros Hmode Hlx Hx Hae Hsecond Hlxt Hxt Hclf Hlyt Hyt.
  unfold autoencoder_tree.train.
  apply wp_bind; eapply wp_lift; [exact Hmode|].
  assert (wp (if bool_decide (mode = "full")
              then lift (autoencoder_tree.getattr_array self "X_train_full")
              else lift (autoencoder_tree.getattr_array self "X_train")) w
            (fun a s => a = lx /\ s = w)) as Hsel.
  { destruct (bool_decide (mode = "full")); (eapply wp_lift; [exact Hlx|done]). }
  apply wp_bind. eapply wp_mono; [exact Hsel|]. intros l0 s0 [-> ->].
  apply wp_bind; eapply wp_lift; [exact Hae|].
  apply wp_bind; eapply wp_read; [exact Hx|].
  apply wp_bind, wp_emit.
  apply wp_bind, wp_random. intros kw g1 Hfit. cbn [heap rng events] in *.
  apply wp_bind; eapply wp_lift.
  { cbn [keras.layers]. exact (getitem_nat _ 1 _ Hsecond). }
  apply wp_bind; eapply wp_lift.
  { unfold autoencoder_tree.getattr_array in *.
    rewrite !lookup_insert_ne by done. exact Hlxt. }
  apply wp_bind; eapply wp_read; [exact Hxt|].
  apply wp_bind, wp_emit.
  apply wp_bind; eapply wp_lift.
  { unfold autoencoder_tree.getattr_classifier in *.
    rewrite !lookup_insert_ne by done. exact Hclf. }
  apply wp_bind; eapply wp_lift.
  { unfold autoencoder_tree.getattr_array in *.
    rewrite !lookup_insert_ne by done. exact Hlyt. }
  apply wp_bind; eapply wp_read; [exact Hyt|].
  apply wp_bind, wp_emit.
  apply wp_bind, wp_random. intros forest g2 Hforest. cbn [heap rng events] in *.
  apply wp_mret.
  exists kw, g1, forest, g2. split; [exact Hfit|]. split; [exact Hforest|].
  split; [reflexivity|]. by rewrite <- !app_assoc.
Qed.
End more_autoencoder_runs.

(** ** The construction of an [AutoencoderTree] *)

Section more_init_facts.
Context {R : Type} `{Scalar R} `{Externals R}.

Lemma wp_seed (g : RNG) (w : world R) (Q : unit -> world R -> Prop) :
  Q tt (World (heap w) g (events w)) -> wp (seed g) w Q.
Proof. done. Qed.

Lemma init_autoencoder_full (self : autoencoder_tree.AutoencoderTree R)
    (w : world R) :
  wp (autoencoder_tree.init_autoencoder self) w
    (fun self' w' =>
       exists kw g,
         keras_init autoencoder_layers (rng w) = (kw, g) /\
         self' = <["autoencoder" := autoencoder_tree.AModel (autoencoder_of kw)]> self /\
         w' = World (heap w) g (events w)).
Proof.
  unfold autoencoder_tree.init_autoencoder.
  apply wp_bind, wp_random. intros kw g Hk. apply wp_mret. by exists kw, g.
Qed.

(** The attributes an object has once [__init__] has returned. *)
Lemma init_sets (ds mode : string) (w : world R) :
  post (autoencoder_tree.__init__ ds mode) w
    (fun self _ =>
       exists kw lXtr lytr lXva lyva lXt lyt lXf lyf,
         self =
           <["clf" := autoencoder_tree.AClassifier
                        {| sklearn.n_estimators := 100; sklearn.fitted := None |}]>
             (with_data
                (<["autoencoder" := autoencoder_tree.AModel (autoencoder_of kw)]>
                   {["train_ae_on" := autoencoder_tree.AStr mode]})
                lXtr lytr lXva lyva lXt lyt lXf lyf)).
Proof.
  unfold autoencoder_tree.__init__.
  apply post_bind, post_any. intros _ w1.
  apply post_bind. intros self1 w2 Hinit.
  pose proof (init_autoencoder_full
                {["train_ae_on" := autoencoder_tree.AStr mode]} w1) as Hwp.
  unfold wp in Hwp. rewrite Hinit in Hwp.
  destruct Hwp as (kw & g & _ & -> & _).
  apply post_bind. intros self2 w3 Hload.
  destruct (load_data_sets _ ds w2 self2 w3 Hload)
    as (a1 & a2 & a3 & a4 & a5 & a6 & a7 & a8 & ->).
  apply post_mret. by exists kw, a1, a2, a3, a4, a5, a6, a7, a8.
Qed.

Lemma init_full (ds mode : string) (w : world R)
    (X_mit y_mit Xt_mit yt_mit X_ptb y_ptb Xt_ptb yt_ptb X y Xt yt : tensor R)
    (n1 n2 m k1 k2 m1 m2 a b : nat) (sy : list nat) :
  load_arrhythmia_dataset = (X_mit, y_mit, Xt_mit, yt_mit) ->
  load_PTB_dataset = (X_ptb, y_ptb, Xt_ptb, yt_ptb) ->
  shape X_mit = [n1; m; 1] -> shape X_ptb = [n2; m; 1] ->
  shape Xt_mit = [k1; m1; 1] -> shape Xt_ptb = [k2; m2; 1] ->
  shape y_mit = a :: sy -> shape y_ptb = b :: sy ->
  (ds = "mithb" /\ (X, y, Xt, yt) = (X_mit, y_mit, Xt_mit, yt_mit)) \/
  (ds = "ptbdb" /\ (X, y, Xt, yt) = (X_ptb, y_ptb, Xt_ptb, yt_ptb)) ->
  wp (autoencoder_tree.__init__ ds mode) w
    (fun self w' =>
       exists (lXtr lytr lXva lyva lXt lyt lXf lyf : loc)
              (Xtr Xva ytr yva : tensor R) (kw : KerasWeights) (g0 g1 : RNG),
         keras_init autoencoder_layers (set_seeds autoencoder_tree.SEED)
           = (kw, g0) /\
         train_test_split (padded X) y autoencoder_tree.VALIDATION_SPLIT g0
           = ((Xtr, Xva, ytr, yva), g1) /\
         self =
           <["clf" := autoencoder_tree.AClassifier
                        {| sklearn.n_estimators := 100; sklearn.fitted := None |}]>
             (with_data
                (<["autoencoder" := autoencoder_tree.AModel (autoencoder_of kw)]>
                   {["train_ae_on" := autoencoder_tree.AStr mode]})
                lXtr lytr lXva lyva lXt lyt lXf lyf) /\
         heap w' !! lXtr = Some Xtr /\ heap w' !! lytr = Some ytr /\
         heap w' !! lXt = Some (padded Xt) /\
         heap w' !! lXf
           = Some (Tensor [n1 + n2; m + 1; 1]
                     (data (padded X_mit) ++ data (padded X_ptb))) /\
         rng w' = g1 /\ events w' = events w /\
         (forall l t, heap w !! l = Some t -> heap w' !! l = Some t)).
Proof.
  intros Hmit Hptb HsXm HsXp HsTm HsTp Hsym Hsyp Hds.
  unfold autoencoder_tree.__init__.
  apply wp_bind, wp_seed.
  apply wp_bind. eapply wp_mono; [apply init_autoencoder_full|].
  intros self1 w1 (kw & g0 & Hk & -> & ->). cbn [rng] in Hk.
  apply wp_bind. eapply wp_mono.
  { by apply (load_data_full _ ds _ X_mit y_mit Xt_mit yt_mit X_ptb y_ptb Xt_ptb
                yt_ptb X y Xt yt n1 n2 m k1 k2 m1 m2 a b sy). }
  cbn [heap rng events].
  intros self2 w2 (lXtr & lytr & lXva & lyva & lXt & lyt & lXf & lyf & Xtr & Xva
                   & ytr & yva & g1 & Hsplit & -> & H1 & H2 & H3 & H4 & H5 & H6
                   & H7 & H8 & Hg & Hev & Hmono).
  apply wp_mret.
  exists lXtr, lytr, lXva, lyva, lXt, lyt, lXf, lyf, Xtr, Xva, ytr, yva, kw, g0, g1.
  done.
Qed.
End more_init_facts.

(** ** [_pad], [load_data], [train] and [predict]: further properties *)

Ltac fail_alloc l h Hl Hm :=
  apply fails_with_bind, wp_alloc; intros l h Hl Hm; cbn [heap rng events].

Ltac fail_pad l h Hl Hm :=
  apply fails_with_bind; eapply wp_pad; [heap_find|eassumption|];
  intros l h Hl Hm; cbn [heap rng events].

Ltac fail_read := apply fails_with_bind; eapply wp_read; [heap_find|].

Section more_autoencoder_theorems.
Context {R : Type} `{Scalar R} `{Externals R}.

Lemma predict_full_run (self : autoencoder_tree.AutoencoderTree R) (w : world R)
    (feat : keras.Model KerasWeights) (lx : loc) (x : tensor R)
    (clf : sklearn.ExtraTreesClassifier Forest) (forest : Forest) :
  autoencoder_tree.getattr_model self "featurizer" = ret feat ->
  autoencoder_tree.getattr_array self "X_test" = ret lx ->
  heap w !! lx = Some x ->
  autoencoder_tree.getattr_classifier self "clf" = ret clf ->
  sklearn.fitted clf = Some forest ->
  wp (autoencoder_tree.predict self) w
    (fun self' w' =>
       exists lp lpp : loc,
         self' = <["y_pred_proba" := autoencoder_tree.AArray lpp]>
                   (<["y_pred" := autoencoder_tree.AArray lp]> self) /\
         heap w' !! lp = Some (forest_predict forest (keras_predict feat x)) /\
         heap w' !! lpp
           = Some (forest_predict_proba forest (keras_predict feat x)) /\
         (forall l t, heap w !! l = Some t -> heap w' !! l = Some t) /\
         rng w' = rng w /\
         events w' = events w ++
           [KerasPredict x; ForestPredict (keras_predict feat x);
            ForestPredictProba (keras_predict feat x)]).
Proof.
  intros Hfeat Hlx Hx Hclf Hfit. unfold autoencoder_tree.predict.
  apply wp_bind; eapply wp_lift; [exact Hfeat|].
  apply wp_bind; eapply wp_lift; [exact Hlx|].
  apply wp_bind; eapply wp_read; [exact Hx|].
  apply wp_bind, wp_emit.
  apply wp_bind; eapply wp_lift; [exact Hclf|].
  rewrite Hfit. apply wp_bind, wp_mret.
  apply wp_bind, wp_emit.
  run_alloc lp h1 Hlp Hm1.
  apply wp_bind, wp_emit.
  run_alloc lpp h2 Hlpp Hm2.
  apply wp_mret. exists lp, lpp.
  split; [done|]. split; [by apply Hm2|]. split; [done|].
  split; [intros l t Hl; by apply Hm2, Hm1|].
  split; [done|]. by rewrite <- !app_assoc.
Qed.

(** X1: an object that [__init__] returned has no [featurizer] yet: calling
    [predict] on it before [train] raises an [AttributeError] for that
    attribute and changes nothing, whatever the store. *)
Theorem predict_before_train (ds mode : string) (w w1 w2 : world R)
    (self : autoencoder_tree.AutoencoderTree R) :
  autoencoder_tree.__init__ ds mode w = (inr self, w1) ->
  autoencoder_tree.predict self w2 = (inl (AttributeError "featurizer"), w2).
Proof.
  intros Hinit.
  destruct (init_sets ds mode w self w1 Hinit)
    as (kw & a1 & a2 & a3 & a4 & a5 & a6 & a7 & a8 & ->).
  unfold autoencoder_tree.predict, mbind, lift, autoencoder_tree.getattr_model,
    with_data.
  by rewrite !lookup_insert_ne, lookup_singleton_ne by done.
Qed.






End more_autoencoder_theorems.

(** ** The steps of [vanillaCNN]: further properties *)

Section more_step_facts.
Context {R : Type} `{Scalar R} `{Externals R} `{!vanilla_cnn.Lightning R}.

Lemma validation_step_heap (self : vanilla_cnn.vanillaCNN R) (x y : loc)
    (idx : Z) (t : tensor R) d s (w : world R) :
  heap w !! x = Some t -> shape t = d :: s ->
  heap (vanilla_cnn.validation_step self [x; y] idx w).2
    = <[x := Tensor (d :: 1 :: s) (data t)]> (heap w).
Proof.
  intros Hx Hs. unfold vanilla_cnn.validation_step.
  unfold mbind at 1. unfold lift at 1. cbn [unpack2 ret].
  unfold mbind at 1. rewrite (forward_run self x t d s w Hx Hs).
  destruct (vanilla_cnn.head self _) as [e|o]; [done|].
  unfold mbind, read, lift, emit, modify, mret. cbn [heap].
  repeat (case_match; simplify_eq; try done).
Qed.

(** X7: [validation_step] and [predict_step] call [forward], so they too
    change the tensor object they are given: after the call it has a new
    axis of size 1 at position 1, whether or not the call succeeds, and no
    other object changes. *)
Theorem steps_unsqueeze_in_place (self : vanilla_cnn.vanillaCNN R)
    (x y : loc) (idx : Z) (t : tensor R) (d : nat) (s : list nat) (w : world R) :
  heap w !! x = Some t -> shape t = d :: s ->
  heap (vanilla_cnn.validation_step self [x; y] idx w).2
    = <[x := Tensor (d :: 1 :: s) (data t)]> (heap w) /\
  heap (vanilla_cnn.predict_step self [x] idx w).2
    = <[x := Tensor (d :: 1 :: s) (data t)]> (heap w) /\
  heap (vanilla_cnn.predict_step self [x; y] idx w).2
    = <[x := Tensor (d :: 1 :: s) (data t)]> (heap w).
Proof.
  intros Hx Hs. split; [by apply validation_step_heap|].
  split.
  - rewrite (predict_step_run self [x] x x idx w) by (by left).
    rewrite (forward_run self x t d s w Hx Hs).
    by destruct (vanilla_cnn.head self _).
  - rewrite (predict_step_run self [x; y] x y idx w) by (by right).
    rewrite (forward_run self x t d s w Hx Hs).
    by destruct (vanilla_cnn.head self _).
Qed.

(** X8: what the steps reject before touching anything.  [training_step]
    and [validation_step] unpack their batch into exactly two elements and
    [predict_step] takes one or two: a batch of another length raises a
    [ValueError]; a tensor without axes makes [forward] and [training_step]
    raise an [IndexError].  In all these cases the store, and so the input
    tensor, is unchanged and nothing is logged. *)
Theorem steps_reject_unchanged (self : vanilla_cnn.vanillaCNN R)
    (batch : list loc) (x y : loc) (idx : Z) (t : tensor R) (w : world R) :
  (length batch ≠ 2 ->
   exists msg,
     vanilla_cnn.training_step self batch idx w = (inl (ValueError [msg]), w) /\
     vanilla_cnn.validation_step self batch idx w = (inl (ValueError [msg]), w)) /\
  (length batch ≠ 1 -> length batch ≠ 2 ->
   exists msg,
     vanilla_cnn.predict_step self batch idx w = (inl (ValueError [msg]), w)) /\
  (heap w !! x = Some t -> shape t = [] ->
   exists msg,
     vanilla_cnn.forward self x w = (inl (IndexError msg), w) /\
     vanilla_cnn.training_step self [x; y] idx w = (inl (IndexError msg), w)).
Proof.
  split; [|split].
  - intros Hlen. unfold vanilla_cnn.training_step, vanilla_cnn.validation_step.
    destruct batch as [|a [|b [|c rest]]]; try done; by eexists.
  - intros Hn1 Hn2. unfold vanilla_cnn.predict_step.
    destruct batch as [|a [|b [|c rest]]]; try done.
    + by eexists.
    + replace (len (a :: b :: c :: rest) =? 1)%Z with false
        by (symmetry; apply Z.eqb_neq; unfold len; simpl; lia).
      by eexists.
  - intros Hx Hs. eexists.
    unfold vanilla_cnn.forward, vanilla_cnn.training_step.
    unfold mbind, lift, vanilla_cnn.unsqueeze_, mbind, read, lift.
    cbn [unpack2 ret]. rewrite Hx. unfold torch.unsqueeze1. rewrite Hs.
    split; reflexivity.
Qed.

(** X9: the in-place change makes [forward] fail when it is called again on
    the same tensor object.  For a model [__init__] built from at least two
    channels and a tensor of shape [(N, L)], the first call leaves the
    tensor with shape [(N, 1, L)], so a second call sees [(N, 1, 1, L)]: the
    first convolution rejects it and the tensor keeps that shape. *)
Theorem forward_twice (channels : list Z) (k out nc : Z) (w0 w1 : world R)
    (self : vanilla_cnn.vanillaCNN R) (x : loc) (t : tensor R) (N L : nat)
    (w : world R) :
  2 ≤ length channels ->
  vanilla_cnn.__init__ channels k out nc w0 = (inr self, w1) ->
  heap w !! x = Some t -> shape t = [N; L] ->
  vanilla_cnn.forward self x (vanilla_cnn.forward self x w).2
    = (inl (RuntimeError "Expected 2D (unbatched) or 3D (batched) input to conv1d"),
       World (<[x := Tensor [N; 1; 1; L] (data t)]> (heap w)) (rng w) (events w)).
Proof.
  intros Hlen Hinit Hx Hs.
  destruct (init_run channels k out nc w0)
    as (model & g & Hrun & [Hnl Hent] & _).
  rewrite Hinit in Hrun. injection Hrun as -> _.
  destruct (Hent 0 ltac:(lia)) as (ci & co & p & _ & _ & Hc & _).
  destruct (vanilla_cnn.net model) as [|[name0 m0] net'] eqn:Hnet; [done|].
  cbn in Hc. injection Hc as _ Hm0. subst m0.
  rewrite (forward_run model x t N [L] w Hx Hs). cbn [snd].
  rewrite (forward_run model x (Tensor [N; 1; L] (data t)) N [1; L]).
  - cbn [heap rng events data]. rewrite insert_insert_eq.
    unfold vanilla_cnn.head. rewrite Hnet. done.
  - cbn [heap]. by rewrite lookup_insert_eq.
  - done.
Qed.
End more_step_facts.

(** ** The shape of what the convolutions give *)

Section more_shape_facts.
Context {R : Type} `{Scalar R} `{Externals R} `{!vanilla_cnn.Lightning R}.

Lemma net_sample_shape_app (net1 net2 : torch.Sequential R) :
  forall C L,
  net_sample_shape (net1 ++ net2) C L =
    (let! (C', L') := net_sample_shape net1 C L in net_sample_shape net2 C' L').
Proof.
  induction net1 as [|[name m] net1 IH]; intros C L; [done|].
  cbn [app net_sample_shape].
  destruct (module_sample_shape m C L) as [e|[C' L']]; [done|].
  cbn [bind]. apply IH.
Qed.

Lemma length_net_sample (net : torch.Sequential R) :
  forall C L C' L' (d : list R),
  net_sample_shape net C L = ret (C', L') -> length d = C * L ->
  length (net_sample net C L d) = C' * L'.
Proof.
  induction net as [|[name m] net IH]; intros C L C' L' d Hs Hd.
  - injection Hs as <- <-. done.
  - cbn [net_sample_shape net_sample] in *.
    destruct (module_sample_shape m C L) as [e|[C1 L1]] eqn:Em; [done|].
    cbn [bind] in Hs. apply (IH C1 L1); [done|].
    by apply (length_module_sample m C L).
Qed.

(** The last block of a stack of [S j] blocks. *)
Lemma conv_stack_snoc_inv (channels : list Z) (k : Z) (j : nat)
    (net : torch.Sequential R) :
  conv_stack channels k (S j) net ->
  exists net' ci co p n1 n2,
    net = net' ++ [(n1, torch.Conv1d ci co k p); (n2, torch.ReLU)] /\
    conv_stack channels k j net' /\
    channels !! j = Some ci /\ channels !! (S j) = Some co.
Proof.
  intros [Hlen Hent].
  destruct (Hent j ltac:(lia)) as (ci & co & p & Hci & Hco & Hc & Ha).
  exists (take (2 * j) net), ci, co, p.
  eexists _, _. split; [|split; [|done]].
  - rewrite <- (take_drop (2 * j) net) at 1. f_equal.
    assert (length (drop (2 * j) net) = 2) as Hd by (rewrite length_drop; lia).
    pose proof (lookup_drop net (2 * j) 0) as Hd0.
    pose proof (lookup_drop net (2 * j) 1) as Hd1.
    rewrite Nat.add_0_r, Hc in Hd0. rewrite Ha in Hd1.
    destruct (drop (2 * j) net) as [|u [|v [|? ?]]]; try done.
    cbn in Hd0, Hd1. by simplify_eq.
  - split.
    + rewrite length_take. lia.
    + intros i Hi.
      destruct (Hent i ltac:(lia)) as (ci' & co' & p' & ? & ? & Hc' & Ha').
      exists ci', co', p'. split; [done|]. split; [done|].
      rewrite !lookup_take_lt by lia. done.
Qed.

(** A stack of [j] convolutions of kernel size [k] on a signal of length
    [L]: the channels of the last one, and [j * (k - 1)] entries fewer. *)
Lemma conv_stack_shape (channels : list Z) (k c0 : Z) (L : nat) :
  (1 <= k)%Z -> Forall (fun c => (0 < c)%Z) channels ->
  channels !! 0 = Some c0 ->
  forall j (net : torch.Sequential R) cj,
  conv_stack channels k j net -> channels !! j = Some cj ->
  j * (Z.to_nat k - 1) < L ->
  net_sample_shape net (Z.to_nat c0) L
    = ret (Z.to_nat cj, conv_length L j (Z.to_nat k)).
Proof.
  intros Hk Hpos Hc0. induction j as [|j IH]; intros net cj Hst Hcj HL.
  - destruct Hst as [Hlen _]. destruct net; [|done].
    rewrite Hc0 in Hcj. injection Hcj as <-.
    unfold conv_length. simpl. by rewrite Nat.sub_0_r.
  - destruct (conv_stack_snoc_inv _ _ _ _ Hst)
      as (net' & ci & co & p & n1 & n2 & -> & Hst' & Hci & Hco).
    rewrite Hcj in Hco. injection Hco as <-.
    rewrite net_sample_shape_app.
    rewrite (IH net' ci Hst' Hci) by lia.
    cbn [bind ret net_sample_shape module_sample_shape].
    assert (0 < ci)%Z as Hci0.
    { rewrite Forall_forall in Hpos. apply Hpos.
      by eapply list_elem_of_lookup_2. }
    assert (0 < cj)%Z as Hcj0.
    { rewrite Forall_forall in Hpos. apply Hpos.
      by eapply list_elem_of_lookup_2. }
    unfold conv_length in *.
    replace (torch.conv1d_ok ci cj k (Z.to_nat ci) (L - j * (Z.to_nat k - 1)))
      with true.
    + cbn [bind ret]. unfold ret. do 2 f_equal. lia.
    + symmetry. unfold torch.conv1d_ok.
      rewrite !andb_true_iff, Z.eqb_eq, !Z.leb_le. lia.
Qed.

(** X10: what [output_size] has to be.  For a model built by [__init__]
    from positive channels starting with 1, a kernel size [k >= 1] and a
    non-empty batch of shape [(N, L)] with [(n - 1) * (k - 1) < L], [n]
    being the number of channels: [forward] returns exactly when [output_size] is
    [channels[-1] * (L - (n - 1) * (k - 1))], the output then has shape
    [(N, 1)] in the binary case and [(N, no_classes)] otherwise; with any
    other [output_size] the linear layer raises a [RuntimeError]. *)
Theorem forward_output_shape (channels : list Z) (k out nc c_last : Z)
    (w0 w1 : world R) (self : vanilla_cnn.vanillaCNN R) (x : loc)
    (t : tensor R) (N L : nat) (w : world R) :
  vanilla_cnn.__init__ channels k out nc w0 = (inr self, w1) ->
  channels !! 0 = Some 1%Z -> last channels = Some c_last ->
  Forall (fun c => (0 < c)%Z) channels -> (1 <= k)%Z -> (0 <= nc)%Z ->
  (length channels - 1) * (Z.to_nat k - 1) < L ->
  heap w !! x = Some t -> shape t = [N; L] -> 0 < N -> wf t ->
  (out = (c_last * Z.of_nat (conv_length L (length channels - 1) (Z.to_nat k)))%Z ->
   exists o,
     (vanilla_cnn.forward self x w).1 = inr o /\
     shape o = [N; Z.to_nat (if (nc =? 2)%Z then 1%Z else nc)] /\ wf o) /\
  (out ≠ (c_last * Z.of_nat (conv_length L (length channels - 1) (Z.to_nat k)))%Z ->
   (vanilla_cnn.forward self x w).1
     = inl (RuntimeError "mat1 and mat2 shapes cannot be multiplied")).
Proof.
  intros Hinit Hc0 Hlast Hpos Hk Hnc HL Hx Hs HN Hwf.
  destruct (init_run channels k out nc w0)
    as (model & g & Hrun & Hst & _ & pfc & Hfc).
  rewrite Hinit in Hrun. injection Hrun as -> _.
  assert (channels !! (length channels - 1) = Some c_last) as Hcl.
  { rewrite last_lookup in Hlast.
    by replace (length channels - 1) with (pred (length channels)) by lia. }
  pose proof (conv_stack_shape channels k 1 L Hk Hpos Hc0 _ _ c_last Hst Hcl HL)
    as Hshape.
  change (Z.to_nat 1) with 1 in Hshape.
  set (L' := conv_length L (length channels - 1) (Z.to_nat k)) in *.
  assert (0 < L') as HL' by (unfold L', conv_length; lia).
  assert (0 < c_last)%Z as Hcl0.
  { rewrite Forall_forall in Hpos. apply Hpos. by eapply list_elem_of_lookup_2. }
  assert (length (data t) = N * L) as Hlen.
  { unfold wf in Hwf. rewrite Hwf, Hs. unfold numel. simpl. lia. }
  rewrite (forward_run model x t N [L] w Hx Hs). cbn [fst].
  unfold vanilla_cnn.head.
  rewrite <- (concat_chunks L N (data t) Hlen).
  rewrite (sequential_forward_batch _ N 1 L (chunks L N (data t))).
  2:{ apply length_chunks. }
  2:{ eapply Forall_impl; [by apply chunks_Forall_length|].
      intros d Hd. simpl in *. lia. }
  rewrite Hshape. cbn [bind ret shape].
  rewrite (getitem_nat _ 1 (Z.to_nat c_last)) by done.
  rewrite (getitem_nat _ 2 L') by done.
  cbn [bind ret].
  set (d := concat (net_sample (vanilla_cnn.net model) 1 L <$> chunks L N (data t))).
  assert (numel [N; Z.to_nat c_last; L'] = N * (Z.to_nat c_last * L')) as Hnum.
  { unfold numel. simpl. lia. }
  unfold torch.view_rows. cbn [shape data]. rewrite Hnum.
  rewrite bool_decide_eq_true_2.
  2:{ split; [nia|]. apply Nat.Div0.mod_mul. }
  rewrite Nat.div_mul by nia.
  cbn [bind ret]. rewrite Hfc. cbn [torch.module_forward].
  unfold torch.linear_forward. cbn [shape data last removelast].
  assert (length d = N * (Z.to_nat c_last * L')) as Hd.
  { unfold d. rewrite (length_concat_uniform (Z.to_nat c_last * L')).
    - by rewrite length_fmap, length_chunks.
    - apply Forall_fmap. eapply Forall_impl; [by apply chunks_Forall_length|].
      intros r Hr. simpl in *.
      apply (length_net_sample _ 1 L); [done|lia]. }
  split.
  - intros ->.
    replace (Z.of_nat (Z.to_nat c_last * L') =? c_last * Z.of_nat L')%Z with true
      by (symmetry; apply Z.eqb_eq; lia).
    replace (0 <=? (if (nc =? 2)%Z then 1 else nc))%Z with true
      by (symmetry; apply Z.leb_le; destruct (nc =? 2)%Z; lia).
    cbn [andb app]. eexists. split; [reflexivity|]. split; [done|].
    unfold wf. cbn [shape data].
    rewrite length_linear_rows, length_chunks. unfold numel. simpl. lia.
  - intros Hne.
    replace (Z.of_nat (Z.to_nat c_last * L') =? out)%Z with false; [done|].
    symmetry. apply Z.eqb_neq. intros Heq. apply Hne. lia.
Qed.
End more_shape_facts.

(** ** [get_cnn_outputs]: the width of the result and its rows *)

Section more_outputs_facts.
Context {R : Type} `{Scalar R} `{Externals R} `{!vanilla_cnn.Lightning R}.

Lemma numel_pair (a b : nat) : numel [a; b] = a * b.
Proof. unfold numel. simpl. lia. Qed.

Lemma numel_single (a : nat) : numel [a] = a.
Proof. unfold numel. simpl. lia. Qed.

(** X11: the width of the features.  For a model built by [__init__] from
    positive channels starting with 1 and a kernel size [k >= 1], and at
    least two signals of length [L] with [(n - 1) * (k - 1) < L], given as
    [(samples, L)] or [(samples, L, 1)]: [get_cnn_outputs] returns one row
    per signal, of [channels[-1] * (L - (n - 1) * (k - 1))] entries, which
    is the [output_size] the linear layer of the model has to be built
    with. *)
Theorem get_cnn_outputs_width (channels : list Z) (k out nc c_last : Z)
    (w0 w1 : world R) (model : vanilla_cnn.vanillaCNN R) (X : tensor R)
    (n L : nat) (rest : list nat) :
  vanilla_cnn.__init__ channels k out nc w0 = (inr model, w1) ->
  channels !! 0 = Some 1%Z -> last channels = Some c_last ->
  Forall (fun c => (0 < c)%Z) channels -> (1 <= k)%Z ->
  (length channels - 1) * (Z.to_nat k - 1) < L ->
  wf X -> shape X = n :: rest -> filter (fun d => d ≠ 1) rest = [L] -> 2 ≤ n ->
  exists o,
    vanilla_cnn.get_cnn_outputs model X = ret o /\
    shape o = [n; Z.to_nat c_last
                  * conv_length L (length channels - 1) (Z.to_nat k)] /\
    wf o.
Proof.
  intros Hinit Hc0 Hlast Hpos Hk HL Hwf Hs Hf Hn.
  destruct (init_run channels k out nc w0)
    as (model' & g & Hrun & Hst & _).
  rewrite Hinit in Hrun. injection Hrun as <- _.
  assert (channels !! (length channels - 1) = Some c_last) as Hcl.
  { rewrite last_lookup in Hlast.
    by replace (length channels - 1) with (pred (length channels)) by lia. }
  pose proof (conv_stack_shape channels k 1 L Hk Hpos Hc0 _ _ c_last Hst Hcl HL)
    as Hshape.
  change (Z.to_nat 1) with 1 in Hshape.
  destruct (get_cnn_outputs_unfold model X n L rest Hwf Hs Hf
              ltac:(lia) ltac:(lia)) as [Hout _].
  rewrite Hout, Hshape. cbn [bind ret].
  eexists. split; [reflexivity|]. cbn [shape]. rewrite numel_pair.
  split; [done|].
  unfold wf. cbn [shape data]. rewrite numel_pair.
  assert (length (data X) = n * L) as Hlen.
  { unfold wf in Hwf. rewrite Hwf, Hs. cbn [numel foldr].
    change (foldr Nat.mul 1 rest) with (numel rest).
    by rewrite <- (numel_squeezed rest), Hf, numel_single. }
  rewrite (length_concat_uniform
             (Z.to_nat c_last * conv_length L (length channels - 1) (Z.to_nat k))).
  - by rewrite length_fmap, length_chunks.
  - apply Forall_fmap. eapply Forall_impl; [by apply chunks_Forall_length|].
    intros r Hr. simpl in *.
    apply (length_net_sample _ 1 L); [done|lia].
Qed.

(** X12: no sample influences another.  When [get_cnn_outputs] returns on
    at least two signals of length [L], row [i] of the result is what the
    layers of [model.net] give on signal [i] alone, whatever the other
    signals and whichever batch of 64 the signal falls in. *)
Theorem get_cnn_outputs_rows (model : vanilla_cnn.vanillaCNN R) (X o : tensor R)
    (n L i : nat) (rest : list nat) :
  wf X -> shape X = n :: rest -> filter (fun d => d ≠ 1) rest = [L] -> 2 ≤ n ->
  vanilla_cnn.get_cnn_outputs model X = ret o -> i < n ->
  exists C' L',
    net_sample_shape (vanilla_cnn.net model) 1 L = ret (C', L') /\
    rows o !! i =
      Some (Tensor [C' * L']
              (net_sample (vanilla_cnn.net model) 1 L
                 (take L (drop (i * L) (data X))))).
Proof.
  intros Hwf Hs Hf Hn Hrun Hi.
  destruct (get_cnn_outputs_unfold model X n L rest Hwf Hs Hf
              ltac:(lia) ltac:(lia)) as [Hout _].
  rewrite Hrun in Hout.
  destruct (net_sample_shape (vanilla_cnn.net model) 1 L) as [e|[C' L']] eqn:Esh;
    [done|].
  cbn [bind ret] in Hout. injection Hout as ->.
  exists C', L'. split; [done|].
  assert (length (data X) = n * L) as Hlen.
  { unfold wf in Hwf. rewrite Hwf, Hs. cbn [numel foldr].
    change (foldr Nat.mul 1 rest) with (numel rest).
    by rewrite <- (numel_squeezed rest), Hf, numel_single. }
  unfold rows. cbn [shape data]. rewrite numel_single, !Nat.mul_1_r.
  set (ls := net_sample (vanilla_cnn.net model) 1 L <$> chunks L n (data X)).
  assert (length ls = n) as Hls by (unfold ls; by rewrite length_fmap, length_chunks).
  assert (Forall (fun r => length r = C' * L') ls) as Hall.
  { unfold ls. apply Forall_fmap.
    eapply Forall_impl; [by apply chunks_Forall_length|].
    intros r Hr. simpl in *. apply (length_net_sample _ 1 L); [done|lia]. }
  rewrite <- Hls at 1. rewrite (chunks_concat _ ls Hall).
  rewrite list_lookup_fmap. unfold ls. rewrite list_lookup_fmap.
  by rewrite chunks_lookup by done.
Qed.
End more_outputs_facts.

(** ** [train_vanilla_cnn]: errors, and the epochs run *)

Section more_train_facts.
Context {R : Type} `{Scalar R} `{Externals R} `{!vanilla_cnn.Lightning R}.

(** With a valid name and channels, [train_vanilla_cnn] is its part after
    the choice of dataset, run on some datasets and some model in a world
    that differs in the generator state only. *)
Lemma train_vanilla_cnn_tail fuel channels k out ds E (w : world R) :
  ds = "mithb" \/ ds = "ptbdb" -> channels ≠ [] ->
  exists (tr va : torch.TensorDataset R) (model : vanilla_cnn.vanillaCNN R)
         (g : RNG),
    vanilla_cnn.train_vanilla_cnn fuel channels k out ds E w =
      (do! es := lift (vanilla_cnn.new_EarlyStopping "val_loss" "min") in
       do! trainer := lift (vanilla_cnn.new_Trainer USE_GPU E [es] "saved_models") in
       do! (trainer, model) :=
         vanilla_cnn.fit fuel trainer model
           {| torch.dataset := tr; torch.batch_size := 32;
              torch.shuffle := true |}
           {| torch.dataset := va; torch.batch_size := 64;
              torch.shuffle := false |} in
       mret (vanilla_cnn.VTuple [vanilla_cnn.VModel model;
                                 vanilla_cnn.VTrainer trainer]))
        (World (heap w) g (events w)).
Proof.
  intros Hds Hch. unfold vanilla_cnn.train_vanilla_cnn.
  assert (exists (x y xt yt : tensor R) dtype nc,
    (if bool_decide (ds = "mithb")
     then
       let '(x, y, x_test, y_test) := load_arrhythmia_dataset in
       do! (train_dataset, val_dataset, test_dataset) :=
         random (prepare_datasets x y x_test y_test true None) in
       do! c_last := lift (getitem channels (-1)) in
       do! model := vanilla_cnn.__init__ channels k (c_last * out) 5 in
       mret (train_dataset, val_dataset, test_dataset, model)
     else if bool_decide (ds = "ptbdb")
     then
       let '(x, y, x_test, y_test) := load_PTB_dataset in
       do! (train_dataset, val_dataset, test_dataset) :=
         random (prepare_datasets x y x_test y_test true (Some "torch.float")) in
       do! c_last := lift (getitem channels (-1)) in
       do! model := vanilla_cnn.__init__ channels k (c_last * out) 2 in
       mret (train_dataset, val_dataset, test_dataset, model)
     else mraise (ValueError ["Incorrect dataset!"])) =
    (do! (train_dataset, val_dataset, test_dataset) :=
       random (prepare_datasets x y xt yt true dtype) in
     do! c_last := lift (getitem channels (-1)) in
     do! model := vanilla_cnn.__init__ channels k (c_last * out) nc in
     mret (train_dataset, val_dataset, test_dataset, model)))
    as (x & y & xt & yt & dtype & nc & ->).
  { destruct Hds as [-> | ->].
    - rewrite bool_decide_eq_true_2 by done.
      destruct load_arrhythmia_dataset as [[[x y] xt] yt]. by eexists _, _, _, _, _, _.
    - rewrite bool_decide_eq_false_2 by done.
      rewrite bool_decide_eq_true_2 by done.
      destruct load_PTB_dataset as [[[x y] xt] yt]. by eexists _, _, _, _, _, _. }
  destruct (branch_run x y xt yt dtype nc channels k out w)
    as [[Hch' _] | [_ (tr & va & te & model & g & Hb)]]; [done|].
  exists tr, va, model, g. by rewrite (mbind_inr _ _ _ _ _ Hb).
Qed.

(** The part after the choice of dataset, for an epoch limit the trainer
    accepts: the fit loop from the trainer's initial state. *)
Lemma train_tail_run fuel E (tr va : torch.TensorDataset R)
    (model : vanilla_cnn.vanillaCNN R) (w : world R) :
  (-1 <= E)%Z ->
  (do! es := lift (vanilla_cnn.new_EarlyStopping "val_loss" "min") in
   do! trainer := lift (vanilla_cnn.new_Trainer USE_GPU E [es] "saved_models") in
   do! (trainer, model) :=
     vanilla_cnn.fit fuel trainer model
       {| torch.dataset := tr; torch.batch_size := 32; torch.shuffle := true |}
       {| torch.dataset := va; torch.batch_size := 64; torch.shuffle := false |} in
   mret (vanilla_cnn.VTuple [vanilla_cnn.VModel model;
                             vanilla_cnn.VTrainer trainer])) w =
  match
    vanilla_cnn.fit_loop fuel (trainer_start E) model
      {| torch.dataset := tr; torch.batch_size := 32; torch.shuffle := true |}
      {| torch.dataset := va; torch.batch_size := 64; torch.shuffle := false |}
      (World (heap w) (rng w)
         (events w ++
          [LightningFit E [pl.mkEarlyStopping "val_loss" "min"] 32 true 64 false]))
  with
  | (inr (t, m), w') =>
      (inr (vanilla_cnn.VTuple [vanilla_cnn.VModel m; vanilla_cnn.VTrainer t]), w')
  | (inl e, w') => (inl e, w')
  end.
Proof.
  intros HE.
  unfold vanilla_cnn.new_EarlyStopping.
  rewrite bool_decide_eq_true_2 by (by left).
  unfold vanilla_cnn.new_Trainer.
  rewrite (proj2 (Z.ltb_ge E (-1))) by lia.
  unfold mbind at 1. unfold lift at 1. unfold ret at 1.
  unfold mbind at 1. unfold lift at 1. unfold ret at 1.
  unfold mbind at 1. unfold vanilla_cnn.fit.
  unfold mbind at 1. unfold emit at 1. unfold modify at 1.
  cbn [pl.max_epochs pl.callbacks torch.batch_size torch.shuffle].
  fold (trainer_start E).
  destruct (vanilla_cnn.fit_loop _ _ _ _ _ _) as [[e|[t m]] w']; done.
Qed.



Section plateau.
Variable c : R.
Hypothesis Hval : forall m l, (vanilla_cnn.validate m l).1 = c.
Hypothesis Hfin : is_finite c = true.
Hypothesis Hlt : rlt c c = false.

Lemma run_epoch_first (E : Z) (model : vanilla_cnn.vanillaCNN R)
    (tl vl : torch.DataLoader R) (w : world R) :
  exists model' g,
    vanilla_cnn.run_epoch (trainer_start E) model tl vl w =
      (inr (trainer_on_plateau E c 1, model'),
       World (heap w) g (events w ++ [Validated 0 c])).
Proof.
  unfold vanilla_cnn.run_epoch, mbind at 1, random at 1.
  destruct (vanilla_cnn.train_epoch model tl (rng w)) as [model' g].
  pose proof (Hval model' vl) as Hv.
  destruct (vanilla_cnn.validate model' vl) as [l a]. cbn in Hv. subst l.
  exists model', g.
  unfold mbind, emit, modify, lift, mret.
  cbn [trainer_start pl.callbacks pl.current_epoch map_result].
  unfold vanilla_cnn.early_stopping_check.
  cbn [pl.mkEarlyStopping pl.monitor list_to_map foldr curry fst snd].
  rewrite lookup_insert_eq, Hfin. cbn [negb].
  cbn [pl.best_score vanilla_cnn.improves bind ret heap rng events].
  reflexivity.
Qed.

Lemma run_epoch_plateau (E : Z) (i : nat) (model : vanilla_cnn.vanillaCNN R)
    (tl vl : torch.DataLoader R) (w : world R) :
  1 ≤ i ->
  exists model' g,
    vanilla_cnn.run_epoch (trainer_on_plateau E c i) model tl vl w =
      (inr (trainer_on_plateau E c (S i), model'),
       World (heap w) g (events w ++ [Validated i c])).
Proof.
  intros Hi.
  unfold vanilla_cnn.run_epoch, mbind at 1, random at 1.
  destruct (vanilla_cnn.train_epoch model tl (rng w)) as [model' g].
  pose proof (Hval model' vl) as Hv.
  destruct (vanilla_cnn.validate model' vl) as [l a]. cbn in Hv. subst l.
  exists model', g.
  unfold mbind, emit, modify, lift, mret.
  cbn [trainer_on_plateau pl.callbacks pl.current_epoch map_result].
  unfold vanilla_cnn.early_stopping_check.
  cbn [pl.monitor list_to_map foldr curry fst snd].
  rewrite lookup_insert_eq, Hfin. cbn [negb].
  cbn [pl.best_score pl.mode vanilla_cnn.improves].
  rewrite bool_decide_eq_true_2 by done. rewrite Hlt.
  cbn [bind ret heap rng events fmap list_fmap fst snd existsb
       pl.gpus pl.max_epochs pl.default_root_dir pl.should_stop
       pl.patience pl.wait_count].
  unfold trainer_on_plateau. do 5 f_equal.
  - f_equal. lia.
  - cbn [pl.should_stop]. unfold pl.default_patience.
    repeat case_bool_decide; simpl; try done; lia.
Qed.

Lemma fit_loop_plateau (E : Z) (tl vl : torch.DataLoader R) (d : nat) :
  forall (fuel i : nat) (model : vanilla_cnn.vanillaCNN R) (w : world R),
  (-1 <= E)%Z -> 1 ≤ i -> i + d = epochs_on_plateau E -> d ≤ fuel ->
  exists model' g,
    vanilla_cnn.fit_loop fuel (trainer_on_plateau E c i) model tl vl w =
      (inr (trainer_on_plateau E c (epochs_on_plateau E), model'),
       World (heap w) g
         (events w ++ ((fun j => Validated j c) <$> seq i d))).
Proof.
  induction d as [|d IH]; intros fuel i model w HE Hi Hd Hfuel.
  - rewrite Nat.add_0_r in Hd. subst i.
    exists model, (rng w).
    assert (vanilla_cnn.done (trainer_on_plateau E c (epochs_on_plateau E)) = true)
      as Hdone.
    { unfold vanilla_cnn.done, trainer_on_plateau, epochs_on_plateau in *.
      cbn [pl.max_epochs pl.current_epoch pl.should_stop].
      unfold pl.default_patience in *.
      destruct (E =? -1)%Z eqn:HE1.
      - by rewrite bool_decide_eq_true_2 by lia.
      - apply Z.eqb_neq in HE1. cbn [negb andb].
        destruct (decide (4 ≤ Z.to_nat E)).
        + rewrite (bool_decide_eq_true_2 (4 ≤ _)) by lia. apply orb_true_r.
        + replace (E <=? Z.of_nat (Z.to_nat E `min` 4))%Z with true; [done|].
          symmetry. apply Z.leb_le. lia. }
    destruct fuel; cbn [vanilla_cnn.fit_loop]; rewrite Hdone;
      unfold mret; cbn [seq fmap list_fmap]; rewrite app_nil_r; by destruct w.
  - destruct fuel as [|fuel]; [lia|].
    assert (vanilla_cnn.done (trainer_on_plateau E c i) = false) as Hdone.
    { unfold vanilla_cnn.done, trainer_on_plateau, epochs_on_plateau in *.
      cbn [pl.max_epochs pl.current_epoch pl.should_stop].
      unfold pl.default_patience in *.
      destruct (E =? -1)%Z eqn:HE1.
      - by rewrite bool_decide_eq_false_2 by lia.
      - apply Z.eqb_neq in HE1. cbn [negb andb].
        rewrite bool_decide_eq_false_2 by lia.
        replace (E <=? Z.of_nat i)%Z with false; [done|].
        symmetry. apply Z.leb_gt. lia. }
    cbn [vanilla_cnn.fit_loop]. rewrite Hdone.
    destruct (run_epoch_plateau E i model tl vl w Hi) as (model1 & g1 & Hrun).
    rewrite (mbind_inr _ _ _ _ _ Hrun).
    destruct (IH fuel (S i) model1 (World (heap w) g1 (events w ++ [Validated i c]))
                HE ltac:(lia) ltac:(lia) ltac:(lia)) as (model' & g & Hloop).
    exists model', g. rewrite Hloop. cbn [heap rng events seq fmap list_fmap].
    by rewrite <- app_assoc.
Qed.

End plateau.
End more_train_facts.

(** ** The statements at concrete inputs *)

Module checks.
Import toy.

Lemma rows_split_first (A B : tensor Z) :
  let '(Atr, Ava, _, _) := split_first A B in
  rows Atr ++ rows Ava ≡ₚ rows A.
Proof.
  unfold split_first.
  destruct (shape A) as [|[|n] s] eqn:EA; destruct (shape B) as [|[|n'] s'] eqn:EB;
    unfold rows; cbn [shape data tail chunks fmap list_fmap]; rewrite ?EA;
    cbn [tail chunks fmap list_fmap]; rewrite ?app_nil_r; try done.
  rewrite take_take, Nat.min_id.
  symmetry. apply Permutation_cons_append.
Qed.

Lemma split_contract (A B : tensor Z) (q : Q) (g : nat)
    (Atr Ava Btr Bva : tensor Z) (g' : nat) :
  train_test_split A B q g = ((Atr, Ava, Btr, Bva), g') ->
  rows Atr ++ rows Ava ≡ₚ rows A.
Proof.
  cbn [train_test_split externals]. intros [= Hs _].
  pose proof (rows_split_first A B) as Hr. by rewrite Hs in Hr.
Qed.

Lemma sigmoid_unit (v : Z) : rle rzero (sigmoid v) /\ rle (sigmoid v) rone.
Proof. cbn. destruct (0 <? v)%Z; lia. Qed.








Lemma C6_counterexample :
  wf one_sample /\ shape one_sample = [1; 4; 1] /\
  vanilla_cnn.get_cnn_outputs model0 one_sample
    = ret (Tensor [4; 1] [1; 2; 3; 4]%Z) /\
  vanilla_cnn.get_cnn_outputs model3 one_sample
    = raise (RuntimeError "conv1d: input does not fit the layer") /\
  vanilla_cnn.get_cnn_outputs model3 no_sample
    = raise (RuntimeError "torch.cat(): expected a non-empty list of Tensors") /\
  ~ (forall (model : vanilla_cnn.vanillaCNN Z) (X : tensor Z),
       wf X ->
       exists out,
         vanilla_cnn.get_cnn_outputs model X = ret out /\
         hd 0 (shape out) = hd 0 (shape X)).
Proof.
  split; [reflexivity|]. split; [reflexivity|].
  split; [vm_compute; reflexivity|]. split; [vm_compute; reflexivity|].
  split; [vm_compute; reflexivity|].
  intros Hclaim.
  destruct (Hclaim model0 one_sample eq_refl) as (out & Hout & Hrows).
  vm_compute in Hout. injection Hout as <-. discriminate.
Qed.

Lemma C6_witness :
  wf three_samples /\ shape three_samples = 3 :: [4; 1] /\
  filter (fun d => d ≠ 1) [4; 1] = [4] /\ 2 ≤ 3 /\
  vanilla_cnn.get_cnn_outputs model3 three_samples =
    (let! u := torch.unsqueeze1 (torch.squeeze three_samples) in
     let! o := torch.sequential_forward (vanilla_cnn.net model3) u in
     torch.flatten_from1 o) /\
  (forall out, vanilla_cnn.get_cnn_outputs model3 three_samples = ret out ->
     exists F, shape out = [3; F]) /\
  (forall C' L',
     net_sample_shape (vanilla_cnn.net model3) 1 4 = ret (C', L') ->
     exists out, vanilla_cnn.get_cnn_outputs model3 three_samples = ret out /\
                 shape out = [3; C' * L']).
Proof.
  assert (wf three_samples) as H1 by reflexivity.
  assert (shape three_samples = 3 :: [4; 1]) as H2 by reflexivity.
  assert (filter (fun d => d ≠ 1) [4; 1] = [4]) as H3 by (vm_compute; reflexivity).
  assert (2 ≤ 3) as H4 by lia.
  do 4 (split; [assumption|]).
  exact (C6_batching_invariant model3 three_samples 3 4 [4; 1] H1 H2 H3 H4).
Defined.

Lemma C7_witness :
  (0 <= 15)%Z /\
  let run := vanilla_cnn.train_vanilla_cnn 20 [1; 2]%Z 3 4 "mithb" 15 w0 in
  let h := val_history (new_events w0 run.2) in
  (Z.of_nat (length h) <= 15)%Z /\
  (forall h1 h2, h = h1 ++ h2 -> h2 ≠ [] -> stalled h1 < pl.default_patience) /\
  (forall model trainer,
     run.1 = inr (vanilla_cnn.VTuple [vanilla_cnn.VModel model;
                                      vanilla_cnn.VTrainer trainer]) ->
     pl.current_epoch trainer = length h /\
     (pl.should_stop trainer = true \/
      Z.of_nat (pl.current_epoch trainer) = 15%Z)).
Proof.
  assert (0 <= 15)%Z as HE by lia.
  split; [exact HE|].
  exact (C7_early_stopping 20 [1; 2]%Z 3 4 "mithb" 15 w0 HE).
Defined.

Lemma C8_witness :
  let x := Tensor [2; 2; 1] [1; 2; 3; 4]%Z in
  let w := World {[0 := x]} 0 [] in
  heap w !! 0 = Some x /\ shape x = [2; 2; 1] /\ wf x /\
  exists (l : loc) (P : tensor Z) (w' : world Z),
    autoencoder_tree._pad ∅ 0 w = (inr l, w') /\
    heap w' !! l = Some P /\
    shape P = [2; 2 + 1; 1] /\ wf P /\
    (forall i j, i < 2 -> j < 2 ->
       data P !! (i * (2 + 1) + j) = data x !! (i * 2 + j)) /\
    (forall i, i < 2 -> data P !! (i * (2 + 1) + 2) = Some rzero) /\
    l <> 0 /\ heap w' !! 0 = Some x /\
    (forall l', l' <> l -> heap w' !! l' = heap w !! l').
Proof.
  intros x w.
  assert (heap w !! 0 = Some x) as H1 by reflexivity.
  assert (shape x = [2; 2; 1]) as H2 by reflexivity.
  assert (wf x) as H3 by reflexivity.
  do 3 (split; [assumption|]).
  exact (C8_pad_appends_zero ∅ 0 x 2 2 w H1 H2 H3).
Defined.


Lemma C10_witness :
  heap w_batch !! 0 = Some batch_x /\ shape batch_x = 2 :: [3] /\
  let t' := Tensor (2 :: 1 :: [3]) (data batch_x) in
  heap (vanilla_cnn.forward model2 0 w_batch).2 = <[0 := t']> (heap w_batch) /\
  heap (vanilla_cnn.training_step model2 [0; 1] 0 w_batch).2
    = <[0 := t']> (heap w_batch) /\
  t' <> batch_x.
Proof.
  assert (heap w_batch !! 0 = Some batch_x) as H1 by reflexivity.
  assert (shape batch_x = 2 :: [3]) as H2 by reflexivity.
  do 2 (split; [assumption|]).
  exact (C10_input_unsqueezed_in_place model2 0 1 0 batch_x 2 [3] w_batch H1 H2).
Defined.

End checks.

(** * The further properties on concrete inputs *)

Module more_checks.
Import toy toy_inputs.

Lemma predict_before_train_witness :
  autoencoder_tree.__init__ "mithb" "full" w0 = (inr built_self, built.2) /\
  autoencoder_tree.predict built_self built.2
    = (inl (AttributeError "featurizer"), built.2).
Proof.
  assert (autoencoder_tree.__init__ "mithb" "full" w0 = (inr built_self, built.2))
    as H1 by (vm_compute; reflexivity).
  split; [exact H1|].
  exact (predict_before_train "mithb" "full" w0 built.2 built.2 built_self H1).
Defined.






Lemma steps_unsqueeze_in_place_witness :
  heap w_batch !! 0 = Some batch_x /\ shape batch_x = 2 :: [3] /\
  heap (vanilla_cnn.validation_step model2 [0; 1] 0 w_batch).2
    = <[0 := Tensor (2 :: 1 :: [3]) (data batch_x)]> (heap w_batch) /\
  heap (vanilla_cnn.predict_step model2 [0] 0 w_batch).2
    = <[0 := Tensor (2 :: 1 :: [3]) (data batch_x)]> (heap w_batch) /\
  heap (vanilla_cnn.predict_step model2 [0; 1] 0 w_batch).2
    = <[0 := Tensor (2 :: 1 :: [3]) (data batch_x)]> (heap w_batch).
Proof.
  assert (heap w_batch !! 0 = Some batch_x) as H1 by reflexivity.
  assert (shape batch_x = 2 :: [3]) as H2 by reflexivity.
  do 2 (split; [assumption|]).
  exact (steps_unsqueeze_in_place model2 0 1 0 batch_x 2 [3] w_batch H1 H2).
Defined.

Lemma steps_reject_unchanged_witness :
  length [0] ≠ 2 /\
  heap w_scalar !! 0 = Some (Tensor [] [5]%Z) /\
  (exists msg,
     vanilla_cnn.training_step model2 [0] 0 w_scalar
       = (inl (ValueError [msg]), w_scalar) /\
     vanilla_cnn.validation_step model2 [0] 0 w_scalar
       = (inl (ValueError [msg]), w_scalar)) /\
  (exists msg,
     vanilla_cnn.forward model2 0 w_scalar = (inl (IndexError msg), w_scalar) /\
     vanilla_cnn.training_step model2 [0; 1] 0 w_scalar
       = (inl (IndexError msg), w_scalar)).
Proof.
  assert (length [0] ≠ 2) as H1 by discriminate.
  assert (heap w_scalar !! 0 = Some (Tensor [] [5]%Z)) as H2 by reflexivity.
  do 2 (split; [assumption|]).
  destruct (steps_reject_unchanged model2 [0] 0 1 0 (Tensor [] [5]%Z) w_scalar)
    as (Ha & _ & Hc).
  split; [exact (Ha H1)|exact (Hc H2 eq_refl)].
Defined.

Lemma forward_twice_witness :
  2 ≤ length [1; 2]%Z /\
  vanilla_cnn.__init__ [1; 2]%Z 2 4 2 w0 = (inr made_model, made.2) /\
  heap w_batch !! 0 = Some batch_x /\ shape batch_x = [2; 3] /\
  vanilla_cnn.forward made_model 0 (vanilla_cnn.forward made_model 0 w_batch).2
    = (inl (RuntimeError "Expected 2D (unbatched) or 3D (batched) input to conv1d"),
       World (<[0 := Tensor [2; 1; 1; 3] (data batch_x)]> (heap w_batch))
         (rng w_batch) (events w_batch)).
Proof.
  assert (2 ≤ length [1; 2]%Z) as H1 by (simpl; lia).
  assert (vanilla_cnn.__init__ [1; 2]%Z 2 4 2 w0 = (inr made_model, made.2))
    as H2 by (vm_compute; reflexivity).
  assert (heap w_batch !! 0 = Some batch_x) as H3 by reflexivity.
  assert (shape batch_x = [2; 3]) as H4 by reflexivity.
  do 4 (split; [assumption|]).
  exact (forward_twice [1; 2]%Z 2 4 2 w0 made.2 made_model 0 batch_x 2 3 w_batch
           H1 H2 H3 H4).
Defined.

Lemma forward_output_shape_witness :
  vanilla_cnn.__init__ [1; 2]%Z 2 4 2 w0 = (inr made_model, made.2) /\
  Forall (fun c => (0 < c)%Z) [1; 2]%Z /\
  (length [1; 2]%Z - 1) * (Z.to_nat 2 - 1) < 3 /\
  heap w_batch !! 0 = Some batch_x /\ shape batch_x = [2; 3] /\ 0 < 2 /\
  wf batch_x /\
  4%Z = (2 * Z.of_nat (conv_length 3 (length [1; 2]%Z - 1) (Z.to_nat 2)))%Z /\
  exists o,
    (vanilla_cnn.forward made_model 0 w_batch).1 = inr o /\
    shape o = [2; Z.to_nat (if (2 =? 2)%Z then 1%Z else 2%Z)] /\ wf o.
Proof.
  assert (vanilla_cnn.__init__ [1; 2]%Z 2 4 2 w0 = (inr made_model, made.2))
    as H1 by (vm_compute; reflexivity).
  assert (Forall (fun c => (0 < c)%Z) [1; 2]%Z) as H2
    by (repeat constructor).
  assert ((length [1; 2]%Z - 1) * (Z.to_nat 2 - 1) < 3) as H3
    by (vm_compute; lia).
  assert (heap w_batch !! 0 = Some batch_x) as H4 by reflexivity.
  assert (shape batch_x = [2; 3]) as H5 by reflexivity.
  assert (wf batch_x) as H6 by reflexivity.
  assert (4%Z = (2 * Z.of_nat (conv_length 3 (length [1; 2]%Z - 1) (Z.to_nat 2)))%Z)
    as H7 by reflexivity.
  assert (0 < 2) as H8 by lia.
  do 8 (split; [assumption|]).
  refine (proj1 (forward_output_shape [1; 2]%Z 2 4 2 2 w0 made.2 made_model 0
                   batch_x 2 3 w_batch H1 eq_refl eq_refl H2 _ _ H3 H4 H5 H8 H6)
            H7);
    discriminate.
Defined.

Lemma get_cnn_outputs_width_witness :
  vanilla_cnn.__init__ [1; 2]%Z 2 4 2 w0 = (inr made_model, made.2) /\
  Forall (fun c => (0 < c)%Z) [1; 2]%Z /\
  (length [1; 2]%Z - 1) * (Z.to_nat 2 - 1) < 4 /\
  wf three_samples /\ 2 ≤ 3 /\
  exists o,
    vanilla_cnn.get_cnn_outputs made_model three_samples = ret o /\
    shape o = [3; Z.to_nat 2 * conv_length 4 (length [1; 2]%Z - 1) (Z.to_nat 2)] /\
    wf o.
Proof.
  assert (vanilla_cnn.__init__ [1; 2]%Z 2 4 2 w0 = (inr made_model, made.2))
    as H1 by (vm_compute; reflexivity).
  assert (Forall (fun c => (0 < c)%Z) [1; 2]%Z) as H2
    by (repeat constructor).
  assert ((length [1; 2]%Z - 1) * (Z.to_nat 2 - 1) < 4) as H3
    by (vm_compute; lia).
  assert (wf three_samples) as H4 by reflexivity.
  assert (2 ≤ 3) as H5 by lia.
  do 5 (split; [assumption|]).
  refine (get_cnn_outputs_width [1; 2]%Z 2 4 2 2 w0 made.2 made_model
            three_samples 3 4 [4; 1] H1 eq_refl eq_refl H2 _ H3 H4 eq_refl
            eq_refl H5).
  discriminate.
Defined.

Lemma get_cnn_outputs_rows_witness :
  wf three_samples /\ 2 ≤ 3 /\
  vanilla_cnn.get_cnn_outputs model3 three_samples = ret features3 /\ 1 < 3 /\
  exists C' L',
    net_sample_shape (vanilla_cnn.net model3) 1 4 = ret (C', L') /\
    rows features3 !! 1 =
      Some (Tensor [C' * L']
              (net_sample (vanilla_cnn.net model3) 1 4
                 (take 4 (drop (1 * 4) (data three_samples))))).
Proof.
  assert (wf three_samples) as H1 by reflexivity.
  assert (2 ≤ 3) as H2 by lia.
  assert (vanilla_cnn.get_cnn_outputs model3 three_samples = ret features3)
    as H3 by (vm_compute; reflexivity).
  assert (1 < 3) as H4 by lia.
  do 4 (split; [assumption|]).
  exact (get_cnn_outputs_rows model3 three_samples features3 3 4 1 [4; 1]
           H1 eq_refl eq_refl H2 H3 H4).
Defined.




End more_checks.
